(** * daily-reading: the store pipeline (check_stats.py) and the listing
      traversal (spiders/ssrn.py), embedded and verified.

    The development follows the two source files.

    - [Py]      the fragment of Python's data and exceptions the code uses:
                JSON values as produced by [json.loads] / [xmltodict.parse],
                dictionary access, hashing, iteration, [+=].
    - [Store]   the daily store files, [load_papers_data], [save_papers_data],
                [perform_deduplication], [perform_merge] and [main].
    - [Spider]  [SsrnSpider.build_url], [parse] and [parse_detail].

    Conventions.
    - A calendar date is its proleptic Gregorian day number (what
      [date.toordinal()] returns); the store file [../data/<date>.jsonl] is
      addressed by that number, so [strptime]/[strftime] on the
      [%Y-%m-%d] form do not appear.
    - JSON numbers are integers.
    - A text line of a store file is blank, or parses to a JSON value, or
      cannot be read or parsed ([LBad]).
    - [list(set(xs))] enumerates the distinct elements of [xs] in an order
      the language leaves open; it is a parameter of [perform_merge]. *)

From Stdlib Require Import Ascii String.
From stdpp Require Import base decidable option list strings gmap sets.

Set Default Proof Using "Type".
Set Warnings "-register-all,-clear-no-such-hyp".

Local Open Scope Z_scope.

(* ===================================================================== *)
(** * Python values and exceptions *)
(* ===================================================================== *)

Module Py.

Inductive exn :=
| KeyError | TypeError | AttributeError | ValueError
| OverflowError | OSError | JSONDecodeError.

Inductive result (A : Type) :=
| Ok (a : A)
| Raise (e : exn).
Arguments Ok {A} a.
Arguments Raise {A} e.

#[global] Instance exn_eq_dec : EqDecision exn.
Proof. solve_decision. Defined.

#[global] Instance result_eq_dec {A} `{EqDecision A} : EqDecision (result A).
Proof. solve_decision. Defined.

Definition bind {A B} (m : result A) (k : A → result B) : result B :=
  match m with
  | Ok a => k a
  | Raise e => Raise e
  end.

Inductive json :=
| JNull
| JBool (b : bool)
| JNum (n : Z)
| JStr (s : string)
| JArr (xs : list json)
| JObj (kvs : list (string * json)).

(** What a hashable value is reduced to when it is used as a [dict] key or a
    [set] element: [True == 1] and [False == 0] hash alike. *)
Inductive hkey :=
| KNone
| KNum (n : Z)
| KStr (s : string).

#[global] Instance hkey_eq_dec : EqDecision hkey.
Proof. solve_decision. Defined.

Definition hkey_enc (k : hkey) : unit + (Z + string) :=
  match k with
  | KNone => inl tt
  | KNum n => inr (inl n)
  | KStr s => inr (inr s)
  end.

Definition hkey_dec (x : unit + (Z + string)) : hkey :=
  match x with
  | inl _ => KNone
  | inr (inl n) => KNum n
  | inr (inr s) => KStr s
  end.

#[global] Instance hkey_countable : Countable hkey.
Proof. apply (inj_countable' hkey_enc hkey_dec). by intros []. Defined.

(** [hash(v)]: lists and dicts are unhashable. *)
Definition py_hash (v : json) : result hkey :=
  match v with
  | JNull => Ok KNone
  | JBool b => Ok (KNum (if b then 1 else 0))
  | JNum n => Ok (KNum n)
  | JStr s => Ok (KStr s)
  | JArr _ | JObj _ => Raise TypeError
  end.

(** Dictionaries keep insertion order; a key occurs once. *)
Fixpoint dict_get (k : string) (kvs : list (string * json)) : option json :=
  match kvs with
  | [] => None
  | (k', v) :: rest => if decide (k' = k) then Some v else dict_get k rest
  end.

Fixpoint dict_set (k : string) (v : json) (kvs : list (string * json))
  : list (string * json) :=
  match kvs with
  | [] => [(k, v)]
  | (k', v') :: rest =>
      if decide (k' = k) then (k, v) :: rest else (k', v') :: dict_set k v rest
  end.

(** [d[k]] *)
Definition py_getitem (d : json) (k : string) : result json :=
  match d with
  | JObj kvs =>
      match dict_get k kvs with
      | Some v => Ok v
      | None => Raise KeyError
      end
  | _ => Raise TypeError
  end.

(** [d.get(k, default)] *)
Definition py_get (d : json) (k : string) (dflt : json) : result json :=
  match d with
  | JObj kvs => Ok (default dflt (dict_get k kvs))
  | _ => Raise AttributeError
  end.

(** [d[k] = v] *)
Definition py_setitem (d : json) (k : string) (v : json) : result json :=
  match d with
  | JObj kvs => Ok (JObj (dict_set k v kvs))
  | _ => Raise TypeError
  end.

Fixpoint chars (s : string) : list json :=
  match s with
  | EmptyString => []
  | String c rest => JStr (String c EmptyString) :: chars rest
  end.

(** [iter(v)]: a list yields its elements, a string its characters, a dict
    its keys. *)
Definition py_iter (v : json) : result (list json) :=
  match v with
  | JArr xs => Ok xs
  | JStr s => Ok (chars s)
  | JObj kvs => Ok (JStr <$> kvs.*1)
  | _ => Raise TypeError
  end.

Definition as_int (v : json) : option Z :=
  match v with
  | JBool b => Some (if b then 1 else 0)
  | JNum n => Some n
  | _ => None
  end.

(** [x += y] *)
Definition py_iadd (x y : json) : result json :=
  match x with
  | JArr xs => bind (py_iter y) (λ ys, Ok (JArr (xs ++ ys)))
  | JStr s =>
      match y with
      | JStr t => Ok (JStr (s +:+ t))
      | _ => Raise TypeError
      end
  | JBool _ | JNum _ =>
      match as_int x, as_int y with
      | Some a, Some b => Ok (JNum (a + b))
      | _, _ => Raise TypeError
      end
  | JNull | JObj _ => Raise TypeError
  end.

End Py.

(* ===================================================================== *)
(** * The daily stores: check_stats.py *)
(* ===================================================================== *)

Module Store.
Import Py.

#[local] Instance result_ret : MRet result := λ A, Ok.
#[local] Instance result_bind : MBind result := λ A B k m, bind m k.

(** ** Files *)

Inductive line :=
| LBlank                (* [line.strip()] is empty *)
| LBad                  (* reading or [json.loads] raises on it *)
| LJson (data : json).  (* [json.loads(line)] *)

(** How writing a file goes wrong, if it does. *)
Inductive write_fault :=
| NoFault
| OpenFails                   (* [open(path, 'w')] raises: nothing is touched *)
| WriteFailsAfter (k : nat).  (* truncated, then [k] lines get written *)

(** The data directory and its environment. *)
Record world := World {
  files : gmap Z (list line);
  read_fails : Z → bool;        (* [open(path, 'r')] raises *)
  write_fails : Z → write_fault;
  remove_fails : Z → bool       (* [os.remove(path)] raises *)
}.

Definition set_files (w : world) (fs : gmap Z (list line)) : world :=
  {| files := fs; read_fails := read_fails w;
     write_fails := write_fails w; remove_fails := remove_fails w |}.

(** [os.path.exists] *)
Definition path_exists (w : world) (file_path : Z) : bool :=
  bool_decide (is_Some (files w !! file_path)).

(** [os.remove] *)
Definition os_remove (file_path : Z) (w : world) : result unit * world :=
  if remove_fails w file_path then (Raise OSError, w)
  else (Ok tt, set_files w (delete file_path (files w))).

(** ** load_papers_data *)

(** The body of [for line in f]. *)
Fixpoint read_lines (ls : list line) (papers : list json) (ids : gset hkey)
  : result (list json * gset hkey) :=
  match ls with
  | [] => Ok (papers, ids)
  | LBlank :: rest => read_lines rest papers ids
  | LBad :: _ => Raise JSONDecodeError
  | LJson data :: rest =>
      id ← py_get data "id" (JStr "");
      k ← py_hash id;
      read_lines rest (papers ++ [data]) (ids ∪ {[k]})
  end.

Definition load_papers_data (w : world) (file_path : Z)
  : list json * gset hkey :=
  if negb (path_exists w file_path) then ([], ∅)
  else
    let attempt :=
      if read_fails w file_path then Raise OSError
      else read_lines (default [] (files w !! file_path)) [] ∅ in
    match attempt with
    | Ok r => r
    | Raise _ => ([], ∅)
    end.

(** ** save_papers_data *)

Definition save_papers_data (papers : list json) (file_path : Z) (w : world)
  : bool * world :=
  match write_fails w file_path with
  | NoFault => (true, set_files w (<[file_path := LJson <$> papers]> (files w)))
  | OpenFails => (false, w)
  | WriteFailsAfter k =>
      (false, set_files w (<[file_path := LJson <$> take k papers]> (files w)))
  end.

(** ** perform_deduplication *)

Definition history_days : Z := 7.

(** [date - timedelta(days=i)]; [datetime.min] is day 1. *)
Definition minus_days (date i : Z) : result Z :=
  if decide (date - i < 1) then Raise OverflowError else Ok (date - i).

(** The loop over [range(1, history_days + 1)]. *)
Fixpoint collect_history (w : world) (date : Z) (days : list Z)
    (history_ids : gset hkey) : result (gset hkey) :=
  match days with
  | [] => Ok history_ids
  | i :: rest =>
      history_file ← minus_days date i;
      let '(_, past_ids) := load_papers_data w history_file in
      collect_history w date rest (history_ids ∪ past_ids)
  end.

(** [[paper for paper in today_papers
      if paper.get('id', '') not in duplicate_ids]] *)
Fixpoint keep_new (today_papers : list json) (duplicate_ids : gset hkey)
  : result (list json) :=
  match today_papers with
  | [] => Ok []
  | paper :: rest =>
      id ← py_get paper "id" (JStr "");
      k ← py_hash id;
      new_papers ← keep_new rest duplicate_ids;
      Ok (if decide (k ∈ duplicate_ids) then new_papers
          else paper :: new_papers)
  end.

Definition perform_deduplication (date : Z) (w : world) : string * world :=
  let today_file := date in
  if negb (path_exists w today_file) then ("no_data", w)
  else
    let '(today_papers, today_ids) := load_papers_data w today_file in
    match today_papers with
    | [] => ("no_data", w)
    | _ :: _ =>
        match collect_history w date (seqZ 1 history_days) ∅ with
        | Raise _ => ("error", w)
        | Ok history_ids =>
            let duplicate_ids := today_ids ∩ history_ids in
            if decide (duplicate_ids = ∅) then ("has_new_content", w)
            else
              match keep_new today_papers duplicate_ids with
              | Raise _ => ("error", w)
              | Ok [] =>
                  (* a failing [os.remove] is reported and passed over *)
                  let '(_, w') := os_remove today_file w in
                  ("no_new_content", w')
              | Ok new_papers =>
                  let '(saved, w') :=
                    save_papers_data new_papers today_file w in
                  if saved then ("has_new_content", w') else ("error", w')
              end
        end
    end.

(** ** perform_merge *)

(** The order in which [list(set(...))] enumerates a set in one run of the
    interpreter: some arrangement of its elements. *)
Record interp := Interp {
  list_of_set : list json → list json;
  list_of_set_perm : ∀ xs, list_of_set xs ≡ₚ xs
}.

(** The [merged] dictionary: insertion-ordered, one entry per key. *)
Fixpoint merged_get (k : hkey) (merged : list (hkey * json)) : option json :=
  match merged with
  | [] => None
  | (k', v) :: rest => if decide (k' = k) then Some v else merged_get k rest
  end.

Fixpoint merged_set (k : hkey) (v : json) (merged : list (hkey * json))
  : list (hkey * json) :=
  match merged with
  | [] => [(k, v)]
  | (k', v') :: rest =>
      if decide (k' = k) then (k, v) :: rest
      else (k', v') :: merged_set k v rest
  end.

(** One turn of [for item in today_papers]. *)
Definition merge_item (merged : list (hkey * json)) (item : json)
  : result (list (hkey * json)) :=
  item_id ← py_getitem item "id";
  k ← py_hash item_id;
  match merged_get k merged with
  | None => Ok (merged_set k item merged)   (* [copy.deepcopy(item)] *)
  | Some base =>
      category ← py_getitem base "category";
      more ← py_get item "category" (JArr []);
      category' ← py_iadd category more;
      base' ← py_setitem base "category" category';
      Ok (merged_set k base' merged)
  end.

Fixpoint merge_items (merged : list (hkey * json)) (today_papers : list json)
  : result (list (hkey * json)) :=
  match today_papers with
  | [] => Ok merged
  | item :: rest =>
      merged' ← merge_item merged item;
      merge_items merged' rest
  end.

Fixpoint hash_all (xs : list json) : result (list (hkey * json)) :=
  match xs with
  | [] => Ok []
  | x :: rest =>
      k ← py_hash x;
      kxs ← hash_all rest;
      Ok ((k, x) :: kxs)
  end.

(** The elements a set keeps: the first of each key, as inserted. *)
Fixpoint first_of_each (kxs : list (hkey * json)) : list (hkey * json) :=
  match kxs with
  | [] => []
  | (k, x) :: rest =>
      (k, x) :: filter (λ p, p.1 ≠ k) (first_of_each rest)
  end.

(** [list(set(v))] *)
Definition py_list_set (I : interp) (v : json) : result json :=
  xs ← py_iter v;
  kxs ← hash_all xs;
  Ok (JArr (list_of_set I (first_of_each kxs).*2)).

(** One turn of [for v in merged.values()]. *)
Definition dedup_category (I : interp) (v : json) : result json :=
  category ← py_getitem v "category";
  category' ← py_list_set I category;
  py_setitem v "category" category'.

Fixpoint dedup_categories (I : interp) (vs : list json)
  : result (list json) :=
  match vs with
  | [] => Ok []
  | v :: rest =>
      v' ← dedup_category I v;
      rest' ← dedup_categories I rest;
      Ok (v' :: rest')
  end.

(** From [merged = {}] to [result = list(merged.values())]. *)
Definition merge_papers (I : interp) (today_papers : list json)
  : result (list json) :=
  merged ← merge_items [] today_papers;
  dedup_categories I merged.*2.

Definition perform_merge (I : interp) (date : Z) (w : world)
  : string * world :=
  let today_file := date in
  if negb (path_exists w today_file) then ("no_data", w)
  else
    let '(today_papers, today_ids) := load_papers_data w today_file in
    match today_papers with
    | [] => ("no_data", w)
    | _ :: _ =>
        match merge_papers I today_papers with
        | Raise _ => ("error", w)
        | Ok result =>
            let '(saved, w') := save_papers_data result today_file w in
            if saved then ("merge_success", w') else ("error", w')
        end
    end.

(** ** main *)

(** [main], with the two stages it calls as parameters; [sys.exit(n)] is
    the returned [n]. *)
Definition gate (merge dedup : Z → world → string * world)
    (date : Z) (w : world) : Z * world :=
  let '(merge_status, w1) := merge date w in
  if decide (merge_status = "merge_success") then
    let '(dedup_status, w2) := dedup date w1 in
    if decide (dedup_status = "has_new_content") then (0, w2)
    else if decide (dedup_status = "no_new_content") then (1, w2)
    else if decide (dedup_status = "no_data") then (1, w2)
    else if decide (dedup_status = "error") then (2, w2)
    else (2, w2)
  else if decide (merge_status = "no_data") then (1, w1)
  else if decide (merge_status = "error") then (2, w1)
  else (2, w1).

Definition main (I : interp) (date : Z) (w : world) : Z * world :=
  gate (perform_merge I) perform_deduplication date w.

End Store.

(* ===================================================================== *)
(** * The listing traversal: spiders/ssrn.py *)
(* ===================================================================== *)

Module Spider.
Import Py.

#[local] Instance result_ret : MRet result := λ A, Ok.
#[local] Instance result_bind : MBind result := λ A B k m, bind m k.

(** ** str.strip *)

(** The whitespace [str.strip] removes, among the ASCII characters. *)

Definition is_space (c : ascii) : bool :=
  let n := nat_of_ascii c in
  bool_decide ((9 ≤ n ≤ 13)%nat ∨ (28 ≤ n ≤ 32)%nat).

Fixpoint lstrip (s : string) : string :=
  match s with
  | EmptyString => EmptyString
  | String c rest => if is_space c then lstrip rest else s
  end.

Fixpoint rstrip (s : string) : string :=
  match s with
  | EmptyString => EmptyString
  | String c rest =>
      match rstrip rest with
      | EmptyString => if is_space c then EmptyString else String c EmptyString
      | rest' => String c rest'
      end
  end.

Definition strip (s : string) : string := rstrip (lstrip s).

(** ** Requests and responses *)

Inductive url :=
| PapersUrl (cat_id index count sort : Z)
    (* api.ssrn.com/content/v1/bindings/<cat_id>/papers?index=..&count=..&sort=.. *)
| PaperUrl (id : json).
    (* api.ssrn.com/papers/v1/papers/<id> *)

Inductive callback := Parse | ParseDetail.

Record request := Request {
  req_url : url;
  req_callback : callback;
  req_meta : json
}.

(** A response as the callbacks see it: [xmltodict.parse(response.text)]
    and [response.meta]. *)
Record response := Response {
  resp_data : json;
  resp_meta : json
}.

(** What a generator has done when it stops: the values it yielded and, if
    it stopped by raising, the exception. *)
Definition gen (A : Type) : Type := list A * option exn.

Definition gen_raise {A} (e : exn) : gen A := ([], Some e).
Definition gen_yield {A} (a : A) (g : gen A) : gen A := (a :: g.1, g.2).

(** [min] and [max] of a list; [ValueError] on the empty one. *)
Definition py_min (ds : list Z) : result Z :=
  match ds with
  | [] => Raise ValueError
  | d :: rest => Ok (foldl Z.min d rest)
  end.

Definition py_max (ds : list Z) : result Z :=
  match ds with
  | [] => Raise ValueError
  | d :: rest => Ok (foldl Z.max d rest)
  end.

Section spider.

(** [datetime.strptime(s, "%d %b %Y")], as a day number; [None] where it
    raises [ValueError]. *)
Variable strptime_dmy : string → option Z.

Record SsrnSpider := {
  target_categories : list string;
  date : Z;
  date_str : string;                 (* [date.strftime("%d %b %Y")] *)
  category2id : list (string * Z)
}.

Definition the_category2id : list (string * Z) :=
  [("IS", 304241); ("MKT", 298223); ("AC", 204); ("CS", 2894322);
   ("ECON", 205); ("FE", 203); ("MG", 200668)].

Fixpoint table_get (k : string) (t : list (string * Z)) : option Z :=
  match t with
  | [] => None
  | (k', v) :: rest => if decide (k' = k) then Some v else table_get k rest
  end.

Definition build_url (self : SsrnSpider) (cat : json) (index : Z)
  : result url :=
  match cat with
  | JStr c =>
      match table_get c (category2id self) with
      | Some cat_id => Ok (PapersUrl cat_id index 50 0)
      | None => Raise KeyError
      end
  | JArr _ | JObj _ => Raise TypeError
  | _ => Raise KeyError
  end.

(** [paper.get("approved_date", "").strip()] *)
Definition approved_date_of (paper : json) : result string :=
  v ← py_get paper "approved_date" (JStr "");
  match v with
  | JStr s => Ok (strip s)
  | _ => Raise AttributeError
  end.

(** The first loop of [parse]. *)
Fixpoint approved_dates (papers : list json) : result (list Z) :=
  match papers with
  | [] => Ok []
  | paper :: rest =>
      approved_date ← approved_date_of paper;
      if decide (approved_date = "") then approved_dates rest
      else
        match strptime_dmy approved_date with
        | None => Raise ValueError
        | Some d => ds ← approved_dates rest; Ok (d :: ds)
        end
  end.

(** The request for the page after [index]. *)
Definition next_page (self : SsrnSpider) (category index : json)
  : result request :=
  i ← from_option Ok (Raise TypeError) (as_int index);
  u ← build_url self category (i + 50);
  Ok (Request u Parse
        (JObj [("category", category); ("index", JNum (i + 50))])).

Definition yield_next_page (self : SsrnSpider) (category index : json)
  : gen request :=
  match next_page self category index with
  | Ok r => ([r], None)
  | Raise e => gen_raise e
  end.

(** One turn of the second loop of [parse]: the entry with its category
    set, and whether a detail request is made for it. *)
Definition visit (self : SsrnSpider) (category paper : json)
  : result (option request) :=
  paper' ← py_setitem paper "category" (JArr [category]);
  approved_date ← approved_date_of paper';
  if decide (approved_date ≠ date_str self) then Ok None
  else
    id ← py_getitem paper' "id";
    Ok (Some (Request (PaperUrl id) ParseDetail (JObj [("paper", paper')]))).

Fixpoint visit_all (self : SsrnSpider) (category index : json)
    (papers : list json) : gen request :=
  match papers with
  | [] => yield_next_page self category index
  | paper :: rest =>
      match visit self category paper with
      | Raise e => gen_raise e
      | Ok None => visit_all self category index rest
      | Ok (Some r) => gen_yield r (visit_all self category index rest)
      end
  end.

Definition parse (self : SsrnSpider) (r : response) : gen request :=
  let data := resp_data r in
  let setup :=
    category ← py_get (resp_meta r) "category" JNull;
    index ← py_get (resp_meta r) "index" JNull;
    a ← py_get data "PaperResultSet" (JObj []);
    b ← py_get a "papers" (JObj []);
    c ← py_get b "papers" (JArr []);
    papers ← py_iter c;
    dates ← approved_dates papers;
    earliest ← py_min dates;
    Ok (category, index, papers, dates, earliest) in
  match setup with
  | Raise e => gen_raise e
  | Ok (category, index, papers, dates, earliest) =>
      if decide (earliest > date self) then
        yield_next_page self category index
      else
        match py_max dates with
        | Raise e => gen_raise e
        | Ok latest =>
            if decide (latest < date self) then ([], None)
            else visit_all self category index papers
        end
  end.

(** [parse_detail]: the entry carried in [meta], with the detail record
    put under ['detail']. *)
Definition parse_detail (r : response) : gen json :=
  let step :=
    paper ← py_getitem (resp_meta r) "paper";
    detail ← py_get (resp_data r) "PaperJson" (JObj []);
    py_setitem paper "detail" detail in
  match step with
  | Ok paper' => ([paper'], None)
  | Raise e => gen_raise e
  end.

End spider.

(** ** __init__ and start_requests *)

(** [s.split(",")]: one piece more than there are commas. *)
Fixpoint split_comma (s : string) : list string :=
  match s with
  | EmptyString => [EmptyString]
  | String c rest =>
      if decide (c = ","%char) then EmptyString :: split_comma rest
      else
        match split_comma rest with
        | piece :: pieces => String c piece :: pieces
        | [] => [String c EmptyString]
        end
  end.

(** The strings a set keeps of [xs]: each once, as first inserted. *)
Fixpoint first_strings (xs : list string) : list string :=
  match xs with
  | [] => []
  | x :: rest => x :: filter (λ y, y ≠ x) (first_strings rest)
  end.

Section startup.

(** [datetime.strptime(s, "%Y-%m-%d")] as a day number, [None] where it
    raises [ValueError]; [d.strftime("%d %b %Y")]; the text of
    [datetime.now().strftime("%Y-%m-%d")]; and the order in which this run
    of the interpreter enumerates a set of strings. *)
Variable strptime_ymd : string → option Z.
Variable strftime_dmy : Z → string.
Variable now : string.
Variable set_order : list string → list string.

(** [SsrnSpider.__init__], given the spider arguments [CATEGORIES] and
    [DATE] if they were passed. *)
Definition init (CATEGORIES DATE : option string) : result SsrnSpider :=
  let categories := default "IS,MKT,ECON,MG" CATEGORIES in
  let date := default now DATE in
  let target_categories :=
    set_order (first_strings (strip <$> split_comma categories)) in
  match strptime_ymd date with
  | None => Raise ValueError
  | Some d =>
      Ok {| target_categories := target_categories;
            date := d;
            date_str := strftime_dmy d;
            category2id := the_category2id |}
  end.

End startup.

(** The loop of [start_requests] over the categories still to come. *)
Fixpoint start_requests_from (self : SsrnSpider) (cats : list string)
  : gen request :=
  match cats with
  | [] => ([], None)
  | cat :: rest =>
      match build_url self (JStr cat) 0 with
      | Raise e => gen_raise e
      | Ok u =>
          gen_yield
            (Request u Parse (JObj [("category", JStr cat); ("index", JNum 0)]))
            (start_requests_from self rest)
      end
  end.

Definition start_requests (self : SsrnSpider) : gen request :=
  start_requests_from self (target_categories self).


End Spider.

(* ===================================================================== *)
(** * Vocabulary of the statements about the stores *)
(* ===================================================================== *)

Module StoreTerms.
Import Py Store.

#[local] Instance result_ret : MRet result := λ A, Ok.
#[local] Instance result_bind : MBind result := λ A B k m, bind m k.

(** The key under which the store code files a record: its ['id'], the
    empty string when it has none. *)
Definition id_key (paper : json) : result hkey :=
  id ← py_get paper "id" (JStr "");
  py_hash id.

(** The records on the lines of a file. *)
Fixpoint records (ls : list line) : list json :=
  match ls with
  | [] => []
  | LJson data :: rest => data :: records rest
  | _ :: rest => records rest
  end.

(** The records and the identifiers of a day's store, as the code reads
    them. *)
Definition stored_papers (w : world) (day : Z) : list json :=
  (load_papers_data w day).1.

Definition stored_ids (w : world) (day : Z) : gset hkey :=
  (load_papers_data w day).2.

(** The identifiers of the 7 days before [day]. *)
Definition window_ids (w : world) (day : Z) : gset hkey :=
  ⋃ ((λ i, stored_ids w (day - i)) <$> seqZ 1 history_days).

(** A record whose identifier is in [dups]. *)
Definition is_duplicate (dups : gset hkey) (paper : json) : Prop :=
  ∃ k, id_key paper = Ok k ∧ k ∈ dups.

#[global] Instance is_duplicate_dec dups paper :
  Decision (is_duplicate dups paper).
Proof.
  unfold is_duplicate. destruct (id_key paper) as [k|e].
  - destruct (decide (k ∈ dups)) as [Hin|Hnin].
    + left. eauto.
    + right. intros (k' & Hk & Hin). congruence.
  - right. intros (k' & Hk & _). discriminate.
Defined.

(** The records that outlive the removal of [dups]. *)
Definition survivors (dups : gset hkey) (papers : list json) : list json :=
  filter (λ paper, ¬ is_duplicate dups paper) papers.

(** [perform_deduplication] told by the records, the identifiers and the
    survivors: the form the statements below are proved from. *)
Definition dedup_outcome (date : Z) (w : world) : string * world :=
  let papers := stored_papers w date in
  let dups := stored_ids w date ∩ window_ids w date in
  if negb (path_exists w date) then ("no_data", w)
  else
    match papers with
    | [] => ("no_data", w)
    | _ :: _ =>
        if decide (date ≤ 7) then ("error", w)
        else if decide (dups = ∅) then ("has_new_content", w)
        else
          match survivors dups papers with
          | [] => ("no_new_content", (os_remove date w).2)
          | new_papers =>
              let r := save_papers_data new_papers date w in
              (if r.1 then "has_new_content" else "error", r.2)
          end
    end.


(** C1 as it is written, at one date and one state of the directory. *)
Definition no_duplicates_left (date : Z) (w : world) : Prop :=
  ∀ status w', perform_deduplication date w = (status, w') →
    status ≠ "error" →
    stored_ids w' date ∩ window_ids w' date = ∅.


(** C4 as it is written, at one date and one state of the directory. *)
Definition removal_shows_in_file (date : Z) (w : world) : Prop :=
  let w' := (perform_deduplication date w).2 in
  let dups := stored_ids w date ∩ window_ids w date in
  let new_papers := survivors dups (stored_papers w date) in
  (new_papers = [] → files w' !! date = None)
  ∧ (new_papers ≠ [] →
     is_Some (files w' !! date) ∧ stored_papers w' date = new_papers)
  ∧ (dups = ∅ → w' = w).


(** Reading the store of [day] raises: the file is there and it cannot be
    opened, or one of its lines cannot be read into a record. *)
Definition read_raises (w : world) (day : Z) : Prop :=
  ∃ ls, files w !! day = Some ls
        ∧ (read_fails w day = true ∨ ∃ e, read_lines ls [] ∅ = Raise e).

(** C7 as it is written, at one date and one state of the directory: each
    of the four failures, where the run meets it, ends the run in
    [error]. *)
Definition failures_end_in_error (date : Z) (w : world) : Prop :=
  let status := (perform_deduplication date w).1 in
  let papers := stored_papers w date in
  let dups := stored_ids w date ∩ window_ids w date in
  let new_papers := survivors dups papers in
  (read_raises w date → status = "error")
  ∧ (papers ≠ [] → (∃ i, 1 ≤ i ≤ 7 ∧ read_raises w (date - i)) →
     status = "error")
  ∧ (dups ≠ ∅ → new_papers ≠ [] → write_fails w date ≠ NoFault →
     status = "error")
  ∧ (papers ≠ [] → dups ≠ ∅ → new_papers = [] →
     remove_fails w date = true → status = "error").


(** The records on the lines of the day's file, none if there is no file. *)
Definition day_records (w : world) (day : Z) : list json :=
  records (default [] (files w !! day)).

(** The store is rewritten by [perform_merge], and the rewrite fails. *)
Definition persist_fails (I : interp) (w : world) (date : Z) : Prop :=
  stored_papers w date ≠ []
  ∧ (∃ result, merge_papers I (stored_papers w date) = Ok result)
  ∧ write_fails w date ≠ NoFault.

(** C6 as it is written, at one date and one state of the directory. *)
Definition merge_status_as_written (I : interp) (date : Z) (w : world)
  : Prop :=
  let status := (perform_merge I date w).1 in
  (status = "merge_success" ↔
     day_records w date ≠ [] ∧ write_fails w date = NoFault)
  ∧ (status = "no_data" ↔
     files w !! date = None ∨ day_records w date = [])
  ∧ (status = "error" ↔ read_raises w date ∨ persist_fails I w date).

(** The exit code by the table of the workflow gate: the merge status
    first, the deduplication status if the merge succeeded. *)
Definition gate_table (merge_status dedup_status : string) : Z :=
  if decide (merge_status = "merge_success") then
    if decide (dedup_status = "has_new_content") then 0
    else if decide (dedup_status = "no_new_content"
                    ∨ dedup_status = "no_data") then 1
    else 2
  else if decide (merge_status = "no_data") then 1
  else 2.


(** ** Vocabulary of the statements about [perform_merge] *)

(** The identifier [perform_merge] files a record under: its ['id'], which
    has to be there. *)
Definition record_key (paper : json) : result hkey :=
  id ← py_getitem paper "id";
  py_hash id.

(** The category sequence of a record; none if it has no ['category']. *)
Definition categories (paper : json) : list json :=
  match py_get paper "category" (JArr []) with
  | Ok (JArr xs) => xs
  | _ => []
  end.

(** The record is a dictionary whose ['category'], if it has one, is a
    sequence. *)
Definition category_is_sequence (paper : json) : Prop :=
  ∃ xs, py_get paper "category" (JArr []) = Ok (JArr xs).

(** The record with [xs] for its category, everything else as it was. *)
Definition with_category (paper : json) (xs : list json) : json :=
  match paper with
  | JObj kvs => JObj (dict_set "category" (JArr xs) kvs)
  | _ => paper
  end.

(** The records of [papers] filed under [k], in their order. *)
Definition same_id (k : hkey) (papers : list json) : list json :=
  filter (λ p, record_key p = Ok k) papers.

(** The distinct keys of [ks], each at its first occurrence. *)
Fixpoint distinct (ks : list hkey) : list hkey :=
  match ks with
  | [] => []
  | k :: rest => k :: filter (λ k', k' ≠ k) (distinct rest)
  end.

(** [cs] holds no two values that are equal as set elements. *)
Definition no_duplicate_values (cs : list json) : Prop :=
  ∃ cks, Forall2 (λ c k, py_hash c = Ok k) cs cks ∧ NoDup cks.

(** [cs] and [xs] hold the same values, as set elements. *)
Definition same_values (cs xs : list json) : Prop :=
  (∀ c, c ∈ cs → c ∈ xs)
  ∧ (∀ x, x ∈ xs → ∃ c, c ∈ cs ∧ py_hash c = py_hash x).

(** [r] is what the records of [papers] filed under [k] merge into: the
    first of them, with the distinct values of all their category
    sequences for its category. *)
Definition merged_record (papers : list json) (k : hkey) (r : json) : Prop :=
  ∃ base rest cs,
    same_id k papers = base :: rest
    ∧ r = with_category base cs
    ∧ no_duplicate_values cs
    ∧ same_values cs (concat (categories <$> base :: rest)).

(** [r'] is [r] with the values of its category in another order. *)
Definition same_but_category_order (r r' : json) : Prop :=
  ∃ cs cs', py_getitem r "category" = Ok (JArr cs)
            ∧ r' = with_category r cs' ∧ cs' ≡ₚ cs.

(** C8 as it is written, at one date and one state of the directory:
    merging a merged store leaves the file as it is. *)
Definition merge_is_idempotent (I : interp) (date : Z) (w : world) : Prop :=
  ∀ w1 status w2,
    perform_merge I date w = ("merge_success", w1) →
    perform_merge I date w1 = (status, w2) →
    files w2 !! date = files w1 !! date.


(** The [merged] dictionary files every record under its own identifier,
    each identifier once. *)
Definition keyed (merged : list (hkey * json)) : Prop :=
  NoDup merged.*1 ∧ Forall (λ kv, record_key kv.2 = Ok kv.1) merged.

(** A record as [perform_merge] writes it: its category is a sequence
    without duplicate values. *)
Definition merged_form (r : json) : Prop :=
  ∃ cs, py_getitem r "category" = Ok (JArr cs) ∧ no_duplicate_values cs.


(** What the first loop has made of the records filed under one
    identifier, [base] the first and [rest] the others: [base] untouched
    while it is alone, then [base] with all their categories in a row. *)
Definition accumulated (base : json) (rest : list json) (v : json) : Prop :=
  (rest = [] ∧ v = base)
  ∨ v = with_category base (concat (categories <$> base :: rest)).

(** The [merged] dictionary after the records [seen], whose identifiers are
    [ks]. *)
Definition merged_so_far (seen : list json) (ks : list hkey)
    (merged : list (hkey * json)) : Prop :=
  Forall2 (λ p k, record_key p = Ok k) seen ks
  ∧ merged.*1 = distinct ks
  ∧ Forall (λ kv, ∃ base rest,
              same_id kv.1 seen = base :: rest
              ∧ accumulated base rest kv.2) merged.


(** A value whose ['category'] is a sequence of hashable values. *)
Definition hashable_category (v : json) : Prop :=
  ∃ kvs xs kxs, v = JObj kvs ∧ dict_get "category" kvs = Some (JArr xs)
                ∧ hash_all xs = Ok kxs.

(** A paper record of the data model: a dictionary with a hashable ['id']
    and a ['category'] that is a sequence of hashable values. *)
Definition paper_record (p : json) : Prop :=
  (∃ k, record_key p = Ok k) ∧ hashable_category p.

End StoreTerms.

(* ===================================================================== *)
(** * Sample stores *)
(* ===================================================================== *)

Module Samples.
Import Py Store.

(** 2025-07-22 as a day number. *)
Definition day : Z := 739454.

Definition paper (id : string) (categories : list string) : json :=
  JObj [("id", JStr id); ("category", JArr (JStr <$> categories));
        ("approved_date", JStr "22 Jul 2025")].

Definition no_id_paper : json :=
  JObj [("category", JArr [JStr "IS"]); ("approved_date", JStr "22 Jul 2025")].

(** A directory in which every operation goes through. *)
Definition calm (fs : gmap Z (list line)) : world :=
  {| files := fs; read_fails := λ _, false;
     write_fails := λ _, NoFault; remove_fails := λ _, false |}.

(** Two iteration orders of a set: as inserted, and the reverse. *)
Definition first_seen : interp :=
  {| list_of_set := λ xs, xs; list_of_set_perm := λ xs, reflexivity xs |}.

Definition last_seen : interp :=
  {| list_of_set := reverse; list_of_set_perm := reverse_Permutation |}.

(** The day holds A, B and C; the day before holds B. *)
Definition abc_files : gmap Z (list line) :=
  <[day := [LJson (paper "A" ["IS"]); LJson (paper "B" ["IS"]);
            LJson (paper "C" ["MKT"])]]>
  (<[day - 1 := [LJson (paper "B" ["IS"])]]> ∅).

Definition ac_files : gmap Z (list line) :=
  <[day := [LJson (paper "A" ["IS"]); LJson (paper "C" ["MKT"])]]>
  (<[day - 1 := [LJson (paper "B" ["IS"])]]> ∅).

(** The day holds A only, and so does the store of four days before. *)
Definition a_files : gmap Z (list line) :=
  <[day := [LJson (paper "A" ["IS"])]]>
  (<[day - 4 := [LJson (paper "A" ["MKT"])]]> ∅).

(** The same, in a directory where files cannot be deleted. *)
Definition a_stuck : world :=
  {| files := a_files; read_fails := λ _, false;
     write_fails := λ _, NoFault; remove_fails := λ _, true |}.


(** The day's file has a record and then a line that does not parse. *)
Definition garbled_files : gmap Z (list line) :=
  <[day := [LJson (paper "A" ["IS"]); LBad]]> ∅.

(** The day holds A, B and C, B is in the store of the day before, and the
    day's file cannot be opened for writing. *)
Definition abc_read_only : world :=
  {| files := abc_files; read_fails := λ _, false;
     write_fails := λ _, OpenFails; remove_fails := λ _, false |}.


(** The day holds a record without ['id'] and the record B. *)
Definition anonymous_files : gmap Z (list line) :=
  <[day := [LJson no_id_paper; LJson (paper "B" ["MKT"])]]> ∅.

(** The same, with a record without ['id'] in the store of the day
    before. *)
Definition anonymous_again_files : gmap Z (list line) :=
  <[day := [LJson no_id_paper; LJson (paper "B" ["MKT"])]]>
  (<[day - 1 := [LJson no_id_paper]]> ∅).


(** The day holds one record, filed under IS and MKT in that order, and the
    same with the two categories the other way round. *)
Definition is_mkt_files : gmap Z (list line) :=
  <[day := [LJson (paper "123" ["IS"; "MKT"])]]> ∅.

Definition mkt_is_files : gmap Z (list line) :=
  <[day := [LJson (paper "123" ["MKT"; "IS"])]]> ∅.

(** The day holds paper 123 twice, once under IS and once under MKT, and
    paper 456 in between. *)
Definition twice_files : gmap Z (list line) :=
  <[day := [LJson (paper "123" ["IS"]); LJson (paper "456" ["IS"]);
            LJson (paper "123" ["MKT"])]]> ∅.

Definition twice_merged_files : gmap Z (list line) :=
  <[day := [LJson (paper "123" ["IS"; "MKT"]);
            LJson (paper "456" ["IS"])]]> ∅.

End Samples.


(* ===================================================================== *)
(** * Vocabulary of the statements about the traversal *)
(* ===================================================================== *)

Module SpiderTerms.
Import Py Spider.

(** The response to the listing request of [category] at [index], with
    [papers] for its entries. *)
Definition listing_response (papers : list json) (category : string)
    (index : Z) : response :=
  {| resp_data :=
       JObj [("PaperResultSet",
              JObj [("papers", JObj [("papers", JArr papers)])])];
     resp_meta := JObj [("category", JStr category); ("index", JNum index)] |}.

(** The request for the page after [index]. *)
Definition next_request (cat_id : Z) (category : string) (index : Z)
  : request :=
  Request (PapersUrl cat_id (index + 50) 50 0) Parse
    (JObj [("category", JStr category); ("index", JNum (index + 50))]).

(** The entry with the one category it was listed under. *)
Definition tagged (category : string) (kvs : list (string * json))
  : list (string * json) :=
  dict_set "category" (JArr [JStr category]) kvs.

(** The combined record: the tagged entry with the detail record in it. *)
Definition combined (category : string) (kvs doc : list (string * json))
  : json :=
  JObj (dict_set "detail" (default (JObj []) (dict_get "PaperJson" doc))
          (tagged category kvs)).

(** [req] is the detail request made for the entry [paper], and the answer
    to it, whatever the detail document, makes [parse_detail] emit the
    combined record. *)
Definition emitted_for (category : string) (paper : json) (req : request)
  : Prop :=
  ∃ kvs id,
    paper = JObj kvs ∧ dict_get "id" kvs = Some id
    ∧ req = Request (PaperUrl id) ParseDetail
              (JObj [("paper", JObj (tagged category kvs))])
    ∧ ∀ doc, parse_detail {| resp_data := JObj doc; resp_meta := req_meta req |}
             = ([combined category kvs doc], None).

(** The entry's approved date, stripped, is the text the target date is
    printed as: the test [parse] makes before it asks for a detail. *)
Definition printed_as_target (self : SsrnSpider) (paper : json) : Prop :=
  approved_date_of paper = Ok (date_str self).

#[global] Instance printed_as_target_dec self paper :
  Decision (printed_as_target self paper).
Proof. unfold printed_as_target. apply _. Defined.

Section terms.

Variable strptime_dmy : string → option Z.

(** The approved date of an entry, if it has one that parses. *)
Definition entry_date (paper : json) : option Z :=
  match approved_date_of paper with
  | Ok s => if decide (s = "") then None else strptime_dmy s
  | Raise _ => None
  end.

(** The target date is printed as a date that reads back as itself. *)
Definition spider_ok (self : SsrnSpider) : Prop :=
  date_str self ≠ "" ∧ strptime_dmy (date_str self) = Some (date self).

(** An entry as the listing endpoint sends it: a dictionary with an ['id']
    whose ['approved_date'], if there is one, is a text that is blank or
    that [strptime] reads as a date, however it is written. *)
Definition listing_entry (self : SsrnSpider) (paper : json) : Prop :=
  ∃ kvs s,
    paper = JObj kvs ∧ is_Some (dict_get "id" kvs)
    ∧ approved_date_of paper = Ok s
    ∧ (s ≠ "" → is_Some (strptime_dmy s)).

(** C5 as it is written, at one page: the three cases by the earliest and
    the latest approved date of the page, the detail requests being those
    of the entries whose approved date is the target date. *)
Definition parse_by_dates (self : SsrnSpider) (papers : list json)
    (category : string) (index cat_id : Z) : Prop :=
  let r := listing_response papers category index in
  let dates := omap entry_date papers in
  let next := next_request cat_id category index in
  (Forall (λ d, date self < d) dates →
   parse strptime_dmy self r = ([next], None))
  ∧ (¬ Forall (λ d, date self < d) dates →
     Forall (λ d, d < date self) dates →
     parse strptime_dmy self r = ([], None))
  ∧ (¬ Forall (λ d, date self < d) dates →
     ¬ Forall (λ d, d < date self) dates →
     ∃ details,
       parse strptime_dmy self r = (details ++ [next], None)
       ∧ Forall2 (emitted_for category)
           (filter (λ p, entry_date p = Some (date self)) papers) details).

(** An entry without an approved date that parses. *)
Definition undated (paper : json) : Prop :=
  ∃ s, approved_date_of paper = Ok s ∧ (s ≠ "" → strptime_dmy s = None).

End terms.

(** ** Samples *)

(** [strptime] on the three dates the samples use. *)
Definition strptime_sample (s : string) : option Z :=
  if decide (s = "21 Jul 2025") then Some 739453
  else if decide (s = "22 Jul 2025") then Some 739454
  else if decide (s = "23 Jul 2025") then Some 739455
  else None.

(** The spider of [main.py]: the default categories, 2025-07-22. *)
Definition spider_0722 : SsrnSpider :=
  {| target_categories := ["IS"; "MKT"; "ECON"; "MG"];
     date := 739454;
     date_str := "22 Jul 2025";
     category2id := the_category2id |}.

Definition entry (id approved_date : string) : json :=
  JObj [("id", JStr id); ("approved_date", JStr approved_date)].

(** A page that straddles the target date. *)
Definition straddling_page : list json :=
  [entry "1" "23 Jul 2025"; entry "2" " 22 Jul 2025 "; entry "3" "";
   entry "4" "22 Jul 2025"; entry "5" "21 Jul 2025"].

(** [strptime] on 1 July 2025 as [%d %b %Y] reads it: with or without the
    leading zero, in either case of the month. *)
Definition strptime_july (s : string) : option Z :=
  if decide (s = "01 Jul 2025") then Some 739433
  else if decide (s = "1 Jul 2025") then Some 739433
  else if decide (s = "01 jul 2025") then Some 739433
  else None.

(** A spider for 2025-07-01. *)
Definition spider_0701 : SsrnSpider :=
  {| target_categories := ["IS"; "MKT"; "ECON"; "MG"];
     date := 739433;
     date_str := "01 Jul 2025";
     category2id := the_category2id |}.

(** A page of three entries of 1 July 2025, written three ways. *)
Definition july_page : list json :=
  [entry "1" "1 Jul 2025"; entry "2" "01 Jul 2025"; entry "3" "01 jul 2025"].

End SpiderTerms.


(* ===================================================================== *)
(** * Vocabulary of the further statements *)
(* ===================================================================== *)

Module MoreTerms.
Import Py Store StoreTerms Samples.

(** A line that [load_papers_data] cannot take in: it does not parse, or it
    is not a dictionary, or its ['id'] is not hashable. *)
Definition unloadable (l : line) : Prop :=
  l = LBad ∨ ∃ data e, l = LJson data ∧ id_key data = Raise e.

(** The two states of the directory hold the same files and fail alike on
    every day but [date]. *)
Definition same_elsewhere (date : Z) (w w' : world) : Prop :=
  (∀ day, day ≠ date → files w' !! day = files w !! day)
  ∧ read_fails w' = read_fails w
  ∧ write_fails w' = write_fails w
  ∧ remove_fails w' = remove_fails w.

(** The two states of the directory are alike on [date] and on the seven
    days before it. *)
Definition same_window (date : Z) (w1 w2 : world) : Prop :=
  (∀ day, date - 7 ≤ day ≤ date →
     files w1 !! day = files w2 !! day
     ∧ read_fails w1 day = read_fails w2 day)
  ∧ write_fails w1 date = write_fails w2 date
  ∧ remove_fails w1 date = remove_fails w2 date.

(** The day's file has a blank line between its records, and a record with
    a list for its ['id']. *)
Definition spaced_files : gmap Z (list line) :=
  <[day := [LJson (paper "A" ["IS"]); LBlank; LJson (paper "C" ["MKT"])]]> ∅.

Definition list_id_paper : json :=
  JObj [("id", JArr [JStr "A"]); ("category", JArr [JStr "IS"])].

Definition list_id_files : gmap Z (list line) :=
  <[day := [LJson (paper "A" ["IS"]); LJson list_id_paper]]> ∅.

(** A record without ['category']. *)
Definition no_category_paper : json :=
  JObj [("id", JStr "B"); ("approved_date", JStr "22 Jul 2025")].

Definition no_category_files : gmap Z (list line) :=
  <[day := [LJson (paper "A" ["IS"]); LJson no_category_paper;
            LJson (paper "A" ["MKT"])]]> ∅.

(** The day holds A and C, the store of eight days before holds A, and
    the same without that older store. *)
Definition old_a_files : gmap Z (list line) :=
  <[day := [LJson (paper "A" ["IS"]); LJson (paper "C" ["MKT"])]]>
  (<[day - 8 := [LJson (paper "A" ["IS"])]]> ∅).

Definition ac_only_files : gmap Z (list line) :=
  <[day := [LJson (paper "A" ["IS"]); LJson (paper "C" ["MKT"])]]> ∅.

End MoreTerms.


Module SpiderMoreTerms.
Import Py Store Spider SpiderTerms StoreTerms.

(** The request [start_requests] makes for a category of the table. *)
Definition first_request (cat_id : Z) (category : string) : request :=
  Request (PapersUrl cat_id 0 50 0) Parse
    (JObj [("category", JStr category); ("index", JNum 0)]).

(** [reqs] are the first requests of the categories [cats], in order. *)
Definition first_requests (self : SsrnSpider) (cats : list string)
    (reqs : list request) : Prop :=
  Forall2 (λ cat req, ∃ cat_id, table_get cat (category2id self) = Some cat_id
                                ∧ req = first_request cat_id cat) cats reqs.

(** A detail request as [parse] makes them for the category [category]:
    it carries an entry that has an ['id'], asks for the paper of that
    ['id'], and the entry has [category] alone for its category. *)
Definition detail_request (category : json) (req : request) : Prop :=
  ∃ paper id,
    req = Request (PaperUrl id) ParseDetail (JObj [("paper", paper)])
    ∧ py_getitem paper "id" = Ok id
    ∧ py_getitem paper "category" = Ok (JArr [category]).

(** A record as the traversal emits it: a combined record of an entry
    whose ['id'] is hashable. *)
Definition emitted_record (r : json) : Prop :=
  ∃ category kvs doc id k,
    r = combined category kvs doc
    ∧ dict_get "id" kvs = Some id ∧ py_hash id = Ok k.

(** The spider of [main.py] with a category that is not in the table. *)
Definition spider_typo : SsrnSpider :=
  {| target_categories := ["IS"; "MKTG"; "ECON"];
     date := 739454;
     date_str := "22 Jul 2025";
     category2id := the_category2id |}.

(** [strptime] on the one date the samples pass to [init]. *)
Definition strptime_ymd_sample (s : string) : option Z :=
  if decide (s = "2025-07-22") then Some 739454 else None.

Definition strftime_sample (d : Z) : string :=
  if decide (d = 739454) then "22 Jul 2025" else "".

(** A page with an entry of the target date and an entry whose date does
    not parse. *)
Definition misdated_page : list json :=
  [entry "1" "22 Jul 2025"; entry "2" "July 22"].

(** The day's file holds what the traversal emitted for one paper listed
    under IS and under MKT. *)
Definition emitted_files : gmap Z (list line) :=
  <[739454 :=
      [LJson (combined "IS"
                [("id", JStr "1"); ("approved_date", JStr "22 Jul 2025")]
                [("PaperJson", JObj [("title", JStr "t")])]);
       LJson (combined "MKT"
                [("id", JStr "1"); ("approved_date", JStr "22 Jul 2025")]
                [])]]> ∅.

End SpiderMoreTerms.


(* ===================================================================== *)
(** * Facts about the daily stores *)
(* ===================================================================== *)

Module StoreFacts.
Import Py Store StoreTerms Samples.

#[local] Instance result_ret : MRet result := λ A, Ok.
#[local] Instance result_bind : MBind result := λ A B k m, bind m k.

(** ** Reading *)

Lemma bind_Ok {A B} (m : result A) (k : A → result B) b :
  m ≫= k = Ok b ↔ ∃ a, m = Ok a ∧ k a = Ok b.
Proof.
  destruct m as [a|e]; simpl; split.
  - eauto.
  - by intros (a' & [= ->] & H).
  - discriminate.
  - by intros (a' & [=] & _).
Qed.

Lemma read_lines_step data rest papers ids :
  read_lines (LJson data :: rest) papers ids =
  k ← id_key data; read_lines rest (papers ++ [data]) (ids ∪ {[k]}).
Proof.
  simpl. unfold id_key.
  by destruct (py_get data "id" (JStr "")).
Qed.

Lemma read_lines_Ok ls papers ids papers' ids' :
  read_lines ls papers ids = Ok (papers', ids') →
  ∃ ks, Forall2 (λ p k, id_key p = Ok k) (records ls) ks
        ∧ papers' = papers ++ records ls
        ∧ ids' = ids ∪ list_to_set ks.
Proof.
  revert papers ids.
  induction ls as [|l ls IH]; intros papers ids H.
  - injection H as <- <-. exists []. split; [constructor|].
    rewrite app_nil_r. split; [done|]. set_solver.
  - destruct l as [| |data].
    + apply IH in H. done.
    + discriminate.
    + rewrite read_lines_step in H. apply bind_Ok in H as (k & Hk & H).
      apply IH in H as (ks & Hks & -> & ->).
      exists (k :: ks). cbn [records].
      split; [by constructor|]. rewrite <- app_assoc. split; [done|].
      set_solver.
Qed.

Lemma read_lines_records ps ks papers ids :
  Forall2 (λ p k, id_key p = Ok k) ps ks →
  read_lines (LJson <$> ps) papers ids
  = Ok (papers ++ ps, ids ∪ list_to_set ks).
Proof.
  intros H. revert papers ids.
  induction H as [|p k ps ks Hk _ IH]; intros papers ids.
  - simpl. rewrite app_nil_r. f_equal. f_equal. set_solver.
  - rewrite fmap_cons, read_lines_step, Hk. simpl. rewrite IH.
    rewrite <- app_assoc. simpl. f_equal. f_equal. set_solver.
Qed.

Lemma path_exists_lookup w day :
  path_exists w day = bool_decide (files w !! day ≠ None).
Proof.
  unfold path_exists. apply bool_decide_ext. rewrite is_Some_alt.
  by destruct (files w !! day).
Qed.

Lemma path_exists_Some w day ls :
  files w !! day = Some ls → path_exists w day = true.
Proof. intros H. rewrite path_exists_lookup, H. done. Qed.

Lemma path_exists_None w day :
  files w !! day = None → path_exists w day = false.
Proof. intros H. rewrite path_exists_lookup, H. done. Qed.

(** What [load_papers_data] returns: nothing, or every record of the file
    with the keys of all of them. *)
Lemma load_papers_data_cases w day :
  load_papers_data w day = ([], ∅)
  ∨ ∃ ls ks,
      files w !! day = Some ls ∧ read_fails w day = false
      ∧ Forall2 (λ p k, id_key p = Ok k) (records ls) ks
      ∧ load_papers_data w day = (records ls, list_to_set ks).
Proof.
  unfold load_papers_data.
  destruct (files w !! day) as [ls|] eqn:Hf.
  2:{ left. by rewrite (path_exists_None _ _ Hf). }
  rewrite (path_exists_Some _ _ _ Hf). simpl.
  destruct (read_fails w day); [by left|].
  destruct (read_lines ls [] ∅) as [[ps ids0]|e] eqn:Hr; [|by left].
  apply read_lines_Ok in Hr as (ks & Hks & -> & ->).
  right. exists ls, ks. repeat split; try done.
  simpl. f_equal. set_solver.
Qed.

Lemma stored_keys w day :
  ∃ ks, Forall2 (λ p k, id_key p = Ok k) (stored_papers w day) ks
        ∧ stored_ids w day = list_to_set ks.
Proof.
  unfold stored_papers, stored_ids.
  destruct (load_papers_data_cases w day) as [->|(ls & ks & _ & _ & H & ->)].
  - exists []. split; [constructor|done].
  - by exists ks.
Qed.

Lemma stored_ids_nil w day :
  stored_papers w day = [] → stored_ids w day = ∅.
Proof.
  intros H. destruct (stored_keys w day) as (ks & Hks & ->).
  rewrite H in Hks. by apply Forall2_nil_inv_l in Hks as ->.
Qed.

Lemma stored_absent w day :
  files w !! day = None → load_papers_data w day = ([], ∅).
Proof.
  intros H. unfold load_papers_data. by rewrite (path_exists_None _ _ H).
Qed.

(** A file of records whose keys hash reads back as those records. *)
Lemma load_written w day ps ks :
  files w !! day = Some (LJson <$> ps) → read_fails w day = false →
  Forall2 (λ p k, id_key p = Ok k) ps ks →
  load_papers_data w day = (ps, list_to_set ks).
Proof.
  intros Hf Hr Hks. unfold load_papers_data.
  rewrite (path_exists_Some _ _ _ Hf), Hf, Hr. simpl.
  rewrite (read_lines_records _ ks) by done. simpl. f_equal. set_solver.
Qed.

(** [load_papers_data] looks at one file and at whether it can be read. *)
Lemma load_papers_data_ext w w' day :
  files w !! day = files w' !! day → read_fails w day = read_fails w' day →
  load_papers_data w day = load_papers_data w' day.
Proof.
  intros Hf Hr. unfold load_papers_data.
  by rewrite !path_exists_lookup, Hf, Hr.
Qed.

(** ** Removing the duplicates *)

Lemma keep_new_survivors ps ks dups :
  Forall2 (λ p k, id_key p = Ok k) ps ks →
  keep_new ps dups = Ok (survivors dups ps).
Proof.
  induction 1 as [|p k ps ks Hk _ IH]; [done|].
  cbn [keep_new]. unfold id_key in Hk.
  destruct (py_get p "id" (JStr "")) as [id|e] eqn:Hid; [|done].
  simpl in *. rewrite Hk. simpl. rewrite IH. simpl.
  unfold survivors. rewrite filter_cons.
  assert (Hkey : id_key p = Ok k) by (unfold id_key; by rewrite Hid).
  destruct (decide (k ∈ dups)) as [Hin|Hnin].
  - rewrite decide_False; [done|]. intros Hn. apply Hn. by exists k.
  - rewrite decide_True; [done|]. intros (k' & Hk' & Hin). congruence.
Qed.

Lemma survivors_keys ps ks dups :
  Forall2 (λ p k, id_key p = Ok k) ps ks →
  ∃ ks', Forall2 (λ p k, id_key p = Ok k) (survivors dups ps) ks'
         ∧ list_to_set (C := gset hkey) ks' = list_to_set ks ∖ dups.
Proof.
  induction 1 as [|p k ps ks Hk _ (ks' & IH & Heq)].
  - exists []. split; [constructor|set_solver].
  - unfold survivors. rewrite filter_cons.
    destruct (decide (¬ is_duplicate dups p)) as [Hn|Hd].
    + exists (k :: ks'). split; [by constructor|].
      assert (k ∉ dups) by (intros ?; apply Hn; by exists k).
      set_solver.
    + exists ks'. split; [done|].
      assert (k ∈ dups).
      { destruct (decide (k ∈ dups)); [done|]. exfalso. apply Hd.
        intros (k' & Hk' & Hin). congruence. }
      set_solver.
Qed.

(** ** The history window *)

Lemma collect_history_Ok w date days acc :
  Forall (λ i, 1 ≤ date - i) days →
  collect_history w date days acc
  = Ok (acc ∪ ⋃ ((λ i, stored_ids w (date - i)) <$> days)).
Proof.
  intros H. revert acc. induction H as [|i days Hi _ IH]; intros acc.
  - simpl. f_equal. set_solver.
  - cbn [collect_history]. unfold minus_days.
    rewrite decide_False by lia. simpl.
    unfold stored_ids at 1.
    destruct (load_papers_data w (date - i)) as [ps past_ids]. rewrite IH.
    f_equal. simpl. set_solver.
Qed.

Lemma collect_history_Raise w date days acc :
  Exists (λ i, date - i < 1) days →
  ∃ e, collect_history w date days acc = Raise e.
Proof.
  intros H. revert acc. induction H as [i days Hi|i days _ IH]; intros acc.
  - simpl. unfold minus_days. rewrite decide_True by done. by eexists.
  - simpl. unfold minus_days. destruct (decide (date - i < 1)); [by eexists|].
    simpl. destruct (load_papers_data w (date - i)). apply IH.
Qed.

Lemma history_window w date :
  7 < date →
  collect_history w date (seqZ 1 history_days) ∅ = Ok (window_ids w date).
Proof.
  intros H. rewrite collect_history_Ok.
  - unfold window_ids. f_equal. set_solver.
  - apply Forall_forall. intros i Hi. apply elem_of_seqZ in Hi.
    unfold history_days in Hi. lia.
Qed.

Lemma history_overflow w date :
  date ≤ 7 →
  ∃ e, collect_history w date (seqZ 1 history_days) ∅ = Raise e.
Proof.
  intros H. apply collect_history_Raise. apply Exists_exists.
  exists 7. split; [|lia]. apply elem_of_seqZ. unfold history_days. lia.
Qed.

(** ** perform_deduplication, case by case *)

Lemma perform_deduplication_outcome date w :
  perform_deduplication date w = dedup_outcome date w.
Proof.
  unfold perform_deduplication, dedup_outcome.
  destruct (path_exists w date); [cbn [negb]|done].
  destruct (stored_keys w date) as (ks & Hks & Hids).
  unfold stored_papers, stored_ids in *.
  destruct (load_papers_data w date) as [today_papers today_ids].
  cbn [fst snd] in *. subst today_ids.
  destruct today_papers as [|p ps]; [done|].
  destruct (decide (date ≤ 7)) as [Hle|Hgt].
  { by destruct (history_overflow w date Hle) as (e & ->). }
  rewrite history_window by lia.
  destruct (decide (list_to_set ks ∩ window_ids w date = ∅)); [done|].
  rewrite (keep_new_survivors _ ks) by done.
  destruct (survivors _ (p :: ps)) as [|q qs].
  - by destruct (os_remove date w).
  - by destruct (save_papers_data (q :: qs) date w) as [[] w'].
Qed.

(** ** What a run leaves of the other days *)

Lemma window_ids_ext w w' date :
  (∀ i, 1 ≤ i ≤ 7 →
        load_papers_data w (date - i) = load_papers_data w' (date - i)) →
  window_ids w date = window_ids w' date.
Proof.
  intros H. unfold window_ids. f_equal.
  apply list_fmap_ext. intros n i Hi.
  apply list_elem_of_lookup_2, elem_of_seqZ in Hi.
  unfold stored_ids. rewrite H; [done|]. unfold history_days in Hi. lia.
Qed.

Lemma window_ids_today w date fs :
  (∀ day, day ≠ date → fs !! day = files w !! day) →
  window_ids (set_files w fs) date = window_ids w date.
Proof.
  intros H. apply window_ids_ext. intros i Hi.
  apply load_papers_data_ext; [|done]. simpl. apply H. lia.
Qed.

Lemma stored_nonempty w day :
  stored_papers w day ≠ [] →
  read_fails w day = false ∧ is_Some (files w !! day).
Proof.
  unfold stored_papers.
  destruct (load_papers_data_cases w day) as [->|(ls & ks & Hf & Hr & _)].
  - done.
  - intros _. rewrite Hf. eauto.
Qed.

Lemma save_papers_data_true papers day w w' :
  save_papers_data papers day w = (true, w') →
  write_fails w day = NoFault
  ∧ w' = set_files w (<[day := LJson <$> papers]> (files w)).
Proof.
  unfold save_papers_data. destruct (write_fails w day); [|done..].
  by intros [= <-].
Qed.

(** After a successful rewrite the store reads back as what was written. *)
Lemma stored_after_save w day ps ks :
  read_fails w day = false →
  Forall2 (λ p k, id_key p = Ok k) ps ks →
  load_papers_data (set_files w (<[day := LJson <$> ps]> (files w))) day
  = (ps, list_to_set ks).
Proof.
  intros Hr Hks. apply load_written; [|done..].
  simpl. apply lookup_insert_eq.
Qed.

Lemma stored_after_delete w day :
  load_papers_data (set_files w (delete day (files w))) day = ([], ∅).
Proof. apply stored_absent. simpl. apply lookup_delete_eq. Qed.

Lemma stored_ids_absent w day :
  path_exists w day = false → stored_ids w day = ∅.
Proof.
  intros H. unfold stored_ids, load_papers_data. by rewrite H.
Qed.

Lemma stored_ids_after_delete w day :
  stored_ids (set_files w (delete day (files w))) day = ∅.
Proof. unfold stored_ids. by rewrite stored_after_delete. Qed.

Lemma stored_ids_after_save w day ps ks :
  read_fails w day = false →
  Forall2 (λ p k, id_key p = Ok k) ps ks →
  stored_ids (set_files w (<[day := LJson <$> ps]> (files w))) day
  = list_to_set ks.
Proof.
  intros. unfold stored_ids. by rewrite (stored_after_save _ _ _ ks).
Qed.

(** ** C1 *)

(** C1, amended: whenever [perform_deduplication] ends with a status other
    than [error] and, if that status is [no_new_content], the store file
    could be deleted, no identifier left in the day's store occurs in the
    stores of the seven days before it. *)
Theorem dedup_disjoint_from_history date w status w' :
  perform_deduplication date w = (status, w') →
  status ≠ "error" →
  (status = "no_new_content" → remove_fails w date = false) →
  stored_ids w' date ∩ window_ids w' date = ∅.
Proof.
  rewrite perform_deduplication_outcome. unfold dedup_outcome.
  destruct (path_exists w date) eqn:Hex; cbn [negb].
  2:{ intros [= <- <-] _ _. rewrite stored_ids_absent by done.
      set_solver. }
  destruct (stored_papers w date) as [|p ps] eqn:Hps.
  { intros [= <- <-] _ _. rewrite stored_ids_nil by done. set_solver. }
  destruct (decide (date ≤ 7)); [by intros [= <- <-]|].
  destruct (decide (_ = ∅)) as [Hnone|Hsome]; [by intros [= <- <-]|].
  destruct (stored_keys w date) as (ks & Hks & Hids).
  rewrite Hps in Hks.
  destruct (stored_nonempty w date) as [Hr _]; [by rewrite Hps|].
  destruct (survivors_keys _ _ (stored_ids w date ∩ window_ids w date) Hks)
    as (ks' & Hks' & Hset).
  destruct (survivors _ (p :: ps)) as [|q qs] eqn:Hsv.
  - intros [= <- <-] _ Hrm. unfold os_remove. rewrite Hrm by done.
    cbn [snd]. rewrite stored_ids_after_delete. set_solver.
  - destruct (save_papers_data (q :: qs) date w) as [saved w1] eqn:Hsave.
    destruct saved; cbn [fst snd]; [|by intros [= <- <-]].
    apply save_papers_data_true in Hsave as [_ ->].
    intros [= <- <-] _ _.
    rewrite window_ids_today
      by (intros day Hne; by rewrite lookup_insert_ne).
    etrans; [apply f_equal2; [|done];
             exact (stored_ids_after_save w date (q :: qs) ks' Hr Hks')|].
    rewrite Hset, Hids. set_solver.
Qed.

(** The amended C1 at the store {A, B, C} with B in the store of the day
    before: A and C stay, and neither is in the window. *)
Lemma dedup_disjoint_from_history_witness :
  perform_deduplication day (calm abc_files)
    = ("has_new_content", calm ac_files)
  ∧ stored_ids (calm ac_files) day ∩ window_ids (calm ac_files) day = ∅.
Proof.
  assert (H : perform_deduplication day (calm abc_files)
              = ("has_new_content", calm ac_files))
    by (vm_compute; reflexivity).
  split; [exact H|].
  apply (dedup_disjoint_from_history day (calm abc_files)
           "has_new_content" (calm ac_files) H); discriminate.
Defined.

(** C1 as written fails where the store cannot be deleted: every record of
    the day is a duplicate, the status is [no_new_content], and the file is
    still there with its duplicate. *)
Lemma no_duplicates_left_fails : ¬ no_duplicates_left day a_stuck.
Proof.
  intros H.
  specialize (H "no_new_content" a_stuck).
  assert (E : stored_ids a_stuck day ∩ window_ids a_stuck day = ∅).
  { apply H; [vm_compute; reflexivity|discriminate]. }
  assert (N : KStr "A" ∈ stored_ids a_stuck day ∩ window_ids a_stuck day).
  { apply (bool_decide_unpack _). vm_compute. exact I. }
  rewrite E in N. by apply not_elem_of_empty in N.
Qed.

(** ** C4 *)

Lemma survivors_none papers : survivors ∅ papers = papers.
Proof.
  unfold survivors. induction papers as [|p ps IH]; [done|].
  rewrite filter_cons, IH. rewrite decide_True; [done|].
  intros (k & _ & Hk). by apply not_elem_of_empty in Hk.
Qed.

(** C4, amended: on a store that holds at least one record, when
    [perform_deduplication] does not end in [error]: with no duplicate the
    directory is left as it was; with duplicates and survivors the file
    holds exactly the survivors, in their order; with duplicates and no
    survivor the file is gone if it could be deleted, and is left as it was,
    under status [no_new_content], if it could not. *)
Theorem dedup_file_effect date w status w' :
  perform_deduplication date w = (status, w') →
  status ≠ "error" →
  stored_papers w date ≠ [] →
  let dups := stored_ids w date ∩ window_ids w date in
  let new_papers := survivors dups (stored_papers w date) in
  (dups = ∅ → w' = w ∧ stored_papers w' date = new_papers)
  ∧ (dups ≠ ∅ → new_papers ≠ [] →
     files w' !! date = Some (LJson <$> new_papers)
     ∧ stored_papers w' date = new_papers)
  ∧ (dups ≠ ∅ → new_papers = [] → remove_fails w date = false →
     files w' !! date = None)
  ∧ (dups ≠ ∅ → new_papers = [] → remove_fails w date = true →
     w' = w ∧ status = "no_new_content").
Proof.
  rewrite perform_deduplication_outcome. unfold dedup_outcome.
  intros H Hst Hne. cbn zeta.
  destruct (stored_nonempty w date Hne) as [Hr [ls Hls]].
  rewrite (path_exists_Some _ _ _ Hls) in H. cbn [negb] in H.
  destruct (stored_keys w date) as (ks & Hks & Hids).
  destruct (survivors_keys _ _ (stored_ids w date ∩ window_ids w date) Hks)
    as (ks' & Hks' & _).
  destruct (stored_papers w date) as [|p ps] eqn:Hps; [done|].
  destruct (decide (date ≤ 7)); [by injection H as <- <-|].
  destruct (decide (_ = ∅)) as [Hnone|Hsome].
  { injection H as <- <-. rewrite Hnone, survivors_none.
    repeat split; done. }
  split; [done|].
  destruct (survivors _ (p :: ps)) as [|q qs] eqn:Hsv.
  - injection H as <- <-. unfold os_remove.
    destruct (remove_fails w date); cbn [snd]; repeat split; try done.
    intros _ _ _. simpl. apply lookup_delete_eq.
  - destruct (save_papers_data (q :: qs) date w) as [saved w1] eqn:Hsave.
    destruct saved; cbn [fst snd] in H; [|by injection H as <- <-].
    apply save_papers_data_true in Hsave as [_ ->].
    injection H as <- <-. repeat split; try done.
    + simpl. apply lookup_insert_eq.
    + exact (f_equal fst (stored_after_save w date (q :: qs) ks' Hr Hks')).
Qed.

(** The amended C4 at the store {A, B, C} with B in the store of the day
    before. *)
Lemma dedup_file_effect_witness :
  files (calm ac_files) !! day
  = Some (LJson <$> survivors
            (stored_ids (calm abc_files) day ∩ window_ids (calm abc_files) day)
            (stored_papers (calm abc_files) day)).
Proof.
  assert (H : perform_deduplication day (calm abc_files)
              = ("has_new_content", calm ac_files))
    by (vm_compute; reflexivity).
  assert (Hst : "has_new_content" ≠ "error") by discriminate.
  assert (Hne : stored_papers (calm abc_files) day ≠ [])
    by (vm_compute; discriminate).
  destruct (dedup_file_effect day (calm abc_files) _ _ H Hst Hne)
    as (_ & Hsome & _).
  apply Hsome.
  - intros E.
    assert (N : KStr "B" ∈ stored_ids (calm abc_files) day
                           ∩ window_ids (calm abc_files) day).
    { apply (bool_decide_unpack _). vm_compute. exact I. }
    rewrite E in N. by apply not_elem_of_empty in N.
  - vm_compute. discriminate.
Defined.

(** C4 as written fails where the store cannot be deleted: no record
    survives, and the file is still there. *)
Lemma removal_shows_in_file_fails : ¬ removal_shows_in_file day a_stuck.
Proof.
  intros (Hgone & _ & _).
  assert (E : survivors (stored_ids a_stuck day ∩ window_ids a_stuck day)
                (stored_papers a_stuck day) = [])
    by (vm_compute; reflexivity).
  specialize (Hgone E).
  assert (N : files (perform_deduplication day a_stuck).2 !! day
              = Some [LJson (paper "A" ["IS"])])
    by (vm_compute; reflexivity).
  rewrite N in Hgone. discriminate.
Qed.

(** ** C7 *)

Lemma read_raises_load w day :
  read_raises w day → load_papers_data w day = ([], ∅).
Proof.
  intros (ls & Hls & H). unfold load_papers_data.
  rewrite (path_exists_Some _ _ _ Hls), Hls. simpl.
  destruct H as [->|(e & ->)]; [done|]. by destruct (read_fails w day).
Qed.

Lemma stored_ids_of_papers w day :
  stored_ids w day ≠ ∅ → stored_papers w day ≠ [].
Proof. intros H E. by apply stored_ids_nil in E. Qed.

Lemma save_papers_data_false papers day w :
  write_fails w day ≠ NoFault → (save_papers_data papers day w).1 = false.
Proof. unfold save_papers_data. by destruct (write_fails w day). Qed.

(** C7, amended: [perform_deduplication] ends in [error] exactly when the
    store holds a record and either the window cannot be computed (one of
    the seven earlier days lies before day 1) or the store has to be
    rewritten and the rewrite fails.  The other failures do not: a failure
    reading the day's store gives [no_data] and leaves the directory as it
    was; a store that cannot be read counts as a day without identifiers;
    a failure deleting the store gives [no_new_content] and leaves the
    directory as it was. *)
Theorem dedup_failures date w :
  let status := (perform_deduplication date w).1 in
  let papers := stored_papers w date in
  let dups := stored_ids w date ∩ window_ids w date in
  let new_papers := survivors dups papers in
  (status = "error" ↔
     papers ≠ [] ∧
     (date ≤ 7 ∨ (dups ≠ ∅ ∧ new_papers ≠ [] ∧ write_fails w date ≠ NoFault)))
  ∧ (read_raises w date → perform_deduplication date w = ("no_data", w))
  ∧ (∀ day, read_raises w day → stored_ids w day = ∅)
  ∧ (7 < date → papers ≠ [] → dups ≠ ∅ → new_papers = [] →
     remove_fails w date = true →
     perform_deduplication date w = ("no_new_content", w)).
Proof.
  cbn zeta. rewrite perform_deduplication_outcome.
  split; [|split; [|split]].
  - unfold dedup_outcome.
    destruct (path_exists w date) eqn:Hex; cbn [negb].
    2:{ cbn [fst]. split; [done|]. intros [Hne _]. exfalso. apply Hne.
        unfold stored_papers, load_papers_data. by rewrite Hex. }
    destruct (stored_papers w date) as [|p ps] eqn:Hps.
    { cbn [fst]. split; [done|]. by intros [? _]. }
    destruct (decide (date ≤ 7)).
    { cbn [fst]. split; [|done]. intros _. split; [done|]. by left. }
    destruct (decide (_ = ∅)) as [Hnone|Hsome].
    { cbn [fst]. split; [done|]. intros [_ [?|(? & _)]]; [lia|done]. }
    destruct (survivors _ (p :: ps)) as [|q qs] eqn:Hsv.
    { cbn [fst]. split; [done|]. intros [_ [?|(_ & ? & _)]]; [lia|done]. }
    cbn [fst]. unfold save_papers_data.
    destruct (write_fails w date) eqn:Hwf; cbn [fst]; split; try done.
    + intros [_ [?|(_ & _ & ?)]]; [lia|done].
    + intros _. split; [done|]. by right.
    + intros _. split; [done|]. by right.
  - intros Hrr. unfold dedup_outcome, stored_papers.
    rewrite (read_raises_load _ _ Hrr). cbn [fst].
    by destruct (path_exists w date).
  - intros day Hrr. unfold stored_ids. by rewrite (read_raises_load _ _ Hrr).
  - intros Hd Hne Hsome Hnew Hrm. unfold dedup_outcome.
    destruct (stored_nonempty w date Hne) as [_ [ls Hls]].
    rewrite (path_exists_Some _ _ _ Hls). cbn [negb].
    destruct (stored_papers w date) as [|p ps]; [done|].
    rewrite decide_False by lia. rewrite decide_False by done.
    rewrite Hnew. unfold os_remove. by rewrite Hrm.
Qed.

(** C7 as written fails on a store with a line that does not parse:
    reading it raises, and the status is [no_data]. *)
Lemma failures_end_in_error_fails :
  ¬ failures_end_in_error day (calm garbled_files).
Proof.
  intros (Hread & _).
  assert (E : (perform_deduplication day (calm garbled_files)).1 = "no_data")
    by (vm_compute; reflexivity).
  rewrite Hread in E; [discriminate|].
  exists [LJson (paper "A" ["IS"]); LBad].
  split; [vm_compute; reflexivity|].
  right. exists JSONDecodeError. vm_compute. reflexivity.
Qed.

(** ** C3 *)

(** C3: the exit code of the gate is [gate_table] of the two statuses,
    whatever the stages return, so it is one of 0, 1 and 2; when the merge
    status is [no_data] the gate ends with 1 in the state the merge left,
    whatever the deduplication stage is, which is therefore not run; and
    [main] is the gate of [perform_merge] and [perform_deduplication]. *)
Theorem gate_exit_code (merge dedup : Z → world → string * world)
    (I : interp) (date : Z) (w : world) :
  let merge_status := (merge date w).1 in
  let w1 := (merge date w).2 in
  let dedup_status := (dedup date w1).1 in
  (gate merge dedup date w).1 = gate_table merge_status dedup_status
  ∧ (gate merge dedup date w).1 ∈ [0; 1; 2]
  ∧ (merge_status = "no_data" →
     ∀ dedup', gate merge dedup' date w = (1, w1))
  ∧ (merge_status ≠ "merge_success" → (gate merge dedup date w).2 = w1)
  ∧ (main I date w).1
    = gate_table (perform_merge I date w).1
        (perform_deduplication date (perform_merge I date w).2).1.
Proof.
  assert (Htable : ∀ m d, (gate m d date w).1
            = gate_table (m date w).1 (d date (m date w).2).1).
  { intros m d. unfold gate, gate_table.
    destruct (m date w) as [ms w1]. cbn [fst snd].
    destruct (decide (ms = "merge_success")).
    - destruct (d date w1) as [ds w2]. cbn [fst].
      destruct (decide (ds = "has_new_content")); [done|].
      destruct (decide (ds = "no_new_content" ∨ ds = "no_data")) as [[?|?]|Hn].
      + by subst ds.
      + by subst ds.
      + rewrite !decide_False by (intros ?; apply Hn; auto).
        by destruct (decide (ds = "error")).
    - destruct (decide (ms = "no_data")); [done|].
      by destruct (decide (ms = "error")). }
  cbn zeta. split; [apply Htable|]. split; [|split; [|split]].
  - rewrite Htable. unfold gate_table.
    repeat case_decide; set_solver.
  - intros Hms dedup'. unfold gate.
    destruct (merge date w) as [ms w1]. cbn [fst snd] in *. subst ms.
    done.
  - intros Hms. unfold gate.
    destruct (merge date w) as [ms w1]. cbn [fst snd] in *.
    rewrite decide_False by done. by repeat case_decide.
  - apply Htable.
Qed.

(** ** perform_merge, case by case *)

Lemma perform_merge_outcome I date w :
  perform_merge I date w =
  match stored_papers w date with
  | [] => ("no_data", w)
  | papers =>
      match merge_papers I papers with
      | Raise _ => ("error", w)
      | Ok result =>
          let r := save_papers_data result date w in
          (if r.1 then "merge_success" else "error", r.2)
      end
  end.
Proof.
  unfold perform_merge, stored_papers.
  destruct (path_exists w date) eqn:Hex; cbn [negb].
  2:{ unfold load_papers_data. by rewrite Hex. }
  destruct (load_papers_data w date) as [[|p ps] ids]; [done|]. cbn [fst].
  destruct (merge_papers I (p :: ps)) as [result|e]; [|done].
  by destruct (save_papers_data result date w) as [[] w'].
Qed.

Lemma stored_papers_nil w day :
  stored_papers w day = [] ↔
  files w !! day = None ∨ read_raises w day ∨ day_records w day = [].
Proof.
  unfold day_records. split.
  - intros Hnil. destruct (files w !! day) as [ls|] eqn:Hls; [|by left].
    right. cbn [default].
    unfold stored_papers, load_papers_data in Hnil.
    rewrite (path_exists_Some _ _ _ Hls), Hls in Hnil. cbn in Hnil.
    destruct (read_fails w day) eqn:Hrf.
    { left. exists ls. auto. }
    destruct (read_lines ls [] ∅) as [[ps ids]|e] eqn:Hrl.
    + apply read_lines_Ok in Hrl as (ks & _ & -> & _). by right.
    + left. exists ls. eauto.
  - intros [Hnone|[Hrr|Hrec]].
    + unfold stored_papers. by rewrite stored_absent.
    + unfold stored_papers. by rewrite read_raises_load.
    + unfold stored_papers.
      destruct (load_papers_data_cases w day)
        as [->|(ls & ks & Hls & _ & _ & ->)]; [done|].
      by rewrite Hls in Hrec.
Qed.

(** ** C6 *)

(** C6, amended: [perform_merge] returns [no_data] exactly when loading the
    store yields no record, which is when the file is absent, or reading it
    raises (a line that does not parse included), or it holds no record; it
    returns [merge_success] exactly when loading yields a record, merging
    raises nothing and the rewrite succeeds, and the file then holds the
    merged records; it returns [error] exactly when loading yields a record
    and either merging raises or the rewrite fails. *)
Theorem merge_status I date w :
  let status := (perform_merge I date w).1 in
  let w' := (perform_merge I date w).2 in
  let papers := stored_papers w date in
  (status = "no_data" ↔ papers = [])
  ∧ (papers = [] ↔
     files w !! date = None ∨ read_raises w date ∨ day_records w date = [])
  ∧ (status = "merge_success" ↔
     papers ≠ [] ∧ (∃ result, merge_papers I papers = Ok result)
     ∧ write_fails w date = NoFault)
  ∧ (status = "error" ↔
     papers ≠ [] ∧ ((∃ e, merge_papers I papers = Raise e)
                    ∨ write_fails w date ≠ NoFault))
  ∧ (∀ result, status = "merge_success" →
       merge_papers I papers = Ok result →
       files w' !! date = Some (LJson <$> result)).
Proof.
  cbn zeta. rewrite perform_merge_outcome.
  split; [|split; [apply stored_papers_nil|]].
  - destruct (stored_papers w date) as [|p ps]; [done|].
    destruct (merge_papers I (p :: ps)) as [result|e]; cbn [fst].
    + split; [|done]. by destruct (save_papers_data result date w).1.
    + done.
  - destruct (stored_papers w date) as [|p ps].
    { cbn [fst]. repeat split; try done; by intros [? _]. }
    destruct (merge_papers I (p :: ps)) as [result|e]; cbn [fst snd].
    { unfold save_papers_data.
      destruct (write_fails w date) eqn:Hwf; cbn [fst snd].
      - split; [|split].
        + split; [|done]. intros _. split; [done|]. split; [by exists result|done].
        + split; [done|]. by intros (_ & [[? ?]|?]).
        + intros r _ [= <-]. simpl. apply lookup_insert_eq.
      - split; [|split].
        + split; [done|]. by intros (_ & _ & ?).
        + split; [|done]. intros _. split; [done|]. by right.
        + done.
      - split; [|split].
        + split; [done|]. by intros (_ & _ & ?).
        + split; [|done]. intros _. split; [done|]. by right.
        + done. }
    split; [|split].
    + split; [done|]. by intros (_ & [? ?] & _).
    + split; [|done]. intros _. split; [done|]. left. by exists e.
    + done.
Qed.

(** C6 as written fails on a store with a line that does not parse: reading
    it raises, and the status is [no_data]. *)
Lemma merge_status_as_written_fails :
  ¬ merge_status_as_written first_seen day (calm garbled_files).
Proof.
  intros (_ & _ & Herr).
  assert (E : (perform_merge first_seen day (calm garbled_files)).1
              = "no_data") by (vm_compute; reflexivity).
  rewrite E in Herr.
  assert (N : "no_data" = "error"); [|discriminate].
  apply Herr. left.
  exists [LJson (paper "A" ["IS"]); LBad].
  split; [vm_compute; reflexivity|].
  right. exists JSONDecodeError. vm_compute. reflexivity.
Qed.

(** ** C10 *)

Lemma merge_items_no_id r papers merged :
  r ∈ papers → py_getitem r "id" = Raise KeyError →
  ∃ e, merge_items merged papers = Raise e.
Proof.
  intros Hin Hr. revert merged.
  induction Hin as [r ps|r p ps _ IH]; intros merged; cbn [merge_items].
  - unfold merge_item. rewrite Hr. by eexists.
  - destruct (merge_item merged p) as [merged'|e]; [|by eexists].
    apply IH, Hr.
Qed.

Lemma main_merge_error I date w :
  perform_merge I date w = ("error", w) → main I date w = (2, w).
Proof. intros H. unfold main, gate. by rewrite H. Qed.

(** C10: when the day's store loads and one of its records has no ['id'],
    [perform_merge] returns [error] and leaves the directory as it was, so
    [main] exits with 2.  [load_papers_data] takes the record in and files
    it under the empty string.  [perform_deduplication] does the same: its
    filter keeps the record exactly when the empty string is not among the
    duplicate identifiers, and where the window can be computed and the
    store can be written and deleted, it ends in [has_new_content] or
    [no_new_content] and leaves in the store the records that are no
    duplicates, the record without ['id'] among them exactly when no store
    of the window holds the empty string for an identifier. *)
Theorem record_without_id I date w r kvs :
  r ∈ stored_papers w date →
  r = JObj kvs →
  dict_get "id" kvs = None →
  let papers := stored_papers w date in
  let dups := stored_ids w date ∩ window_ids w date in
  perform_merge I date w = ("error", w)
  ∧ main I date w = (2, w)
  ∧ id_key r = Ok (KStr "")
  ∧ (∀ rest papers0 ids0,
       read_lines (LJson r :: rest) papers0 ids0
       = read_lines rest (papers0 ++ [r]) (ids0 ∪ {[KStr ""]}))
  ∧ KStr "" ∈ stored_ids w date
  ∧ (is_duplicate dups r ↔ KStr "" ∈ dups)
  ∧ (∀ duplicate_ids,
       keep_new papers duplicate_ids = Ok (survivors duplicate_ids papers)
       ∧ (r ∈ survivors duplicate_ids papers ↔ KStr "" ∉ duplicate_ids))
  ∧ (7 < date → write_fails w date = NoFault →
     (perform_deduplication date w).1 ∈ ["has_new_content"; "no_new_content"])
  ∧ (7 < date → write_fails w date = NoFault → remove_fails w date = false →
     let w' := (perform_deduplication date w).2 in
     stored_papers w' date = survivors dups papers
     ∧ (r ∈ stored_papers w' date ↔ KStr "" ∉ window_ids w date)).
Proof.
  intros Hin -> Hid. cbn zeta.
  assert (Hkey : id_key (JObj kvs) = Ok (KStr "")).
  { unfold id_key. simpl. by rewrite Hid. }
  assert (Hne : stored_papers w date ≠ []).
  { intros E. rewrite E in Hin. by apply not_elem_of_nil in Hin. }
  assert (Hmerge : perform_merge I date w = ("error", w)).
  { rewrite perform_merge_outcome.
    destruct (stored_papers w date) as [|p ps] eqn:Hps; [done|].
    unfold merge_papers.
    destruct (merge_items_no_id (JObj kvs) (p :: ps) [] Hin) as (e & ->).
    - simpl. by rewrite Hid.
    - done. }
  assert (Hdup : ∀ d, is_duplicate d (JObj kvs) ↔ KStr "" ∈ d).
  { intros d. unfold is_duplicate. split.
    - intros (k & Hk & Hd). congruence.
    - intros Hd. by exists (KStr ""). }
  assert (Hkept : ∀ d, JObj kvs ∈ survivors d (stored_papers w date)
                       ↔ KStr "" ∉ d).
  { intros d. unfold survivors. rewrite list_elem_of_filter, Hdup.
    naive_solver. }
  assert (Hids : KStr "" ∈ stored_ids w date).
  { destruct (stored_keys w date) as (ks & Hks & ->).
    apply list_elem_of_lookup in Hin as (i & Hi).
    destruct (Forall2_lookup_l _ _ _ _ _ Hks Hi) as (k & Hk & Heq).
    rewrite Hkey in Heq. injection Heq as <-.
    apply elem_of_list_to_set. by apply list_elem_of_lookup_2 in Hk. }
  split; [done|]. split; [by apply main_merge_error|]. split; [done|].
  split; [|split; [done|split; [apply Hdup|split; [|split]]]].
  - intros rest papers0 ids0. by rewrite read_lines_step, Hkey.
  - intros d. split; [|apply Hkept].
    destruct (stored_keys w date) as (ks & Hks & _).
    by apply (keep_new_survivors _ ks).
  - intros Hdate Hwf. rewrite perform_deduplication_outcome.
    unfold dedup_outcome.
    destruct (stored_nonempty w date Hne) as [_ [ls Hls]].
    rewrite (path_exists_Some _ _ _ Hls). cbn [negb].
    destruct (stored_papers w date) as [|p ps]; [done|].
    rewrite decide_False by lia.
    case_decide; [set_solver|].
    destruct (survivors _ (p :: ps)); [set_solver|].
    unfold save_papers_data. rewrite Hwf. set_solver.
  - intros Hdate Hwf Hrm.
    assert (Hleft : stored_papers (perform_deduplication date w).2 date
                    = survivors (stored_ids w date ∩ window_ids w date)
                        (stored_papers w date)).
    { rewrite perform_deduplication_outcome. unfold dedup_outcome.
      destruct (stored_nonempty w date Hne) as [Hr [ls Hls]].
      rewrite (path_exists_Some _ _ _ Hls). cbn [negb].
      destruct (stored_keys w date) as (ks & Hks & _).
      destruct (survivors_keys _ _
                  (stored_ids w date ∩ window_ids w date) Hks)
        as (ks' & Hks' & _).
      destruct (stored_papers w date) as [|p ps] eqn:Hps; [done|].
      rewrite decide_False by lia.
      destruct (decide (_ = ∅)) as [Hnone|Hsome].
      { cbn [snd]. by rewrite Hnone, survivors_none. }
      destruct (survivors _ (p :: ps)) as [|q qs] eqn:Hsv.
      - cbn [snd]. unfold os_remove. rewrite Hrm. cbn [snd].
        unfold stored_papers. by rewrite stored_after_delete.
      - unfold save_papers_data. rewrite Hwf. cbn [fst snd].
        exact (f_equal fst (stored_after_save w date (q :: qs) ks' Hr Hks')). }
    split; [done|]. rewrite Hleft, Hkept. set_solver.
Qed.

(** C10 at a store that holds a record without ['id'] and the record B,
    the store of the day before holding a record without ['id'] too: the
    merge ends in [error], and the deduplication drops the record without
    ['id'] as a duplicate and leaves B. *)
Lemma record_without_id_witness :
  perform_merge first_seen day (calm anonymous_again_files)
    = ("error", calm anonymous_again_files)
  ∧ main first_seen day (calm anonymous_again_files)
    = (2, calm anonymous_again_files)
  ∧ KStr "" ∈ stored_ids (calm anonymous_again_files) day
  ∧ (perform_deduplication day (calm anonymous_again_files)).1
    ∈ ["has_new_content"; "no_new_content"]
  ∧ no_id_paper
    ∉ stored_papers (perform_deduplication day (calm anonymous_again_files)).2
        day.
Proof.
  assert (Hin : no_id_paper ∈ stored_papers (calm anonymous_again_files) day).
  { assert (E : stored_papers (calm anonymous_again_files) day
                = [no_id_paper; paper "B" ["MKT"]])
      by (vm_compute; reflexivity).
    rewrite E. apply list_elem_of_here. }
  destruct (record_without_id first_seen day (calm anonymous_again_files)
              no_id_paper _ Hin eq_refl eq_refl)
    as (Hm & Hmain & _ & _ & Hids & _ & _ & Hst & Hleft).
  split; [done|]. split; [done|]. split; [done|]. split.
  - apply Hst; [unfold day; lia|reflexivity].
  - destruct Hleft as [_ Hiff]; [unfold day; lia|reflexivity..|].
    rewrite Hiff. intros Hnot. apply Hnot.
    apply (bool_decide_unpack _). vm_compute. exact I.
Defined.

(** ** Dictionaries *)

Lemma dict_get_set k v kvs : dict_get k (dict_set k v kvs) = Some v.
Proof.
  induction kvs as [|[k' v'] kvs IH]; simpl.
  - by rewrite decide_True.
  - destruct (decide (k' = k)) as [->|Hne]; simpl.
    + by rewrite decide_True.
    + by rewrite decide_False.
Qed.

Lemma dict_get_set_ne k k' v kvs :
  k ≠ k' → dict_get k' (dict_set k v kvs) = dict_get k' kvs.
Proof.
  intros Hne. induction kvs as [|[k0 v0] kvs IH]; simpl.
  - by rewrite decide_False.
  - destruct (decide (k0 = k)) as [->|Hne0]; simpl.
    + by rewrite !decide_False.
    + by rewrite IH.
Qed.

Lemma dict_set_set k v v' kvs :
  dict_set k v' (dict_set k v kvs) = dict_set k v' kvs.
Proof.
  induction kvs as [|[k0 v0] kvs IH]; simpl.
  - by rewrite decide_True.
  - destruct (decide (k0 = k)) as [->|Hne0]; simpl.
    + by rewrite decide_True.
    + by rewrite decide_False, IH.
Qed.

Lemma dict_set_same k v kvs :
  dict_get k kvs = Some v → dict_set k v kvs = kvs.
Proof.
  induction kvs as [|[k0 v0] kvs IH]; simpl; [done|].
  destruct (decide (k0 = k)) as [->|Hne0].
  - by intros [= ->].
  - intros H. by rewrite IH.
Qed.

(** ** Sets of values *)

Lemma hash_all_Ok xs kxs :
  hash_all xs = Ok kxs →
  kxs.*2 = xs ∧ Forall (λ kx, py_hash kx.2 = Ok kx.1) kxs.
Proof.
  revert kxs. induction xs as [|x xs IH]; intros kxs; simpl.
  - intros [= <-]. by split.
  - intros H. apply bind_Ok in H as (k & Hk & H).
    apply bind_Ok in H as (kxs' & Hkxs & [= <-]).
    apply IH in Hkxs as [<- HF]. split; [done|]. by constructor.
Qed.

Lemma hash_all_keyed kxs :
  Forall (λ kx, py_hash kx.2 = Ok kx.1) kxs → hash_all kxs.*2 = Ok kxs.
Proof.
  induction 1 as [|[k x] kxs Hk _ IH]; [done|].
  rewrite fmap_cons. cbn [hash_all snd]. simpl in Hk. rewrite Hk. simpl.
  by rewrite IH.
Qed.

Lemma first_of_each_subseteq kxs : first_of_each kxs ⊆ kxs.
Proof.
  induction kxs as [|[k x] kxs IH]; [done|]. simpl.
  intros p Hp. apply elem_of_cons in Hp as [->|Hp]; [left|].
  apply list_elem_of_filter in Hp as [_ Hp]. right. by apply IH.
Qed.

Lemma first_of_each_keys kxs p :
  p ∈ kxs → p.1 ∈ (first_of_each kxs).*1.
Proof.
  induction kxs as [|[k x] kxs IH]; intros Hp; [by apply not_elem_of_nil in Hp|].
  simpl. destruct (decide (p.1 = k)) as [<-|Hne]; [left|].
  apply elem_of_cons in Hp as [->|Hp]; [done|]. right.
  apply IH, list_elem_of_fmap in Hp as (q & Hq1 & Hq).
  apply list_elem_of_fmap. exists q. split; [done|].
  apply list_elem_of_filter. split; [|done]. congruence.
Qed.

Lemma first_of_each_NoDup kxs : NoDup (first_of_each kxs).*1.
Proof.
  induction kxs as [|[k x] kxs IH]; simpl; [constructor|].
  constructor.
  - intros Hin. apply list_elem_of_fmap in Hin as (q & Hq1 & Hq).
    apply list_elem_of_filter in Hq as [Hq _]. by apply Hq.
  - induction (first_of_each kxs) as [|q l IHl]; [constructor|].
    rewrite filter_cons. apply NoDup_cons in IH as [Hq Hl].
    destruct (decide (q.1 ≠ k)); [|by apply IHl].
    rewrite fmap_cons. constructor; [|by apply IHl].
    intros Hin. apply Hq. apply list_elem_of_fmap in Hin as (q' & Hq1 & Hq').
    apply list_elem_of_filter in Hq' as [_ Hq'].
    apply list_elem_of_fmap. by exists q'.
Qed.

Lemma first_of_each_id kxs : NoDup kxs.*1 → first_of_each kxs = kxs.
Proof.
  induction kxs as [|[k x] kxs IH]; [done|]. simpl.
  intros [Hk Hnd]%NoDup_cons. rewrite IH by done. f_equal.
  clear IH Hnd. induction kxs as [|q l IHl]; [done|].
  rewrite filter_cons. rewrite fmap_cons in Hk.
  apply not_elem_of_cons in Hk as [Hq Hl].
  rewrite decide_True by done. by rewrite IHl.
Qed.

Lemma Forall2_Permutation_l {A B} (R : A → B → Prop) l l' k :
  l ≡ₚ l' → Forall2 R l k → ∃ k', k ≡ₚ k' ∧ Forall2 R l' k'.
Proof.
  intros Hp. revert k.
  induction Hp as [|x l l' _ IH|x y l|l l' l'' _ IH1 _ IH2]; intros k Hk.
  - apply Forall2_nil_inv_l in Hk as ->. by exists [].
  - apply Forall2_cons_inv_l in Hk as (z & k0 & Hz & Hk0 & ->).
    destruct (IH _ Hk0) as (k' & Hperm & HF).
    exists (z :: k'). split; [by constructor|by constructor].
  - apply Forall2_cons_inv_l in Hk as (z1 & k1 & Hz1 & Hk1 & ->).
    apply Forall2_cons_inv_l in Hk1 as (z2 & k2 & Hz2 & Hk2 & ->).
    exists (z2 :: z1 :: k2). split; [apply perm_swap|by repeat constructor].
  - destruct (IH1 _ Hk) as (k' & Hperm & HF).
    destruct (IH2 _ HF) as (k'' & Hperm' & HF').
    exists k''. split; [by etrans|done].
Qed.

Lemma py_list_set_list I xs :
  py_list_set I (JArr xs)
  = kxs ← hash_all xs; Ok (JArr (list_of_set I (first_of_each kxs).*2)).
Proof. done. Qed.

Lemma keyed_values (l : list (hkey * json)) :
  Forall (λ kx, py_hash kx.2 = Ok kx.1) l →
  Forall2 (λ c k, py_hash c = Ok k) l.*2 l.*1.
Proof. induction 1; by constructor. Qed.

(** [list(set(v))] holds the values [v] yields, each once. *)
Lemma py_list_set_values I v c' :
  py_list_set I v = Ok c' →
  ∃ xs cs, py_iter v = Ok xs ∧ c' = JArr cs
           ∧ no_duplicate_values cs ∧ same_values cs xs.
Proof.
  unfold py_list_set.
  intros H. apply bind_Ok in H as (xs & Hxs & H).
  apply bind_Ok in H as (kxs & Hkxs & [= <-]).
  apply hash_all_Ok in Hkxs as [<- Hkeyed].
  set (kept := first_of_each kxs).
  assert (Hsub : kept ⊆ kxs) by apply first_of_each_subseteq.
  assert (Hkept : Forall (λ kx, py_hash kx.2 = Ok kx.1) kept).
  { apply Forall_forall. intros kx Hkx.
    by apply (proj1 (Forall_forall _ _) Hkeyed), Hsub. }
  pose proof (list_of_set_perm I kept.*2) as Hperm.
  eexists _, _. split; [done|]. split; [done|]. split.
  - destruct (Forall2_Permutation_l _ _ _ _ (symmetry Hperm)
                (keyed_values _ Hkept)) as (cks & Hcks & HF).
    exists cks. split; [done|]. rewrite <- Hcks. apply first_of_each_NoDup.
  - split.
    + intros c Hc. rewrite Hperm in Hc.
      apply list_elem_of_fmap in Hc as (kx & -> & Hkx).
      apply list_elem_of_fmap. exists kx. split; [done|]. by apply Hsub.
    + intros x Hx. apply list_elem_of_fmap in Hx as (kx & -> & Hkx).
      pose proof (first_of_each_keys _ _ Hkx) as Hk.
      apply list_elem_of_fmap in Hk as (ky & Hky1 & Hky).
      exists ky.2. split.
      * rewrite Hperm. apply list_elem_of_fmap. by exists ky.
      * rewrite (proj1 (Forall_forall _ _) Hkeyed kx Hkx).
        rewrite (proj1 (Forall_forall _ _) Hkept ky Hky). by rewrite Hky1.
Qed.

(** On values that are already distinct, [list(set(xs))] is a
    rearrangement. *)
Lemma py_list_set_distinct I xs :
  no_duplicate_values xs →
  ∃ cs, py_list_set I (JArr xs) = Ok (JArr cs) ∧ cs ≡ₚ xs.
Proof.
  intros (ks & HF & Hnd).
  set (kxs := zip ks xs).
  assert (Hlen : length ks = length xs) by (symmetry; by eapply Forall2_length).
  assert (H1 : kxs.*1 = ks) by (apply fst_zip; lia).
  assert (H2 : kxs.*2 = xs) by (apply snd_zip; lia).
  assert (Hkeyed : Forall (λ kx, py_hash kx.2 = Ok kx.1) kxs).
  { unfold kxs. clear -HF. induction HF; by constructor. }
  rewrite py_list_set_list.
  replace (hash_all xs) with (hash_all kxs.*2) by (by rewrite H2).
  rewrite (hash_all_keyed _ Hkeyed). simpl.
  rewrite first_of_each_id by (by rewrite H1).
  eexists. split; [done|]. rewrite H2. apply list_of_set_perm.
Qed.

(** ** The merged dictionary *)

Lemma merged_get_None k merged :
  merged_get k merged = None ↔ k ∉ merged.*1.
Proof.
  induction merged as [|[k' v] merged IH]; simpl.
  - split; [intros _; apply not_elem_of_nil|done].
  - rewrite not_elem_of_cons. destruct (decide (k' = k)) as [->|Hne].
    + split; [done|]. by intros [? _].
    + rewrite IH. split; [by intros ?|by intros [_ ?]].
Qed.

Lemma merged_set_new k v merged :
  merged_get k merged = None → merged_set k v merged = merged ++ [(k, v)].
Proof.
  induction merged as [|[k' v'] merged IH]; simpl; [done|].
  destruct (decide (k' = k)); [done|]. intros H. by rewrite IH.
Qed.

Lemma merged_set_old k v0 v merged :
  merged_get k merged = Some v0 →
  ∃ l1 l2, merged = l1 ++ (k, v0) :: l2
           ∧ merged_set k v merged = l1 ++ (k, v) :: l2.
Proof.
  induction merged as [|[k' v'] merged IH]; simpl; [done|].
  destruct (decide (k' = k)) as [->|Hne].
  - intros [= ->]. by exists [], merged.
  - intros H. destruct (IH H) as (l1 & l2 & -> & ->).
    by exists ((k', v') :: l1), l2.
Qed.

(** ** The first loop of perform_merge *)

Lemma py_getitem_JObj v k x :
  py_getitem v k = Ok x → ∃ kvs, v = JObj kvs ∧ dict_get k kvs = Some x.
Proof.
  destruct v as [| | | | |kvs]; simpl; try done.
  destruct (dict_get k kvs) as [y|] eqn:E; [|done]. intros [= ->]. eauto.
Qed.

Lemma record_key_with_category kvs c :
  record_key (JObj (dict_set "category" c kvs)) = record_key (JObj kvs).
Proof.
  unfold record_key. simpl. by rewrite dict_get_set_ne.
Qed.

Lemma record_key_id_key p k : record_key p = Ok k → id_key p = Ok k.
Proof.
  unfold record_key, id_key. intros H.
  apply bind_Ok in H as (id & Hid & Hk).
  apply py_getitem_JObj in Hid as (kvs & -> & Hid). simpl. by rewrite Hid.
Qed.

(** What one turn of the loop does: a new identifier is filed at the end,
    a known one has its record's category extended in place. *)
Lemma merge_item_cases merged p merged' :
  merge_item merged p = Ok merged' →
  ∃ k, record_key p = Ok k ∧
    ((merged_get k merged = None ∧ merged' = merged ++ [(k, p)])
     ∨ (∃ l1 l2 kvs c more c',
          merged = l1 ++ (k, JObj kvs) :: l2
          ∧ merged_get k merged = Some (JObj kvs)
          ∧ dict_get "category" kvs = Some c
          ∧ py_get p "category" (JArr []) = Ok more
          ∧ py_iadd c more = Ok c'
          ∧ merged' = l1 ++ (k, JObj (dict_set "category" c' kvs)) :: l2)).
Proof.
  unfold merge_item. intros H.
  apply bind_Ok in H as (id & Hid & H).
  apply bind_Ok in H as (k & Hk & H).
  exists k. split; [unfold record_key; by rewrite Hid|].
  destruct (merged_get k merged) as [base|] eqn:Hget.
  - right.
    apply bind_Ok in H as (c & Hc & H).
    apply bind_Ok in H as (more & Hmore & H).
    apply bind_Ok in H as (c' & Hc' & H).
    apply bind_Ok in H as (base' & Hbase' & [= <-]).
    apply py_getitem_JObj in Hc as (kvs & -> & Hc).
    injection Hbase' as <-.
    destruct (merged_set_old k _ (JObj (dict_set "category" c' kvs)) _ Hget)
      as (l1 & l2 & Hm & Hset).
    exists l1, l2, kvs, c, more, c'. by rewrite Hset.
  - left. injection H as <-. split; [done|]. by apply merged_set_new.
Qed.

Lemma merge_item_keyed merged p merged' :
  keyed merged → merge_item merged p = Ok merged' → keyed merged'.
Proof.
  intros [Hnd HF] H.
  apply merge_item_cases in H
    as (k & Hk & [[Hnone ->]|(l1 & l2 & kvs & c & more & c' & -> & _ & _
                              & _ & _ & ->)]).
  - split.
    + rewrite fmap_app. apply NoDup_app. split; [done|]. split.
      * intros k' Hk' Hin. apply list_elem_of_singleton in Hin as ->.
        by apply merged_get_None in Hnone.
      * apply NoDup_singleton.
    + apply Forall_app. split; [done|]. by apply Forall_singleton.
  - split.
    + by rewrite fmap_app, fmap_cons in *.
    + apply Forall_app in HF as [HF1 HF2].
      apply Forall_cons in HF2 as [Hkv HF2].
      apply Forall_app. split; [done|]. apply Forall_cons. split; [|done].
      simpl in *. by rewrite record_key_with_category.
Qed.

Lemma merge_items_keyed papers merged merged' :
  keyed merged → merge_items merged papers = Ok merged' → keyed merged'.
Proof.
  revert merged. induction papers as [|p ps IH]; intros merged Hk H.
  - by injection H as <-.
  - cbn [merge_items] in H. apply bind_Ok in H as (m1 & Hm1 & H).
    eapply IH; [|done]. by eapply merge_item_keyed.
Qed.

Lemma merge_item_length merged p merged' :
  merge_item merged p = Ok merged' →
  (length merged ≤ length merged')%nat ∧ (0 < length merged')%nat.
Proof.
  intros H.
  apply merge_item_cases in H
    as (k & Hk & [[Hnone ->]|(l1 & l2 & kvs & c & more & c' & -> & _ & _
                              & _ & _ & ->)]).
  - rewrite length_app. simpl. lia.
  - rewrite !length_app. simpl. lia.
Qed.

Lemma merge_items_length papers merged merged' :
  merge_items merged papers = Ok merged' →
  (length merged ≤ length merged')%nat.
Proof.
  revert merged. induction papers as [|p ps IH]; intros merged H.
  - by injection H as <-.
  - cbn [merge_items] in H. apply bind_Ok in H as (m1 & Hm1 & H).
    apply merge_item_length in Hm1 as [? _]. apply IH in H. lia.
Qed.

Lemma merge_items_nonempty p ps merged' :
  merge_items [] (p :: ps) = Ok merged' → merged' ≠ [].
Proof.
  cbn [merge_items]. intros H. apply bind_Ok in H as (m1 & Hm1 & H).
  apply merge_item_length in Hm1 as [_ ?]. apply merge_items_length in H.
  intros ->. simpl in H. lia.
Qed.

(** Records with identifiers of their own are filed one after the other. *)
Lemma merge_items_distinct rs ks merged :
  Forall2 (λ r k, record_key r = Ok k) rs ks →
  NoDup (merged.*1 ++ ks) →
  merge_items merged rs = Ok (merged ++ zip ks rs).
Proof.
  intros HF. revert merged.
  induction HF as [|r k rs ks Hk _ IH]; intros merged Hnd.
  - simpl. by rewrite app_nil_r.
  - cbn [merge_items]. unfold merge_item.
    unfold record_key in Hk. apply bind_Ok in Hk as (id & Hid & Hk).
    rewrite Hid. simpl. rewrite Hk. simpl.
    assert (Hnone : merged_get k merged = None).
    { apply merged_get_None. intros Hin.
      apply NoDup_app in Hnd as (_ & Hdisj & _). apply (Hdisj k Hin). left. }
    rewrite Hnone. simpl. rewrite (merged_set_new _ _ _ Hnone).
    rewrite IH.
    + by rewrite <- app_assoc.
    + rewrite fmap_app. simpl. rewrite <- app_assoc. done.
Qed.

(** ** The second loop of perform_merge *)

Lemma dedup_categories_Ok I vs rs :
  dedup_categories I vs = Ok rs ↔
  Forall2 (λ v r, dedup_category I v = Ok r) vs rs.
Proof.
  revert rs. induction vs as [|v vs IH]; intros rs; cbn [dedup_categories].
  - split.
    + intros [= <-]. constructor.
    + by intros ->%Forall2_nil_inv_l.
  - split.
    + intros H. apply bind_Ok in H as (r & Hr & H).
      apply bind_Ok in H as (rs' & Hrs' & [= <-]).
      constructor; [done|]. by apply IH.
    + intros (r & rs' & Hr & Hrs' & ->)%Forall2_cons_inv_l.
      rewrite Hr. simpl. apply IH in Hrs'. by rewrite Hrs'.
Qed.

Lemma dedup_category_Ok I v r :
  dedup_category I v = Ok r →
  ∃ kvs c xs cs,
    v = JObj kvs ∧ dict_get "category" kvs = Some c ∧ py_iter c = Ok xs
    ∧ r = JObj (dict_set "category" (JArr cs) kvs)
    ∧ no_duplicate_values cs ∧ same_values cs xs.
Proof.
  unfold dedup_category. intros H.
  apply bind_Ok in H as (c & Hc & H).
  apply bind_Ok in H as (c' & Hc' & H).
  apply py_getitem_JObj in Hc as (kvs & -> & Hc).
  apply py_list_set_values in Hc' as (xs & cs & Hxs & -> & Hnd & Hsame).
  injection H as <-. by exists kvs, c, xs, cs.
Qed.

Lemma dedup_category_merged_form I v r :
  dedup_category I v = Ok r → merged_form r ∧ record_key r = record_key v.
Proof.
  intros H.
  apply dedup_category_Ok in H
    as (kvs & c & xs & cs & -> & _ & _ & -> & Hnd & _).
  split.
  - exists cs. split; [|done]. simpl. by rewrite dict_get_set.
  - apply record_key_with_category.
Qed.

(** A record in merged form comes out of the second loop with its category
    rearranged and nothing else changed. *)
Lemma dedup_category_again I r :
  merged_form r →
  ∃ r', dedup_category I r = Ok r' ∧ same_but_category_order r r'.
Proof.
  intros (cs & Hcs & Hnd).
  destruct (py_list_set_distinct I cs Hnd) as (cs' & Hset & Hperm).
  exists (with_category r cs'). split.
  - unfold dedup_category. rewrite Hcs. simpl. rewrite Hset. simpl.
    by apply py_getitem_JObj in Hcs as (kvs & -> & _).
  - by exists cs, cs'.
Qed.

Lemma dedup_categories_again I rs :
  Forall merged_form rs →
  ∃ rs', dedup_categories I rs = Ok rs'
         ∧ Forall2 same_but_category_order rs rs'.
Proof.
  induction 1 as [|r rs Hr _ (rs' & Hrs' & HF)].
  - by exists [].
  - destruct (dedup_category_again I r Hr) as (r' & Hr' & Hsame).
    exists (r' :: rs'). split; [|by constructor].
    cbn [dedup_categories]. rewrite Hr'. simpl. by rewrite Hrs'.
Qed.

(** ** What a merge writes *)

(** The records [merge_papers] returns have identifiers of their own and
    are in merged form. *)
Lemma merge_papers_result I papers rs :
  merge_papers I papers = Ok rs →
  (papers ≠ [] → rs ≠ [])
  ∧ Forall merged_form rs
  ∧ ∃ ks, Forall2 (λ r k, record_key r = Ok k) rs ks ∧ NoDup ks.
Proof.
  unfold merge_papers. intros H.
  apply bind_Ok in H as (merged & Hm & H).
  apply dedup_categories_Ok in H.
  assert (Hkeyed : keyed merged).
  { eapply merge_items_keyed; [|done]. split; [constructor|constructor]. }
  destruct Hkeyed as [Hnd Hkeys].
  split; [|split].
  - intros Hne ->. apply Forall2_nil_inv_r in H.
    apply fmap_nil_inv in H as ->.
    destruct papers as [|p ps]; [done|].
    by apply merge_items_nonempty in Hm.
  - apply Forall_forall. intros r Hr.
    apply list_elem_of_lookup in Hr as (i & Hi).
    destruct (Forall2_lookup_r _ _ _ _ _ H Hi) as (v & _ & Hv).
    by apply dedup_category_merged_form in Hv as [? _].
  - exists merged.*1. split; [|done].
    clear Hnd Hm. revert rs H.
    induction Hkeys as [|[k v] merged Hk _ IH]; intros rs H.
    + apply Forall2_nil_inv_l in H as ->. constructor.
    + rewrite fmap_cons in H.
      apply Forall2_cons_inv_l in H as (r & rs' & Hr & Hrs' & ->).
      rewrite fmap_cons. constructor; [|by apply IH].
      apply dedup_category_merged_form in Hr as [_ ->]. done.
Qed.

(** Merging such records again rearranges categories and nothing else. *)
Lemma merge_papers_again I rs ks :
  Forall merged_form rs →
  Forall2 (λ r k, record_key r = Ok k) rs ks → NoDup ks →
  ∃ rs', merge_papers I rs = Ok rs'
         ∧ Forall2 same_but_category_order rs rs'.
Proof.
  intros Hform Hkeys Hnd. unfold merge_papers.
  rewrite (merge_items_distinct rs ks []) by done.
  simpl. rewrite snd_zip by (apply Forall2_length in Hkeys; lia).
  by apply dedup_categories_again.
Qed.

(** ** C8 *)

(** C8, amended: after a successful merge, merging again succeeds and
    writes the same records in the same order, each with the same fields
    and the same category values; only the order of the values inside a
    category may differ, whichever order the second run enumerates sets
    in. *)
Theorem merge_twice I1 I2 date w w1 :
  perform_merge I1 date w = ("merge_success", w1) →
  ∃ result result',
    files w1 !! date = Some (LJson <$> result)
    ∧ perform_merge I2 date w1
      = ("merge_success",
         set_files w1 (<[date := LJson <$> result']> (files w1)))
    ∧ Forall2 same_but_category_order result result'.
Proof.
  rewrite perform_merge_outcome. intros H.
  destruct (stored_papers w date) as [|p ps] eqn:Hps; [done|].
  destruct (stored_nonempty w date) as [Hr _]; [by rewrite Hps|].
  destruct (merge_papers I1 (p :: ps)) as [result|e] eqn:Hm; [|done].
  cbn zeta in H.
  destruct (save_papers_data result date w) as [saved w'] eqn:Hsave.
  destruct saved; cbn [fst snd] in H; [|done].
  injection H as <-.
  apply save_papers_data_true in Hsave as [Hwf ->].
  apply merge_papers_result in Hm as (Hne & Hform & ks & Hkeys & Hnd).
  destruct (merge_papers_again I2 result ks Hform Hkeys Hnd)
    as (result' & Hm' & Hsame).
  exists result, result'. split; [|split; [|done]].
  { simpl. apply lookup_insert_eq. }
  rewrite perform_merge_outcome. unfold stored_papers.
  rewrite (stored_after_save w date result ks Hr).
  2:{ eapply Forall2_impl; [done|]. intros r k. apply record_key_id_key. }
  cbn [fst]. destruct result as [|r rs]; [by destruct Hne|].
  rewrite Hm'. unfold save_papers_data. simpl. rewrite Hwf. done.
Qed.

(** The amended C8 at the store that holds paper 123 under IS, paper 456,
    and paper 123 again under MKT. *)
Lemma merge_twice_witness :
  ∃ result result',
    files (calm twice_merged_files) !! day = Some (LJson <$> result)
    ∧ perform_merge last_seen day (calm twice_merged_files)
      = ("merge_success",
         set_files (calm twice_merged_files)
           (<[day := LJson <$> result']> (files (calm twice_merged_files))))
    ∧ Forall2 same_but_category_order result result'.
Proof.
  apply (merge_twice first_seen last_seen day (calm twice_files)).
  vm_compute. reflexivity.
Defined.

(** C8 as written fails: with sets enumerated last-inserted first, the
    merge of IS, MKT writes MKT, IS, and the merge of that writes IS, MKT
    again. *)
Lemma merge_is_idempotent_fails :
  ¬ merge_is_idempotent last_seen day (calm is_mkt_files).
Proof.
  intros H.
  specialize (H (calm mkt_is_files) "merge_success" (calm is_mkt_files)).
  assert (E : files (calm is_mkt_files) !! day
              = files (calm mkt_is_files) !! day).
  { apply H; vm_compute; reflexivity. }
  vm_compute in E. discriminate.
Qed.

(** ** Identifiers in first-seen order *)

Lemma elem_of_distinct k ks : k ∈ distinct ks ↔ k ∈ ks.
Proof.
  induction ks as [|k' ks IH]; [done|]. simpl.
  rewrite !elem_of_cons, list_elem_of_filter, IH.
  destruct (decide (k = k')); naive_solver.
Qed.

Lemma NoDup_distinct ks : NoDup (distinct ks).
Proof.
  induction ks as [|k ks IH]; simpl; [constructor|].
  constructor.
  - rewrite list_elem_of_filter. by intros [? _].
  - by apply NoDup_filter.
Qed.

Lemma distinct_snoc ks k :
  distinct (ks ++ [k])
  = if decide (k ∈ ks) then distinct ks else distinct ks ++ [k].
Proof.
  induction ks as [|k' ks IH]; cbn [app distinct].
  - rewrite decide_False by apply not_elem_of_nil. by rewrite filter_nil.
  - rewrite IH. destruct (decide (k ∈ ks)) as [Hin|Hnin].
    + rewrite decide_True by (by right). done.
    + rewrite filter_app, filter_cons, filter_nil.
      destruct (decide (k = k')) as [->|Hne].
      * rewrite (decide_False (P := k' ≠ k')) by (by intros ?).
        rewrite (decide_True (P := k' ∈ k' :: ks)) by left.
        by rewrite app_nil_r.
      * rewrite (decide_True (P := k ≠ k')) by done.
        rewrite (decide_False (P := k ∈ k' :: ks)); [done|].
        by intros [?|?]%elem_of_cons.
Qed.

Lemma same_id_snoc k seen p :
  same_id k (seen ++ [p])
  = same_id k seen ++ (if decide (record_key p = Ok k) then [p] else []).
Proof.
  unfold same_id. rewrite filter_app, filter_cons, filter_nil.
  by destruct (decide (record_key p = Ok k)).
Qed.

Lemma same_id_other k k' seen p :
  record_key p = Ok k → k' ≠ k →
  same_id k' (seen ++ [p]) = same_id k' seen.
Proof.
  intros Hk Hne. rewrite same_id_snoc, decide_False; [by rewrite app_nil_r|].
  congruence.
Qed.

Lemma same_id_none k seen ks :
  Forall2 (λ p k, record_key p = Ok k) seen ks → k ∉ ks →
  same_id k seen = [].
Proof.
  intros HF Hk. unfold same_id.
  induction HF as [|p k' seen ks Hp _ IH]; [done|].
  apply not_elem_of_cons in Hk as [Hne Hk].
  rewrite filter_cons, decide_False by congruence. by apply IH.
Qed.

Lemma same_id_elem k seen base rest :
  same_id k seen = base :: rest → base ∈ seen.
Proof.
  intros H. assert (Hin : base ∈ same_id k seen) by (rewrite H; left).
  by apply list_elem_of_filter in Hin as [_ ?].
Qed.

(** ** The first loop, on records whose categories are sequences *)

Lemma category_is_sequence_get kvs c :
  category_is_sequence (JObj kvs) → dict_get "category" kvs = Some c →
  c = JArr (categories (JObj kvs)).
Proof.
  intros [xs Hxs] Hc. unfold categories. rewrite Hxs.
  simpl in Hxs. rewrite Hc in Hxs. simpl in Hxs. congruence.
Qed.

Lemma category_is_sequence_more p more :
  category_is_sequence p → py_get p "category" (JArr []) = Ok more →
  more = JArr (categories p).
Proof.
  intros [xs Hxs] Hm. unfold categories. rewrite Hxs. congruence.
Qed.

(** The category the first loop has gathered under an identifier. *)
Lemma accumulated_category base rest kvs c :
  category_is_sequence base →
  accumulated base rest (JObj kvs) → dict_get "category" kvs = Some c →
  c = JArr (concat (categories <$> base :: rest))
  ∧ ∀ xs, JObj (dict_set "category" (JArr xs) kvs) = with_category base xs.
Proof.
  intros Hseq [[-> <-]|Hv] Hc.
  - split; [|done]. simpl. rewrite app_nil_r.
    by apply category_is_sequence_get.
  - destruct base as [| | | | |kvs0]; try done.
    injection Hv as ->. rewrite dict_get_set in Hc. injection Hc as <-.
    split; [done|]. intros xs. simpl. by rewrite dict_set_set.
Qed.

Lemma merge_item_so_far seen ks merged p merged' :
  merged_so_far seen ks merged →
  Forall category_is_sequence seen → category_is_sequence p →
  merge_item merged p = Ok merged' →
  ∃ k, merged_so_far (seen ++ [p]) (ks ++ [k]) merged'.
Proof.
  intros (Hkeys & Hord & Hacc) Hseen Hp H.
  apply merge_item_cases in H
    as (k & Hk & [[Hnone ->]|(l1 & l2 & kvs & c & more & c' & -> & Hget & Hc
                              & Hmore & Hadd & ->)]).
  - exists k. apply merged_get_None in Hnone. rewrite Hord in Hnone.
    assert (Hnew : k ∉ ks) by (by rewrite <- elem_of_distinct).
    split; [|split].
    + apply Forall2_app; [done|]. by constructor.
    + rewrite fmap_app, distinct_snoc, decide_False by done.
      by rewrite Hord.
    + apply Forall_app. split.
      * apply Forall_forall. intros kv Hkv.
        destruct (proj1 (Forall_forall _ _) Hacc kv Hkv)
          as (base & rest & Hsame & Hv).
        exists base, rest. split; [|done].
        rewrite (same_id_other k); [done..|].
        intros Heq. apply Hnone. rewrite <- Hord.
        apply list_elem_of_fmap. by exists kv.
      * apply Forall_singleton. exists p, []. split; [|by left].
        rewrite same_id_snoc, (same_id_none _ _ ks) by done.
        by rewrite decide_True.
  - exists k.
    assert (Hold : k ∈ ks).
    { rewrite <- elem_of_distinct, <- Hord, fmap_app, fmap_cons.
      apply elem_of_app. right. left. }
    assert (Hnd : NoDup (l1.*1 ++ k :: l2.*1)).
    { rewrite fmap_app, fmap_cons in Hord. simpl in Hord. rewrite Hord.
      apply NoDup_distinct. }
    apply NoDup_app in Hnd as (_ & Hl1 & Hnd).
    apply NoDup_cons in Hnd as [Hl2 _].
    apply Forall_app in Hacc as [Hacc1 Hacc2].
    apply Forall_cons in Hacc2 as [(base & rest & Hsame & Hv) Hacc2].
    cbn [fst snd] in *.
    split; [|split].
    + apply Forall2_app; [done|]. by constructor.
    + rewrite distinct_snoc, decide_True by done.
      rewrite <- Hord. by rewrite !fmap_app, !fmap_cons.
    + assert (Hothers : ∀ l : list (hkey * json),
                k ∉ l.*1 →
                Forall (λ kv, ∃ base rest, same_id kv.1 seen = base :: rest
                                ∧ accumulated base rest kv.2) l →
                Forall (λ kv, ∃ base rest,
                          same_id kv.1 (seen ++ [p]) = base :: rest
                          ∧ accumulated base rest kv.2) l).
      { intros l Hl HF. apply Forall_forall. intros kv Hkv.
        destruct (proj1 (Forall_forall _ _) HF kv Hkv)
          as (b & r & Hs & Ha).
        exists b, r. split; [|done].
        rewrite (same_id_other k); [done..|].
        intros Heq. apply Hl. apply list_elem_of_fmap. by exists kv. }
      apply Forall_app. split.
      { apply Hothers; [|done]. intros Hin. by apply (Hl1 k Hin); left. }
      apply Forall_cons. split; [|by apply Hothers].
      exists base, (rest ++ [p]). cbn [fst snd]. split.
      { rewrite same_id_snoc, Hsame, decide_True by done. done. }
      right.
      assert (Hbase : category_is_sequence base).
      { apply (proj1 (Forall_forall _ _) Hseen).
        by eapply same_id_elem. }
      destruct (accumulated_category _ _ _ _ Hbase Hv Hc) as [-> Hwith].
      apply category_is_sequence_more in Hmore as ->; [|done].
      simpl in Hadd. injection Hadd as <-. rewrite Hwith.
      f_equal. rewrite app_comm_cons, fmap_app, concat_app. simpl.
      by rewrite app_nil_r.
Qed.

Lemma merge_items_so_far papers seen ks merged merged' :
  merged_so_far seen ks merged →
  Forall category_is_sequence seen → Forall category_is_sequence papers →
  merge_items merged papers = Ok merged' →
  ∃ ks', merged_so_far (seen ++ papers) (ks ++ ks') merged'.
Proof.
  revert seen ks merged.
  induction papers as [|p ps IH]; intros seen ks merged Hinv Hseen Hps H.
  - injection H as <-. exists []. by rewrite !app_nil_r.
  - cbn [merge_items] in H. apply bind_Ok in H as (m1 & Hm1 & H).
    apply Forall_cons in Hps as [Hp Hps].
    destruct (merge_item_so_far _ _ _ _ _ Hinv Hseen Hp Hm1) as (k & Hinv1).
    destruct (IH (seen ++ [p]) (ks ++ [k]) m1 Hinv1) as (ks' & Hinv').
    + apply Forall_app. split; [done|]. by apply Forall_singleton.
    + done.
    + done.
    + exists (k :: ks'). by rewrite <- !app_assoc in Hinv'.
Qed.

Lemma merged_so_far_nil : merged_so_far [] [] [].
Proof. split; [constructor|]. split; [done|constructor]. Qed.

Lemma record_key_with_category' base cs :
  record_key (with_category base cs) = record_key base.
Proof.
  destruct base; try done. apply record_key_with_category.
Qed.

(** What [merge_papers] returns on records whose categories are
    sequences: for each identifier in first-seen order, the first record
    filed under it with the distinct values of all the categories filed
    under it. *)
Lemma merge_papers_merged I papers result :
  merge_papers I papers = Ok result →
  Forall category_is_sequence papers →
  ∃ ks, Forall2 (λ p k, record_key p = Ok k) papers ks
        ∧ Forall2 (merged_record papers) (distinct ks) result.
Proof.
  unfold merge_papers. intros H Hseq.
  apply bind_Ok in H as (merged & Hm & H).
  apply dedup_categories_Ok in H.
  destruct (merge_items_so_far papers [] [] [] merged merged_so_far_nil)
    as (ks & Hkeys & Hord & Hacc); [constructor|done..|].
  simpl in *. exists ks. split; [done|]. rewrite <- Hord.
  clear Hord Hm. revert result H.
  induction Hacc as [|[k v] merged (base & rest & Hsame & Hv) _ IH];
    intros result H.
  - apply Forall2_nil_inv_l in H as ->. constructor.
  - rewrite fmap_cons in H.
    apply Forall2_cons_inv_l in H as (r & rs & Hr & Hrs & ->).
    rewrite fmap_cons. constructor; [|by apply IH].
    cbn [fst snd] in *.
    apply dedup_category_Ok in Hr
      as (kvs & c & xs & cs & -> & Hc & Hxs & -> & Hnd & Hvals).
    assert (Hbase : category_is_sequence base).
    { apply (proj1 (Forall_forall _ _) Hseq). by eapply same_id_elem. }
    destruct (accumulated_category _ _ _ _ Hbase Hv Hc) as [-> Hwith].
    injection Hxs as <-.
    exists base, rest, cs. by rewrite Hwith.
Qed.

(** ** The merge goes through on paper records *)

Lemma hash_all_app xs ys kxs kys :
  hash_all xs = Ok kxs → hash_all ys = Ok kys →
  hash_all (xs ++ ys) = Ok (kxs ++ kys).
Proof.
  intros [<- Hx]%hash_all_Ok [<- Hy]%hash_all_Ok.
  rewrite <- fmap_app. apply hash_all_keyed. by apply Forall_app.
Qed.

Lemma paper_record_sequence p : paper_record p → category_is_sequence p.
Proof.
  intros (_ & kvs & xs & kxs & -> & Hc & _). exists xs. simpl. by rewrite Hc.
Qed.

Lemma merge_item_total merged p :
  Forall (λ kv, hashable_category kv.2) merged → paper_record p →
  ∃ merged', merge_item merged p = Ok merged'
             ∧ Forall (λ kv, hashable_category kv.2) merged'.
Proof.
  intros Hm [(k & Hk) Hp]. unfold merge_item.
  unfold record_key in Hk. apply bind_Ok in Hk as (id & Hid & Hk).
  rewrite Hid. simpl. rewrite Hk. simpl.
  destruct (merged_get k merged) as [base|] eqn:Hget.
  - destruct (merged_set_old k base base merged Hget) as (l1 & l2 & Hsplit & _).
    assert (Hbase : hashable_category base).
    { rewrite Hsplit in Hm. apply Forall_app in Hm as [_ Hm].
      by apply Forall_cons in Hm as [? _]. }
    destruct Hbase as (kvs & xs & kxs & -> & Hc & Hxs).
    destruct Hp as (kvs' & ys & kys & -> & Hc' & Hys).
    simpl. rewrite Hc, Hc'. simpl.
    set (v' := JObj (dict_set "category" (JArr (xs ++ ys)) kvs)).
    destruct (merged_set_old k _ v' merged Hget) as (l1' & l2' & Hs' & ->).
    eexists. split; [done|].
    rewrite Hs' in Hm. apply Forall_app in Hm as [Hm1 Hm2].
    apply Forall_cons in Hm2 as [_ Hm2].
    apply Forall_app. split; [done|]. apply Forall_cons. split; [|done].
    exists (dict_set "category" (JArr (xs ++ ys)) kvs), (xs ++ ys), (kxs ++ kys).
    split; [done|]. split; [apply dict_get_set|by apply hash_all_app].
  - simpl. rewrite (merged_set_new _ _ _ Hget).
    eexists. split; [done|]. apply Forall_app. split; [done|].
    by apply Forall_singleton.
Qed.

Lemma merge_items_total papers merged :
  Forall (λ kv, hashable_category kv.2) merged → Forall paper_record papers →
  ∃ merged', merge_items merged papers = Ok merged'
             ∧ Forall (λ kv, hashable_category kv.2) merged'.
Proof.
  intros Hm Hps. revert merged Hm.
  induction Hps as [|p ps Hp _ IH]; intros merged Hm.
  - by exists merged.
  - destruct (merge_item_total merged p Hm Hp) as (m1 & Hm1 & Hinv).
    destruct (IH m1 Hinv) as (m2 & Hm2 & Hinv2).
    exists m2. split; [|done]. cbn [merge_items]. by rewrite Hm1.
Qed.

Lemma dedup_categories_total I vs :
  Forall hashable_category vs → ∃ rs, dedup_categories I vs = Ok rs.
Proof.
  induction 1 as [|v vs (kvs & xs & kxs & -> & Hc & Hxs) _ (rs & IH)].
  - by exists [].
  - eexists. cbn [dedup_categories]. unfold dedup_category. simpl.
    rewrite Hc. simpl. unfold py_list_set. simpl. rewrite Hxs. simpl.
    rewrite IH. done.
Qed.

Lemma merge_papers_total I papers :
  Forall paper_record papers → ∃ result, merge_papers I papers = Ok result.
Proof.
  intros Hps. unfold merge_papers.
  destruct (merge_items_total papers [] (Forall_nil_2 _) Hps)
    as (merged & -> & Hinv).
  simpl. apply dedup_categories_total.
  apply Forall_fmap. by eapply Forall_impl.
Qed.

(** ** C2 *)

(** C2: on a store whose records have sequences for categories, a merge
    that succeeds writes one record per identifier, the identifiers in
    first-seen order; the record of an identifier is the first record filed
    under it, its category replaced by the values of the categories of all
    the records filed under it, each value once.  The merge does succeed
    when the records are paper records and the file can be written. *)
Theorem merge_one_record_per_id I date w :
  let papers := stored_papers w date in
  Forall category_is_sequence papers →
  (papers ≠ [] → Forall paper_record papers → write_fails w date = NoFault →
   (perform_merge I date w).1 = "merge_success")
  ∧ ∀ w', perform_merge I date w = ("merge_success", w') →
      ∃ ks result,
        Forall2 (λ p k, record_key p = Ok k) papers ks
        ∧ files w' !! date = Some (LJson <$> result)
        ∧ NoDup (distinct ks) ∧ (∀ k, k ∈ distinct ks ↔ k ∈ ks)
        ∧ Forall2 (λ r k, record_key r = Ok k) result (distinct ks)
        ∧ Forall2 (merged_record papers) (distinct ks) result.
Proof.
  cbn zeta. intros Hseq. rewrite perform_merge_outcome. split.
  - intros Hne Hps Hwf.
    destruct (merge_papers_total I _ Hps) as (result & Hm).
    destruct (stored_papers w date) as [|p ps]; [done|].
    rewrite Hm. unfold save_papers_data. by rewrite Hwf.
  - intros w' H.
    destruct (stored_papers w date) as [|p ps] eqn:Hps; [done|].
    destruct (merge_papers I (p :: ps)) as [result|e] eqn:Hm; [|done].
    cbn zeta in H.
    destruct (save_papers_data result date w) as [saved w1] eqn:Hsave.
    destruct saved; cbn [fst snd] in H; [|done].
    injection H as <-.
    apply save_papers_data_true in Hsave as [_ ->].
    destruct (merge_papers_merged I _ _ Hm Hseq) as (ks & Hkeys & Hmerged).
    exists ks, result. split; [done|]. split.
    { simpl. apply lookup_insert_eq. }
    split; [apply NoDup_distinct|].
    split; [intros k; apply elem_of_distinct|].
    split; [|done].
    apply Forall2_flip. eapply Forall2_impl; [done|].
    intros k r (base & rest & cs & Hsame & -> & _).
    rewrite record_key_with_category'.
    assert (Hin : base ∈ same_id k (p :: ps)) by (rewrite Hsame; left).
    by apply list_elem_of_filter in Hin as [? _].
Qed.

(** C2 at the store that holds paper 123 under IS, paper 456, and paper 123
    again under MKT: the merge writes 123 with both categories, then 456. *)
Lemma merge_one_record_per_id_witness :
  ∃ ks result,
    Forall2 (λ p k, record_key p = Ok k)
      (stored_papers (calm twice_files) day) ks
    ∧ files (calm twice_merged_files) !! day = Some (LJson <$> result)
    ∧ NoDup (distinct ks) ∧ (∀ k, k ∈ distinct ks ↔ k ∈ ks)
    ∧ Forall2 (λ r k, record_key r = Ok k) result (distinct ks)
    ∧ Forall2 (merged_record (stored_papers (calm twice_files) day))
        (distinct ks) result.
Proof.
  assert (Hseq : Forall category_is_sequence
                   (stored_papers (calm twice_files) day)).
  { assert (E : stored_papers (calm twice_files) day
                = [paper "123" ["IS"]; paper "456" ["IS"];
                   paper "123" ["MKT"]]) by (vm_compute; reflexivity).
    rewrite E. repeat constructor; eexists; reflexivity. }
  destruct (merge_one_record_per_id first_seen day (calm twice_files) Hseq)
    as [_ H].
  apply (H (calm twice_merged_files)). vm_compute. reflexivity.
Defined.

End StoreFacts.

(* ===================================================================== *)
(** * Facts about the traversal *)
(* ===================================================================== *)

Module SpiderFacts.
Import Py Spider SpiderTerms.

#[local] Instance result_ret : MRet result := λ A, Ok.
#[local] Instance result_bind : MBind result := λ A B k m, bind m k.

(** ** Earliest and latest *)

Lemma foldl_min_gt x d rest :
  x < foldl Z.min d rest ↔ x < d ∧ Forall (λ e, x < e) rest.
Proof.
  revert d. induction rest as [|e rest IH]; intros d; simpl.
  - split; [by intros ?; split|by intros [? _]].
  - rewrite IH, Forall_cons.
    split; [intros [? ?]|intros (? & ? & ?)]; repeat split; try done; lia.
Qed.

Lemma foldl_max_lt x d rest :
  foldl Z.max d rest < x ↔ d < x ∧ Forall (λ e, e < x) rest.
Proof.
  revert d. induction rest as [|e rest IH]; intros d; simpl.
  - split; [by intros ?; split|by intros [? _]].
  - rewrite IH, Forall_cons.
    split; [intros [? ?]|intros (? & ? & ?)]; repeat split; try done; lia.
Qed.

Lemma py_min_gt x ds m :
  py_min ds = Ok m → (x < m ↔ Forall (λ e, x < e) ds).
Proof.
  destruct ds as [|d rest]; [done|]. intros [= <-].
  by rewrite foldl_min_gt, Forall_cons.
Qed.

Lemma py_max_lt x ds m :
  py_max ds = Ok m → (m < x ↔ Forall (λ e, e < x) ds).
Proof.
  destruct ds as [|d rest]; [done|]. intros [= <-].
  by rewrite foldl_max_lt, Forall_cons.
Qed.

Lemma bind_ret {A B} (a : A) (k : A → result B) : Ok a ≫= k = k a.
Proof. done. Qed.

Section facts.

Variable strptime_dmy : string → option Z.

#[local] Abbreviation parse := (parse strptime_dmy).
#[local] Abbreviation approved_dates := (approved_dates strptime_dmy).
#[local] Abbreviation entry_date := (entry_date strptime_dmy).
#[local] Abbreviation listing_entry := (listing_entry strptime_dmy).
#[local] Abbreviation spider_ok := (spider_ok strptime_dmy).
#[local] Abbreviation undated := (undated strptime_dmy).

(** ** The first loop *)

Lemma approved_dates_listing self papers :
  Forall (listing_entry self) papers →
  approved_dates papers = Ok (omap entry_date papers).
Proof.
  induction 1 as [|p ps (kvs & s & -> & _ & Hs & Hd) _ IH]; [done|].
  cbn [Spider.approved_dates omap list_omap]. unfold entry_date at 1.
  rewrite Hs. simpl.
  destruct (decide (s = "")) as [->|Hne]; [done|].
  destruct (Hd Hne) as (d & ->). by rewrite IH.
Qed.

Lemma approved_dates_undated papers :
  Forall undated papers →
  approved_dates papers = Ok [] ∨ approved_dates papers = Raise ValueError.
Proof.
  induction 1 as [|p ps (s & Hs & Hd) _ IH]; [by left|].
  cbn [Spider.approved_dates]. rewrite Hs. simpl.
  destruct (decide (s = "")) as [->|Hne]; [done|].
  rewrite (Hd Hne). by right.
Qed.

(** ** The response *)

Lemma parse_listing self papers category index :
  parse self (listing_response papers category index) =
  match approved_dates papers with
  | Raise e => gen_raise e
  | Ok dates =>
      match py_min dates with
      | Raise e => gen_raise e
      | Ok earliest =>
          if decide (earliest > date self) then
            yield_next_page self (JStr category) (JNum index)
          else
            match py_max dates with
            | Raise e => gen_raise e
            | Ok latest =>
                if decide (latest < date self) then ([], None)
                else visit_all self (JStr category) (JNum index) papers
            end
      end
  end.
Proof.
  unfold Spider.parse, listing_response. simpl.
  destruct (approved_dates papers) as [dates|e]; simpl; [|done].
  by destruct (py_min dates).
Qed.

Lemma yield_next_page_listing self category index cat_id :
  table_get category (category2id self) = Some cat_id →
  yield_next_page self (JStr category) (JNum index)
  = ([next_request cat_id category index], None).
Proof.
  intros H. unfold yield_next_page, next_page, build_url. simpl.
  by rewrite H.
Qed.

(** ** C9 *)

(** C9 fails in the code: on a page none of whose entries has an approved
    date that parses (a page without entries is one), [parse] raises
    [ValueError] and yields nothing; it does not return as it does when the
    window has been passed. *)
Theorem parse_undated_page self papers category index :
  Forall undated papers →
  parse self (listing_response papers category index)
  = ([], Some ValueError).
Proof.
  intros H. rewrite parse_listing.
  by destruct (approved_dates_undated papers H) as [->| ->].
Qed.

(** ** The second loop *)

Lemma approved_date_of_tagged category kvs :
  approved_date_of (JObj (tagged category kvs)) = approved_date_of (JObj kvs).
Proof.
  unfold approved_date_of, tagged. simpl.
  by rewrite StoreFacts.dict_get_set_ne.
Qed.

Lemma parse_detail_combined category kvs doc :
  parse_detail {| resp_data := JObj doc;
                  resp_meta := JObj [("paper", JObj (tagged category kvs))] |}
  = ([combined category kvs doc], None).
Proof. done. Qed.

Lemma visit_entry self category kvs :
  visit self (JStr category) (JObj kvs) =
  approved_date ← approved_date_of (JObj (tagged category kvs));
  if decide (approved_date ≠ date_str self) then Ok None
  else
    id ← py_getitem (JObj (tagged category kvs)) "id";
    Ok (Some (Request (PaperUrl id) ParseDetail
                (JObj [("paper", JObj (tagged category kvs))]))).
Proof. done. Qed.

(** What one turn of the loop does with an entry of the listing. *)
Lemma visit_listing self category p :
  listing_entry self p →
  (printed_as_target self p
   ∧ ∃ req, visit self (JStr category) p = Ok (Some req)
            ∧ emitted_for category p req)
  ∨ (¬ printed_as_target self p
     ∧ visit self (JStr category) p = Ok None).
Proof.
  intros (kvs & s & -> & [id Hid] & Hs & Hd).
  rewrite visit_entry, approved_date_of_tagged. unfold printed_as_target.
  rewrite Hs, bind_ret.
  destruct (decide (s ≠ date_str self)) as [Hne|Heq].
  - right. split; [|done]. intros [= ->]. by apply Hne.
  - left. apply dec_stable in Heq. subst s. split; [done|].
    assert (Hid' : py_getitem (JObj (tagged category kvs)) "id" = Ok id).
    { simpl. unfold tagged. by rewrite StoreFacts.dict_get_set_ne, Hid. }
    rewrite Hid', bind_ret. eexists. split; [done|].
    exists kvs, id. split; [done|]. split; [done|]. split; [done|].
    intros doc. apply parse_detail_combined.
Qed.

Lemma visit_all_listing self category index cat_id papers :
  table_get category (category2id self) = Some cat_id →
  Forall (listing_entry self) papers →
  ∃ details,
    visit_all self (JStr category) (JNum index) papers
    = (details ++ [next_request cat_id category index], None)
    ∧ Forall2 (emitted_for category)
        (filter (printed_as_target self) papers) details.
Proof.
  intros Hcat. induction 1 as [|p ps Hp _ (details & IH & HF)].
  - exists []. split; [|constructor].
    simpl. by apply yield_next_page_listing.
  - cbn [visit_all]. rewrite filter_cons.
    destruct (visit_listing self category p Hp)
      as [[Hon (req & -> & Hreq)]|[Hoff ->]].
    + rewrite decide_True by done. exists (req :: details).
      rewrite IH. split; [done|]. by constructor.
    + rewrite decide_False by done. by exists details.
Qed.

(** ** C5 *)


End facts.

(** C9 at the page without entries, and at a page whose entry has a blank
    approved date. *)
Lemma parse_undated_page_witness :
  parse strptime_sample spider_0722 (listing_response [] "IS" 0)
    = ([], Some ValueError)
  ∧ parse strptime_sample spider_0722
      (listing_response [entry "7" "  "] "IS" 0)
    = ([], Some ValueError).
Proof.
  split.
  - apply (parse_undated_page strptime_sample spider_0722 [] "IS" 0).
    constructor.
  - apply (parse_undated_page strptime_sample spider_0722
             [entry "7" "  "] "IS" 0).
    constructor; [|constructor].
    exists "". split; [reflexivity|]. done.
Defined.



End SpiderFacts.

(* ===================================================================== *)
(** * Further facts about the daily stores *)
(* ===================================================================== *)

Module StoreMore.
Import Py Store StoreTerms Samples MoreTerms StoreFacts.

#[local] Instance result_ret : MRet result := λ A, Ok.
#[local] Instance result_bind : MBind result := λ A B k m, bind m k.

Lemma bind_Ok_l_eq {A B} (a : A) (k : A → result B) : Ok a ≫= k = k a.
Proof. done. Qed.

(** ** Writing and reading back *)

Lemma read_lines_unkeyed ps papers ids :
  Exists (λ p, ∃ e, id_key p = Raise e) ps →
  ∃ e, read_lines (LJson <$> ps) papers ids = Raise e.
Proof.
  intros H. revert papers ids.
  induction H as [p ps (e & He)|p ps _ IH]; intros papers ids.
  - rewrite fmap_cons, read_lines_step, He. by eexists.
  - rewrite fmap_cons, read_lines_step.
    destruct (id_key p) as [k|e]; [apply IH|by eexists].
Qed.

(** What [save_papers_data] writes, [load_papers_data] reads back as it
    was: the same records in the same order, and their identifiers,
    provided every record is a dictionary with a hashable ['id']; if one is
    not, the file written reads back as no records at all.  The other
    stores read as before. *)
Theorem save_then_load papers day w w' :
  save_papers_data papers day w = (true, w') →
  read_fails w day = false →
  (∀ ks, Forall2 (λ p k, id_key p = Ok k) papers ks →
         load_papers_data w' day = (papers, list_to_set ks))
  ∧ (Exists (λ p, ∃ e, id_key p = Raise e) papers →
     load_papers_data w' day = ([], ∅))
  ∧ (∀ other, other ≠ day →
       load_papers_data w' other = load_papers_data w other).
Proof.
  intros [_ ->]%save_papers_data_true Hr. split; [|split].
  - intros ks Hks. by apply stored_after_save.
  - intros Hbad. unfold load_papers_data.
    rewrite (path_exists_Some _ _ (LJson <$> papers))
      by (simpl; apply lookup_insert_eq).
    simpl. rewrite Hr, lookup_insert_eq. simpl.
    by destruct (read_lines_unkeyed papers [] ∅ Hbad) as (e & ->).
  - intros other Hne. apply load_papers_data_ext; [|done].
    simpl. by rewrite lookup_insert_ne.
Qed.

Lemma save_then_load_witness :
  load_papers_data
    (save_papers_data [paper "A" ["IS"]; paper "C" ["MKT"]] day
       (calm abc_files)).2 day
  = ([paper "A" ["IS"]; paper "C" ["MKT"]],
     list_to_set [KStr "A"; KStr "C"]).
Proof.
  destruct (save_then_load [paper "A" ["IS"]; paper "C" ["MKT"]] day
              (calm abc_files) _ eq_refl eq_refl) as (H & _ & _).
  apply H. by repeat constructor.
Defined.

(** ** Lines that cannot be taken in *)

Lemma read_lines_unloadable ls papers ids :
  Exists unloadable ls → ∃ e, read_lines ls papers ids = Raise e.
Proof.
  intros H. revert papers ids.
  induction H as [l ls Hl|l ls _ IH]; intros papers ids.
  - destruct Hl as [->|(data & e & -> & He)]; [by eexists|].
    rewrite read_lines_step, He. by eexists.
  - destruct l as [| |data]; [apply IH|by eexists|].
    rewrite read_lines_step.
    destruct (id_key data) as [k|e]; [apply IH|by eexists].
Qed.

(** One line that does not parse, or that is not a dictionary, or whose
    ['id'] is not hashable, and [load_papers_data] returns no record and no
    identifier for the whole file, wherever the line stands. *)
Theorem load_all_or_nothing w day ls :
  files w !! day = Some ls →
  Exists unloadable ls →
  load_papers_data w day = ([], ∅).
Proof.
  intros Hls Hbad. unfold load_papers_data.
  rewrite (path_exists_Some _ _ _ Hls), Hls. simpl.
  destruct (read_fails w day); [done|].
  by destruct (read_lines_unloadable ls [] ∅ Hbad) as (e & ->).
Qed.

Lemma load_all_or_nothing_witness :
  load_papers_data (calm list_id_files) day = ([], ∅).
Proof.
  apply (load_all_or_nothing (calm list_id_files) day
           [LJson (paper "A" ["IS"]); LJson list_id_paper]).
  - reflexivity.
  - right. left. right. by exists list_id_paper, TypeError.
Defined.

(** ** Blank lines *)

Lemma read_lines_blank l1 l2 papers ids :
  read_lines (l1 ++ LBlank :: l2) papers ids
  = read_lines (l1 ++ l2) papers ids.
Proof.
  revert papers ids. induction l1 as [|l l1 IH]; intros papers ids; [done|].
  destruct l as [| |data]; simpl; [apply IH|done|].
  destruct (py_get data "id" (JStr "")) as [id|]; simpl; [|done].
  destruct (py_hash id); simpl; [apply IH|done].
Qed.

(** A blank line changes nothing to what [load_papers_data] returns,
    wherever it stands in the file. *)
Theorem load_skips_blank_lines w w' day l1 l2 :
  files w !! day = Some (l1 ++ LBlank :: l2) →
  files w' !! day = Some (l1 ++ l2) →
  read_fails w' day = read_fails w day →
  load_papers_data w day = load_papers_data w' day.
Proof.
  intros Hw Hw' Hr. unfold load_papers_data.
  rewrite (path_exists_Some _ _ _ Hw), (path_exists_Some _ _ _ Hw').
  rewrite Hw, Hw', Hr. simpl. by rewrite read_lines_blank.
Qed.

Lemma load_skips_blank_lines_witness :
  load_papers_data (calm spaced_files) day
  = load_papers_data (calm ac_only_files) day.
Proof.
  apply (load_skips_blank_lines (calm spaced_files) (calm ac_only_files) day
           [LJson (paper "A" ["IS"])] [LJson (paper "C" ["MKT"])]);
    reflexivity.
Defined.

(** ** What a run leaves alone *)

Lemma same_elsewhere_refl date w : same_elsewhere date w w.
Proof. by repeat split. Qed.

Lemma same_elsewhere_trans date w1 w2 w3 :
  same_elsewhere date w1 w2 → same_elsewhere date w2 w3 →
  same_elsewhere date w1 w3.
Proof.
  intros (Hf & Hr & Hw & Hd) (Hf' & Hr' & Hw' & Hd').
  split; [|by rewrite Hr', Hw', Hd'].
  intros day Hne. by rewrite Hf', Hf.
Qed.

Lemma same_elsewhere_save papers date w :
  same_elsewhere date w (save_papers_data papers date w).2.
Proof.
  unfold save_papers_data.
  destruct (write_fails w date); cbn [snd];
    [|apply same_elsewhere_refl|];
    (split; [|done]); intros other Hne; simpl; by rewrite lookup_insert_ne.
Qed.

Lemma same_elsewhere_remove date w :
  same_elsewhere date w (os_remove date w).2.
Proof.
  unfold os_remove.
  destruct (remove_fails w date); cbn [snd]; [apply same_elsewhere_refl|].
  split; [|done]. intros other Hne. simpl. by rewrite lookup_delete_ne.
Qed.

Lemma same_elsewhere_dedup date w :
  same_elsewhere date w (perform_deduplication date w).2.
Proof.
  rewrite perform_deduplication_outcome. unfold dedup_outcome.
  destruct (path_exists w date); simpl; [|apply same_elsewhere_refl].
  destruct (stored_papers w date); [apply same_elsewhere_refl|].
  destruct (decide (date ≤ 7)); [apply same_elsewhere_refl|].
  destruct (decide (_ = ∅)); [apply same_elsewhere_refl|].
  destruct (survivors _ _).
  - apply same_elsewhere_remove.
  - apply same_elsewhere_save.
Qed.

Lemma same_elsewhere_merge I date w :
  same_elsewhere date w (perform_merge I date w).2.
Proof.
  rewrite perform_merge_outcome.
  destruct (stored_papers w date); [apply same_elsewhere_refl|].
  destruct (merge_papers I _); [|apply same_elsewhere_refl].
  apply same_elsewhere_save.
Qed.

(** [perform_merge], [perform_deduplication] and [main] change no store
    but the one of the date they are run for: the file of every other day
    is afterwards what it was before. *)
Theorem runs_touch_one_file I date w :
  same_elsewhere date w (perform_merge I date w).2
  ∧ same_elsewhere date w (perform_deduplication date w).2
  ∧ same_elsewhere date w (main I date w).2.
Proof.
  split; [apply same_elsewhere_merge|]. split; [apply same_elsewhere_dedup|].
  unfold main, gate.
  pose proof (same_elsewhere_merge I date w) as Hm.
  destruct (perform_merge I date w) as [ms w1]. cbn [snd] in Hm.
  destruct (decide (ms = "merge_success")).
  - pose proof (same_elsewhere_dedup date w1) as Hd.
    destruct (perform_deduplication date w1) as [ds w2]. cbn [snd] in Hd.
    assert (same_elsewhere date w w2) by (by eapply same_elsewhere_trans).
    by repeat case_decide.
  - by repeat case_decide.
Qed.

(** ** Deduplication only removes *)

Lemma stored_papers_after_save w day ps ks :
  read_fails w day = false →
  Forall2 (λ p k, id_key p = Ok k) ps ks →
  stored_papers (set_files w (<[day := LJson <$> ps]> (files w))) day = ps.
Proof.
  intros Hr Hks. unfold stored_papers.
  by rewrite (stored_after_save _ _ _ ks).
Qed.

(** Whatever [perform_deduplication] answers, the records of the day's
    store afterwards are records it held before, in the order they were in:
    nothing is added, changed or moved. *)
Theorem dedup_only_removes date w :
  stored_papers (perform_deduplication date w).2 date
  `sublist_of` stored_papers w date.
Proof.
  rewrite perform_deduplication_outcome. unfold dedup_outcome.
  destruct (path_exists w date); cbn [negb]; [|done].
  destruct (stored_papers w date) as [|p ps] eqn:Hps;
    [cbn [snd]; by rewrite Hps|].
  destruct (decide (date ≤ 7)); [cbn [snd]; by rewrite Hps|].
  destruct (decide (_ = ∅)); [cbn [snd]; by rewrite Hps|].
  destruct (stored_nonempty w date) as [Hr _]; [by rewrite Hps|].
  destruct (stored_keys w date) as (ks & Hks & _). rewrite Hps in Hks.
  set (dups := stored_ids w date ∩ window_ids w date).
  destruct (survivors_keys _ _ dups Hks) as (ks' & Hks' & _).
  pose proof (sublist_filter (λ q, ¬ is_duplicate dups q) (p :: ps)) as Hsub.
  fold (survivors dups (p :: ps)) in Hsub.
  destruct (survivors dups (p :: ps)) as [|q qs] eqn:Hsv.
  - cbn [snd]. unfold os_remove. destruct (remove_fails w date); cbn [snd].
    + by rewrite Hps.
    + unfold stored_papers. rewrite stored_after_delete. apply sublist_nil_l.
  - cbn [snd]. unfold save_papers_data.
    destruct (write_fails w date) as [| |written]; cbn [snd].
    + etrans; [|exact Hsub].
      by rewrite (stored_papers_after_save w date (q :: qs) ks').
    + by rewrite Hps.
    + etrans; [|exact Hsub].
      rewrite (stored_papers_after_save w date (take written (q :: qs))
                 (take written ks')) by (by try apply Forall2_take).
      apply sublist_take.
Qed.

(** ** Deduplicating again *)

(** A second [perform_deduplication] finds nothing to do: after
    [has_new_content] it answers [has_new_content] again and leaves the
    directory as it is; after [no_new_content] with the file deleted it
    answers [no_data]. *)
Theorem dedup_again date w status w' :
  perform_deduplication date w = (status, w') →
  (status = "has_new_content" →
   perform_deduplication date w' = ("has_new_content", w'))
  ∧ (status = "no_new_content" → remove_fails w date = false →
     perform_deduplication date w' = ("no_data", w')).
Proof.
  rewrite perform_deduplication_outcome. unfold dedup_outcome at 1.
  destruct (path_exists w date) eqn:Hex; cbn [negb];
    [|by intros [= <- <-]].
  destruct (stored_papers w date) as [|p ps] eqn:Hps; [by intros [= <- <-]|].
  destruct (decide (date ≤ 7)); [by intros [= <- <-]|].
  destruct (decide (_ = ∅)) as [Hnone|Hsome].
  { intros [= <- <-]. split; [|done]. intros _.
    rewrite perform_deduplication_outcome. unfold dedup_outcome.
    rewrite Hex, Hps. cbn [negb]. by rewrite !decide_False, decide_True by done. }
  destruct (stored_nonempty w date) as [Hr _]; [by rewrite Hps|].
  destruct (stored_keys w date) as (ks & Hks & Hids). rewrite Hps in Hks.
  set (dups := stored_ids w date ∩ window_ids w date) in *.
  destruct (survivors_keys _ _ dups Hks) as (ks' & Hks' & Hset).
  destruct (survivors dups (p :: ps)) as [|q qs] eqn:Hsv.
  - intros [= <- <-]. split; [done|]. intros _ Hrm.
    unfold os_remove. rewrite Hrm. cbn [snd].
    unfold perform_deduplication.
    rewrite path_exists_None; [done|]. simpl. apply lookup_delete_eq.
  - destruct (save_papers_data (q :: qs) date w) as [saved w1] eqn:Hsave.
    destruct saved; cbn [fst snd]; intros [= <- <-]; [|done].
    apply save_papers_data_true in Hsave as [_ ->].
    split; [|done]. intros _.
    rewrite perform_deduplication_outcome. unfold dedup_outcome.
    rewrite (path_exists_Some _ _ (LJson <$> q :: qs))
      by (simpl; apply lookup_insert_eq).
    cbn [negb].
    rewrite (stored_papers_after_save w date (q :: qs) ks' Hr Hks').
    rewrite decide_False by done.
    rewrite decide_True; [done|].
    rewrite window_ids_today
      by (intros other Hne; by rewrite lookup_insert_ne).
    etrans; [apply f_equal2; [|done];
             exact (stored_ids_after_save w date (q :: qs) ks' Hr Hks')|].
    rewrite Hset. fold dups. set_solver.
Qed.

Lemma dedup_again_witness :
  perform_deduplication day (calm ac_files)
  = ("has_new_content", calm ac_files).
Proof.
  destruct (dedup_again day (calm abc_files) "has_new_content" (calm ac_files))
    as [H _]; [vm_compute; reflexivity|].
  by apply H.
Defined.

(** ** What deduplication looks at *)

(** [perform_deduplication] looks at the day's store and at the stores of
    the seven days before it, and at nothing else: in two directories that
    are alike on these eight days it answers the same status and leaves the
    same file for the day.  A store of eight or more days before, or of a
    later day, has no say. *)
Theorem dedup_looks_at_eight_days date w1 w2 :
  same_window date w1 w2 →
  (perform_deduplication date w1).1 = (perform_deduplication date w2).1
  ∧ files (perform_deduplication date w1).2 !! date
    = files (perform_deduplication date w2).2 !! date.
Proof.
  intros (Hdays & Hwf & Hrm).
  assert (Hload : ∀ d, date - 7 ≤ d ≤ date →
            load_papers_data w1 d = load_papers_data w2 d).
  { intros d Hd. destruct (Hdays d Hd). by apply load_papers_data_ext. }
  assert (Hfile : files w1 !! date = files w2 !! date)
    by (apply Hdays; lia).
  rewrite !perform_deduplication_outcome. unfold dedup_outcome.
  rewrite !path_exists_lookup, <- Hfile.
  unfold stored_papers, stored_ids.
  rewrite <- (Hload date) by lia.
  rewrite <- (window_ids_ext w1 w2 date) by (intros i Hi; apply Hload; lia).
  destruct (bool_decide (files w1 !! date ≠ None)); cbn [negb]; [|done].
  destruct (load_papers_data w1 date).1; [done|].
  destruct (decide (date ≤ 7)); [done|].
  destruct (decide (_ = ∅)); [done|].
  destruct (survivors _ _) as [|q qs].
  - split; [done|]. unfold os_remove. rewrite <- Hrm.
    destruct (remove_fails w1 date); cbn [snd]; [done|].
    simpl. by rewrite !lookup_delete_eq.
  - unfold save_papers_data. rewrite <- Hwf.
    destruct (write_fails w1 date); cbn [fst snd]; split; try done;
      simpl; by rewrite !lookup_insert_eq.
Qed.

Lemma dedup_looks_at_eight_days_witness :
  (perform_deduplication day (calm old_a_files)).1
  = (perform_deduplication day (calm ac_only_files)).1.
Proof.
  apply (dedup_looks_at_eight_days day (calm old_a_files)
           (calm ac_only_files)).
  split; [|done]. intros d Hd. split; [|done]. simpl.
  unfold old_a_files, ac_only_files.
  destruct (decide (d = day)) as [->|Hne].
  - by rewrite !lookup_insert_eq.
  - by rewrite !lookup_insert_ne by (unfold day in *; lia).
Defined.

(** ** The statuses there are *)

(** What a successful merge leaves: the merged records, written and
    readable, each in merged form and under an identifier of its own. *)
Lemma merge_success_store I date w w1 :
  perform_merge I date w = ("merge_success", w1) →
  ∃ result ks,
    merge_papers I (stored_papers w date) = Ok result
    ∧ result ≠ []
    ∧ w1 = set_files w (<[date := LJson <$> result]> (files w))
    ∧ read_fails w date = false ∧ write_fails w date = NoFault
    ∧ Forall merged_form result
    ∧ Forall2 (λ r k, record_key r = Ok k) result ks ∧ NoDup ks
    ∧ load_papers_data w1 date = (result, list_to_set ks).
Proof.
  rewrite perform_merge_outcome. intros H.
  destruct (stored_papers w date) as [|p ps] eqn:Hps; [done|].
  destruct (stored_nonempty w date) as [Hr _]; [by rewrite Hps|].
  destruct (merge_papers I (p :: ps)) as [result|e] eqn:Hm; [|done].
  cbn zeta in H.
  destruct (save_papers_data result date w) as [saved w'] eqn:Hsave.
  destruct saved; cbn [fst snd] in H; [|done].
  injection H as <-.
  apply save_papers_data_true in Hsave as [Hwf ->].
  pose proof Hm as Hm'.
  apply merge_papers_result in Hm' as (Hne & Hform & ks & Hkeys & Hnd).
  exists result, ks. repeat split; try done.
  - by apply Hne.
  - apply stored_after_save; [done|].
    eapply Forall2_impl; [done|]. intros r k. apply record_key_id_key.
Qed.

(** [perform_merge] answers [merge_success], [no_data] or [error], and
    [perform_deduplication] answers [has_new_content], [no_new_content],
    [no_data] or [error]; run on what a successful merge left, as [main]
    runs it, [perform_deduplication] does not answer [no_data].  So the
    branches of [main] for an unknown status, and its branch for [no_data]
    after the merge, are never taken. *)
Theorem statuses_known I date w :
  (perform_merge I date w).1 ∈ ["merge_success"; "no_data"; "error"]
  ∧ (perform_deduplication date w).1
    ∈ ["has_new_content"; "no_new_content"; "no_data"; "error"]
  ∧ ∀ w1, perform_merge I date w = ("merge_success", w1) →
      (perform_deduplication date w1).1
      ∈ ["has_new_content"; "no_new_content"; "error"].
Proof.
  split; [|split].
  - rewrite perform_merge_outcome.
    destruct (stored_papers w date); [set_solver|].
    destruct (merge_papers I _); [|set_solver].
    cbn zeta. destruct (save_papers_data _ _ _).1; set_solver.
  - rewrite perform_deduplication_outcome. unfold dedup_outcome.
    destruct (path_exists w date); cbn [negb]; [|set_solver].
    destruct (stored_papers w date); [set_solver|].
    repeat case_decide; try set_solver.
    destruct (survivors _ _); [set_solver|].
    cbn zeta. destruct (save_papers_data _ _ _).1; set_solver.
  - intros w1 (result & ks & _ & Hne & -> & _ & _ & _ & _ & _ & Hload)
             %merge_success_store.
    rewrite perform_deduplication_outcome. unfold dedup_outcome.
    rewrite (path_exists_Some _ _ (LJson <$> result))
      by (simpl; apply lookup_insert_eq).
    cbn [negb]. unfold stored_papers at 1. rewrite Hload. cbn [fst].
    destruct result as [|r rs]; [done|].
    repeat case_decide; try set_solver.
    destruct (survivors _ _); [set_solver|].
    cbn zeta. destruct (save_papers_data _ _ _).1; set_solver.
Qed.

(** ** The identifiers a merge keeps *)

Lemma merge_item_keys merged p merged' :
  merge_item merged p = Ok merged' →
  ∃ k, record_key p = Ok k
       ∧ ∀ k', k' ∈ merged'.*1 ↔ k' ∈ merged.*1 ∨ k' = k.
Proof.
  intros H.
  apply merge_item_cases in H
    as (k & Hk & [[Hnone ->]|(l1 & l2 & kvs & c & more & c' & -> & _ & _
                              & _ & _ & ->)]);
    exists k; (split; [done|]); intros k'.
  - rewrite fmap_app, elem_of_app. simpl. by rewrite list_elem_of_singleton.
  - rewrite !fmap_app, !fmap_cons. cbn [fst].
    rewrite !elem_of_app, !elem_of_cons. naive_solver.
Qed.

Lemma merge_items_keys papers merged merged' :
  merge_items merged papers = Ok merged' →
  ∃ ks, Forall2 (λ p k, record_key p = Ok k) papers ks
        ∧ ∀ k, k ∈ merged'.*1 ↔ k ∈ merged.*1 ∨ k ∈ ks.
Proof.
  revert merged. induction papers as [|p ps IH]; intros merged H.
  - injection H as <-. exists []. split; [constructor|].
    intros k. rewrite elem_of_nil. naive_solver.
  - cbn [merge_items] in H. apply bind_Ok in H as (m1 & Hm1 & H).
    apply merge_item_keys in Hm1 as (k & Hk & Hm1).
    destruct (IH _ H) as (ks & Hks & Hm).
    exists (k :: ks). split; [by constructor|].
    intros k'. rewrite Hm, Hm1, elem_of_cons. naive_solver.
Qed.

Lemma dedup_categories_keys I (merged : list (hkey * json)) rs :
  Forall (λ kv, record_key kv.2 = Ok kv.1) merged →
  Forall2 (λ v r, dedup_category I v = Ok r) merged.*2 rs →
  Forall2 (λ r k, record_key r = Ok k) rs merged.*1.
Proof.
  intros Hkeys. revert rs.
  induction Hkeys as [|[k v] merged Hk _ IH]; intros rs H.
  - apply Forall2_nil_inv_l in H as ->. constructor.
  - rewrite fmap_cons in H.
    apply Forall2_cons_inv_l in H as (r & rs' & Hr & Hrs' & ->).
    rewrite fmap_cons. constructor; [|by apply IH].
    apply dedup_category_merged_form in Hr as [_ ->]. done.
Qed.

Lemma record_key_unique p k1 k2 :
  record_key p = Ok k1 → record_key p = Ok k2 → k1 = k2.
Proof. congruence. Qed.

(** A successful merge keeps the identifiers of the store, all of them and
    no other, and leaves as many records as the store had identifiers. *)
Theorem merge_keeps_identifiers I date w w' :
  perform_merge I date w = ("merge_success", w') →
  stored_ids w' date = stored_ids w date
  ∧ length (stored_papers w' date) = size (stored_ids w date).
Proof.
  intros (result & ks & Hm & _ & -> & _ & _ & _ & Hkeys & Hnd & Hload)
         %merge_success_store.
  unfold merge_papers in Hm. apply bind_Ok in Hm as (merged & Hitems & Hm).
  apply dedup_categories_Ok in Hm.
  assert (Hkeyed : keyed merged).
  { eapply merge_items_keyed; [|done]. split; constructor. }
  destruct Hkeyed as [_ Hmk].
  pose proof (dedup_categories_keys I merged result Hmk Hm) as Hout.
  assert (ks = merged.*1) as ->.
  { eapply Forall2_unique; [exact Hkeys|exact Hout|].
    intros r k1 k2. apply record_key_unique. }
  destruct (merge_items_keys _ _ _ Hitems) as (ks_in & Hin & Hsame).
  destruct (stored_keys w date) as (ks0 & Hks0 & Hids).
  assert (ks0 = ks_in) as ->.
  { eapply Forall2_unique; [exact Hks0| |intros p k1 k2; congruence].
    eapply Forall2_impl; [exact Hin|]. intros p k. apply record_key_id_key. }
  assert (Hset : list_to_set (C := gset hkey) merged.*1 = list_to_set ks_in).
  { apply set_eq. intros k. rewrite !elem_of_list_to_set, Hsame.
    simpl. rewrite elem_of_nil. naive_solver. }
  unfold stored_ids at 1, stored_papers. rewrite Hload. cbn [fst snd].
  rewrite Hids, <- Hset. split; [done|].
  rewrite size_list_to_set by done.
  by apply Forall2_length in Hout.
Qed.

Lemma merge_keeps_identifiers_witness :
  stored_ids (calm twice_merged_files) day = stored_ids (calm twice_files) day
  ∧ length (stored_papers (calm twice_merged_files) day)
    = size (stored_ids (calm twice_files) day).
Proof.
  apply (merge_keeps_identifiers first_seen day (calm twice_files)).
  vm_compute. reflexivity.
Defined.

(** ** A record without a category *)

Lemma merged_get_app k (m l : list (hkey * json)) :
  merged_get k (m ++ l)
  = match merged_get k m with
    | Some v => Some v
    | None => merged_get k l
    end.
Proof.
  induction m as [|[k' v'] m IH]; simpl; [done|].
  by destruct (decide (k' = k)).
Qed.

Lemma merged_get_replace k k' a b (l1 l2 : list (hkey * json)) :
  k ≠ k' →
  merged_get k (l1 ++ (k', a) :: l2) = merged_get k (l1 ++ (k', b) :: l2).
Proof.
  intros Hne. rewrite !merged_get_app. simpl.
  by rewrite !decide_False by done.
Qed.

Lemma merged_get_elem k v (merged : list (hkey * json)) :
  merged_get k merged = Some v → v ∈ merged.*2.
Proof.
  induction merged as [|[k' v'] m IH]; simpl; [done|].
  destruct (decide (k' = k)).
  - intros [= ->]. left.
  - intros H. right. by apply IH.
Qed.

(** The record filed under [k] has no category, and so it stays. *)
Lemma merge_item_bare k kvs merged q merged' :
  merged_get k merged = Some (JObj kvs) → dict_get "category" kvs = None →
  merge_item merged q = Ok merged' →
  merged_get k merged' = Some (JObj kvs).
Proof.
  intros Hget Hnone H.
  apply merge_item_cases in H
    as (k' & Hk' & [[Hnew ->]|(l1 & l2 & kvs' & c & more & c' & -> & Hget' & Hc
                              & _ & _ & ->)]).
  - by rewrite merged_get_app, Hget.
  - destruct (decide (k = k')) as [->|Hne].
    + rewrite Hget' in Hget. injection Hget as ->. congruence.
    + by rewrite <- (merged_get_replace k k' (JObj kvs')).
Qed.

Lemma merge_items_bare k kvs papers merged merged' :
  merged_get k merged = Some (JObj kvs) → dict_get "category" kvs = None →
  merge_items merged papers = Ok merged' →
  merged_get k merged' = Some (JObj kvs).
Proof.
  revert merged. induction papers as [|q qs IH]; intros merged Hget Hnone H.
  - by injection H as <-.
  - cbn [merge_items] in H. apply bind_Ok in H as (m1 & Hm1 & H).
    eapply IH; [|done..]. by eapply merge_item_bare.
Qed.

Lemma merge_items_app a b merged :
  merge_items merged (a ++ b) = m ← merge_items merged a; merge_items m b.
Proof.
  revert merged. induction a as [|p a IH]; intros merged; [done|].
  cbn [app merge_items]. destruct (merge_item merged p); simpl; [|done].
  apply IH.
Qed.

Lemma dedup_categories_Raise I v vs e :
  v ∈ vs → dedup_category I v = Raise e →
  ∃ e', dedup_categories I vs = Raise e'.
Proof.
  intros Hin Hv. induction Hin as [v vs|v v' vs _ IH].
  - cbn [dedup_categories]. rewrite Hv. by eexists.
  - cbn [dedup_categories]. destruct (dedup_category I v'); [|by eexists].
    destruct (IH Hv) as (e' & ->). by eexists.
Qed.

(** When the first record of an identifier has no ['category'],
    [perform_merge] answers [error] and leaves the directory as it was,
    whatever the other records are: a later record of the same identifier
    cannot add to a category that is not there, and a record alone has none
    to turn into a set. *)
Theorem first_record_without_category I date w before kvs after k :
  stored_papers w date = before ++ JObj kvs :: after →
  record_key (JObj kvs) = Ok k →
  Forall (λ q, record_key q ≠ Ok k) before →
  dict_get "category" kvs = None →
  perform_merge I date w = ("error", w).
Proof.
  intros Hps Hk Hbefore Hnone. rewrite perform_merge_outcome, Hps.
  assert (Hraise : ∃ e, merge_papers I (before ++ JObj kvs :: after) = Raise e).
  { unfold merge_papers. rewrite merge_items_app.
    destruct (merge_items [] before) as [m0|e] eqn:Hm0; [|by eexists].
    rewrite bind_Ok_l_eq. cbn [merge_items].
    assert (Hfresh : merged_get k m0 = None).
    { apply merged_get_None. intros Hin.
      destruct (merge_items_keys _ _ _ Hm0) as (ks & Hks & Hsame).
      pose proof (proj1 (Hsame k) Hin) as [Hnil|Hseen];
        [by apply elem_of_nil in Hnil|].
      apply list_elem_of_lookup in Hseen as (i & Hi).
      destruct (Forall2_lookup_r _ _ _ _ _ Hks Hi) as (q & Hq & Hqk).
      apply (proj1 (Forall_forall _ _) Hbefore q); [|done].
      by eapply list_elem_of_lookup_2. }
    assert (Hitem : merge_item m0 (JObj kvs) = Ok (m0 ++ [(k, JObj kvs)])).
    { unfold merge_item. unfold record_key in Hk.
      apply bind_Ok in Hk as (id & Hid & Hk). rewrite Hid. simpl.
      rewrite Hk. simpl. rewrite Hfresh. by rewrite merged_set_new. }
    rewrite Hitem. rewrite bind_Ok_l_eq.
    destruct (merge_items (m0 ++ [(k, JObj kvs)]) after) as [m|e] eqn:Hm;
      [|by eexists].
    rewrite bind_Ok_l_eq.
    assert (Hget : merged_get k m = Some (JObj kvs)).
    { eapply merge_items_bare; [|done..].
      rewrite merged_get_app, Hfresh. simpl. by rewrite decide_True. }
    eapply dedup_categories_Raise; [by eapply merged_get_elem|].
    unfold dedup_category. simpl. by rewrite Hnone. }
  destruct Hraise as (e & He).
  destruct (before ++ JObj kvs :: after) as [|p ps] eqn:E;
    [by destruct before|].
  by rewrite He.
Qed.

Lemma first_record_without_category_witness :
  perform_merge first_seen day (calm no_category_files)
  = ("error", calm no_category_files).
Proof.
  apply (first_record_without_category first_seen day
           (calm no_category_files) [paper "A" ["IS"]]
           [("id", JStr "B"); ("approved_date", JStr "22 Jul 2025")]
           [paper "A" ["MKT"]] (KStr "B")).
  - vm_compute. reflexivity.
  - reflexivity.
  - repeat constructor. discriminate.
  - reflexivity.
Defined.

(** ** What exit code 0 stands for *)

Lemma dedup_has_new_content date w w' :
  perform_deduplication date w = ("has_new_content", w') →
  let dups := stored_ids w date ∩ window_ids w date in
  let new_papers := survivors dups (stored_papers w date) in
  stored_papers w date ≠ []
  ∧ ((dups = ∅ ∧ w' = w)
     ∨ (new_papers ≠ []
        ∧ w' = set_files w (<[date := LJson <$> new_papers]> (files w)))).
Proof.
  rewrite perform_deduplication_outcome. unfold dedup_outcome. cbn zeta.
  destruct (path_exists w date); cbn [negb]; [|done].
  destruct (stored_papers w date) as [|p ps]; [done|].
  destruct (decide (date ≤ 7)); [done|].
  destruct (decide (_ = ∅)) as [Hnone|Hsome].
  { intros [= <-]. split; [done|]. by left. }
  destruct (survivors _ (p :: ps)) as [|q qs]; [done|].
  destruct (save_papers_data (q :: qs) date w) as [saved w1] eqn:Hsave.
  destruct saved; cbn [fst snd]; [|done].
  apply save_papers_data_true in Hsave as [_ ->].
  intros [= <-]. split; [done|]. by right.
Qed.

Lemma filter_keys {A B} (R : A → B → Prop) (Q : A → Prop)
    `{∀ x, Decision (Q x)} l ks :
  Forall2 R l ks →
  ∃ ks', Forall2 R (filter Q l) ks' ∧ ks' `sublist_of` ks.
Proof.
  induction 1 as [|x k l ks Hx _ (ks' & IH & Hsub)].
  - by exists [].
  - rewrite filter_cons. destruct (decide (Q x)).
    + exists (k :: ks'). split; [by constructor|by apply sublist_skip].
    + exists ks'. split; [done|by apply sublist_cons].
Qed.

Lemma Forall_sublist {A} (P : A → Prop) l1 l2 :
  l1 `sublist_of` l2 → Forall P l2 → Forall P l1.
Proof.
  intros Hsub HF. apply Forall_forall. intros x Hx.
  apply (proj1 (Forall_forall _ _) HF). by eapply elem_of_sublist.
Qed.

Lemma main_exit_0_store I date w w2 :
  main I date w = (0, w2) →
  stored_papers w2 date ≠ []
  ∧ Forall merged_form (stored_papers w2 date)
  ∧ (∃ ks, Forall2 (λ r k, record_key r = Ok k) (stored_papers w2 date) ks
           ∧ NoDup ks)
  ∧ stored_ids w2 date ∩ window_ids w2 date = ∅.
Proof.
  unfold main, gate.
  destruct (perform_merge I date w) as [ms w1] eqn:Hmerge.
  destruct (decide (ms = "merge_success")) as [->|_];
    [|repeat case_decide; done].
  destruct (perform_deduplication date w1) as [ds w2'] eqn:Hdedup.
  destruct (decide (ds = "has_new_content")) as [->|_];
    [|repeat case_decide; done].
  intros [= <-].
  apply merge_success_store in Hmerge
    as (result & ks & _ & Hne & Hw1 & Hr & _ & Hform & Hkeys & Hnd & Hload).
  assert (Hr1 : read_fails w1 date = false) by (by rewrite Hw1).
  assert (Hps : stored_papers w1 date = result)
    by (unfold stored_papers; by rewrite Hload).
  assert (Hids : stored_ids w1 date = list_to_set ks)
    by (unfold stored_ids; by rewrite Hload).
  apply dedup_has_new_content in Hdedup as [_ Hcases]. cbn zeta in Hcases.
  rewrite Hps in Hcases.
  destruct Hcases as [[Hnone ->]|[Hsome ->]].
  - rewrite Hps. split; [done|]. split; [done|]. split; [|done].
    by exists ks.
  - set (dups := stored_ids w1 date ∩ window_ids w1 date) in *.
    assert (Hidk : Forall2 (λ p k, id_key p = Ok k) result ks).
    { eapply Forall2_impl; [exact Hkeys|]. intros r k.
      apply record_key_id_key. }
    destruct (survivors_keys _ _ dups Hidk) as (ks' & Hks' & Hset).
    rewrite (stored_papers_after_save w1 date _ ks' Hr1 Hks').
    split; [done|]. split; [|split].
    + eapply Forall_sublist; [|exact Hform]. apply sublist_filter.
    + destruct (filter_keys _ (λ q, ¬ is_duplicate dups q) _ _ Hkeys)
        as (ks'' & Hks'' & Hsub).
      exists ks''. split; [done|]. by eapply sublist_NoDup.
    + rewrite window_ids_today
        by (intros other Hother; by rewrite lookup_insert_ne).
      rewrite (stored_ids_after_save w1 date _ ks' Hr1 Hks').
      rewrite Hset. fold dups. set_solver.
Qed.

(** A file that can be read and has no line that cannot be taken in is
    read whole. *)
Lemma read_lines_loadable ls :
  ¬ Exists unloadable ls →
  ∃ ks, Forall2 (λ p k, id_key p = Ok k) (records ls) ks
        ∧ ∀ papers ids,
            read_lines ls papers ids
            = Ok (papers ++ records ls, ids ∪ list_to_set ks).
Proof.
  induction ls as [|l ls IH]; intros Hok.
  - exists []. split; [constructor|]. intros papers ids. simpl.
    rewrite app_nil_r. f_equal. f_equal. set_solver.
  - assert (Htail : ¬ Exists unloadable ls)
      by (intros H; apply Hok; by right).
    destruct (IH Htail) as (ks & Hks & Hread).
    destruct l as [| |data].
    + exists ks. split; [done|]. intros papers ids. apply Hread.
    + exfalso. apply Hok. left. by left.
    + destruct (id_key data) as [k|e] eqn:Hk.
      2:{ exfalso. apply Hok. left. right. by exists data, e. }
      exists (k :: ks). split; [by constructor|]. intros papers ids.
      rewrite read_lines_step, Hk. simpl. rewrite Hread.
      rewrite <- app_assoc. simpl. f_equal. f_equal. set_solver.
Qed.

Lemma records_elem p ls : LJson p ∈ ls → p ∈ records ls.
Proof.
  induction ls as [|l ls IH]; [by intros ?%not_elem_of_nil|].
  intros [<-|Hin]%elem_of_cons; [left|].
  destruct l; simpl; [by apply IH|by apply IH|right; by apply IH].
Qed.

(** The identifiers of the records on the lines of a file that is read
    whole are what [load_papers_data] returns for it. *)
Lemma stored_ids_of_lines w day ls p k :
  files w !! day = Some ls → read_fails w day = false →
  ¬ Exists unloadable ls →
  LJson p ∈ ls → id_key p = Ok k →
  k ∈ stored_ids w day.
Proof.
  intros Hls Hr Hok Hp Hk.
  destruct (read_lines_loadable ls Hok) as (ks & Hks & Hread).
  unfold stored_ids, load_papers_data.
  rewrite (path_exists_Some _ _ _ Hls), Hls, Hr. simpl. rewrite Hread.
  cbn [snd]. apply elem_of_union_r, elem_of_list_to_set.
  apply records_elem, list_elem_of_lookup in Hp as (i & Hi).
  destruct (Forall2_lookup_l _ _ _ _ _ Hks Hi) as (k' & Hk' & Hkey).
  rewrite Hk in Hkey. injection Hkey as <-.
  by eapply list_elem_of_lookup_2.
Qed.

(** When [main] exits with 0, the day's store is there, holds at least one
    record, holds every identifier once, has every category as a sequence
    without duplicate values, and shares no identifier with what
    [load_papers_data] reads from the stores of the seven days before; a
    store that is missing or that cannot be read whole counts there as a
    store without identifiers.  For a store of the window that is read
    whole, this says that no record on its lines has an identifier of the
    day's store. *)
Theorem main_exit_0 I date w w2 :
  main I date w = (0, w2) →
  stored_papers w2 date ≠ []
  ∧ Forall merged_form (stored_papers w2 date)
  ∧ (∃ ks, Forall2 (λ r k, record_key r = Ok k) (stored_papers w2 date) ks
           ∧ NoDup ks)
  ∧ stored_ids w2 date ∩ window_ids w2 date = ∅
  ∧ ∀ i ls p k,
      1 ≤ i ≤ 7 →
      files w2 !! (date - i) = Some ls →
      read_fails w2 (date - i) = false →
      ¬ Exists unloadable ls →
      LJson p ∈ ls → id_key p = Ok k →
      k ∉ stored_ids w2 date.
Proof.
  intros (Hne & Hform & Hkeys & Hfresh)%main_exit_0_store.
  repeat split; try done.
  intros i ls p k Hi Hls Hr Hok Hp Hk Htoday.
  assert (Hthen : k ∈ stored_ids w2 (date - i))
    by (by eapply stored_ids_of_lines).
  assert (Hwin : k ∈ window_ids w2 date).
  { unfold window_ids. apply elem_of_union_list.
    exists (stored_ids w2 (date - i)). split; [|done].
    apply list_elem_of_fmap. exists i. split; [done|].
    apply elem_of_seqZ. unfold history_days. lia. }
  set_solver.
Qed.

(** Exit code 0 at the store {A, B, C} with B in the store of the day
    before: what is left shares no identifier with the window, and B, on
    the one line of the store of the day before, is not in it. *)
Lemma main_exit_0_witness :
  stored_ids (calm ac_files) day ∩ window_ids (calm ac_files) day = ∅
  ∧ KStr "B" ∉ stored_ids (calm ac_files) day.
Proof.
  destruct (main_exit_0 first_seen day (calm abc_files) (calm ac_files))
    as (_ & _ & _ & H & Hlines); [vm_compute; reflexivity|].
  split; [exact H|].
  apply (Hlines 1 [LJson (paper "B" ["IS"])] (paper "B" ["IS"])).
  - lia.
  - vm_compute. reflexivity.
  - reflexivity.
  - intros Hbad. apply Exists_cons in Hbad as [Hbad|Hbad].
    + destruct Hbad as [?|(data & e & [= <-] & He)]; [done|].
      vm_compute in He. discriminate.
    + by apply Exists_nil in Hbad.
  - left.
  - reflexivity.
Defined.

End StoreMore.

(* ===================================================================== *)
(** * Further facts about the traversal *)
(* ===================================================================== *)

Module SpiderMore.
Import Py Store Spider SpiderTerms StoreTerms Samples SpiderMoreTerms.
Import StoreFacts SpiderFacts.

#[local] Instance result_ret : MRet result := λ A, Ok.
#[local] Instance result_bind : MBind result := λ A B k m, bind m k.

(** ** The categories a spider starts with *)

Lemma elem_of_first_strings x xs : x ∈ first_strings xs ↔ x ∈ xs.
Proof.
  induction xs as [|y xs IH]; [done|]. simpl.
  rewrite !elem_of_cons, list_elem_of_filter, IH.
  destruct (decide (x = y)); naive_solver.
Qed.

Lemma NoDup_first_strings xs : NoDup (first_strings xs).
Proof.
  induction xs as [|x xs IH]; simpl; [constructor|].
  constructor.
  - rewrite list_elem_of_filter. by intros [? _].
  - by apply NoDup_filter.
Qed.

(** [__init__] raises [ValueError] exactly when the date does not parse;
    otherwise the spider it builds has for categories the pieces of
    [CATEGORIES] between commas, stripped, each once, an empty piece
    included, and for [date_str] its date printed. *)
Theorem init_categories strptime_ymd strftime_dmy now set_order
    CATEGORIES DATE :
  (∀ xs, set_order xs ≡ₚ xs) →
  let pieces := strip <$> split_comma (default "IS,MKT,ECON,MG" CATEGORIES) in
  match init strptime_ymd strftime_dmy now set_order CATEGORIES DATE with
  | Raise e => e = ValueError ∧ strptime_ymd (default now DATE) = None
  | Ok self =>
      strptime_ymd (default now DATE) = Some (date self)
      ∧ date_str self = strftime_dmy (date self)
      ∧ NoDup (target_categories self)
      ∧ ∀ c, c ∈ target_categories self ↔ c ∈ pieces
  end.
Proof.
  intros Hperm. cbn zeta. unfold init.
  destruct (strptime_ymd (default now DATE)) as [d|]; [|done].
  cbn [date date_str target_categories]. repeat split; try done.
  - rewrite Hperm. apply NoDup_first_strings.
  - rewrite Hperm. apply elem_of_first_strings.
  - rewrite Hperm. apply elem_of_first_strings.
Qed.

(** With [CATEGORIES="IS, MKT,"] the spider has three categories: IS, MKT
    and the empty string after the last comma. *)
Lemma init_categories_witness :
  match init strptime_ymd_sample strftime_sample "2025-07-22" (λ xs, xs)
          (Some "IS, MKT,") None with
  | Raise _ => False
  | Ok self => "" ∈ target_categories self ∧ "MKT" ∈ target_categories self
  end.
Proof.
  pose proof (init_categories strptime_ymd_sample strftime_sample
                "2025-07-22" (λ xs, xs) (Some "IS, MKT,") None
                (λ xs, reflexivity xs)) as H.
  cbn zeta in H.
  destruct (init _ _ _ _ _ _) as [self|e]; [|by destruct H].
  destruct H as (_ & _ & _ & H).
  split; apply H; vm_compute; set_solver.
Defined.

(** ** The first requests *)

Lemma table_get_build_url self cat :
  build_url self (JStr cat) 0
  = match table_get cat (category2id self) with
    | Some cat_id => Ok (PapersUrl cat_id 0 50 0)
    | None => Raise KeyError
    end.
Proof. done. Qed.

(** [start_requests] asks for the first page of each category in turn; at
    the first category that is not in the table it raises [KeyError], and
    the categories after it are never asked for.  When every category is in
    the table it asks for all of them and raises nothing. *)
Theorem start_requests_cases self :
  (Forall (λ c, is_Some (table_get c (category2id self)))
     (target_categories self) →
   ∃ reqs, start_requests self = (reqs, None)
           ∧ first_requests self (target_categories self) reqs)
  ∧ ∀ known c rest,
      target_categories self = known ++ c :: rest →
      Forall (λ c, is_Some (table_get c (category2id self))) known →
      table_get c (category2id self) = None →
      ∃ reqs, start_requests self = (reqs, Some KeyError)
              ∧ first_requests self known reqs.
Proof.
  unfold start_requests. split.
  - induction 1 as [|c cs [cat_id Hc] _ (reqs & IH & HF)].
    + exists []. split; [done|constructor].
    + cbn [start_requests_from]. rewrite table_get_build_url, Hc, IH.
      eexists. split; [done|]. constructor; [|done]. by exists cat_id.
  - intros known c rest -> Hknown Hc.
    induction Hknown as [|c' cs [cat_id Hc'] _ (reqs & IH & HF)].
    + exists []. split; [|constructor].
      cbn [app start_requests_from]. by rewrite table_get_build_url, Hc.
    + cbn [app start_requests_from]. rewrite table_get_build_url, Hc', IH.
      eexists. split; [done|]. constructor; [|done]. by exists cat_id.
Qed.

Lemma start_requests_cases_witness :
  ∃ reqs, start_requests spider_typo = (reqs, Some KeyError)
          ∧ first_requests spider_typo ["IS"] reqs.
Proof.
  destruct (start_requests_cases spider_typo) as [_ H].
  apply (H ["IS"] "MKTG" ["ECON"]).
  - reflexivity.
  - repeat constructor. by eexists.
  - reflexivity.
Defined.

(** ** What parse can yield *)

Section more.

Variable strptime_dmy : string → option Z.

#[local] Abbreviation parse := (parse strptime_dmy).
#[local] Abbreviation approved_dates := (approved_dates strptime_dmy).

Lemma visit_detail self category paper req :
  visit self category paper = Ok (Some req) → detail_request category req.
Proof.
  unfold visit. intros H.
  apply bind_Ok in H as (paper' & Hset & H).
  apply bind_Ok in H as (s & Hs & H).
  destruct (decide (s ≠ date_str self)); [done|].
  apply bind_Ok in H as (id & Hid & [= <-]).
  exists paper', id. split; [done|]. split; [done|].
  destruct paper; try done. injection Hset as <-.
  simpl. by rewrite dict_get_set.
Qed.

Lemma yield_next_page_cases self category index :
  (∃ next, next_page self category index = Ok next
           ∧ yield_next_page self category index = ([next], None))
  ∨ (∃ e, yield_next_page self category index = ([], Some e)).
Proof.
  unfold yield_next_page.
  destruct (next_page self category index) as [next|e]; [left|right];
    by eexists.
Qed.

Lemma visit_all_requests self category index papers :
  ∃ details tail e,
    visit_all self category index papers = (details ++ tail, e)
    ∧ Forall (detail_request category) details
    ∧ ((tail = [] ∧ ∃ e', e = Some e')
       ∨ (e = None ∧ ∃ next, tail = [next]
                             ∧ next_page self category index = Ok next)).
Proof.
  induction papers as [|paper rest (details & tail & e & IH & HF & Htail)].
  - cbn [visit_all].
    destruct (yield_next_page_cases self category index)
      as [(next & Hnext & ->)|(e & ->)].
    + exists [], [next], None. split; [done|]. split; [constructor|].
      right. split; [done|]. by exists next.
    + exists [], [], (Some e). split; [done|]. split; [constructor|].
      left. split; [done|]. by exists e.
  - cbn [visit_all].
    destruct (visit self category paper) as [[req|]|e'] eqn:Hvisit.
    + exists (req :: details), tail, e. rewrite IH. split; [done|].
      split; [|done]. constructor; [|done]. by eapply visit_detail.
    + by exists details, tail, e.
    + exists [], [], (Some e'). split; [done|]. split; [constructor|].
      left. split; [done|]. by exists e'.
Qed.

(** Whatever the response, what [parse] yields is a run of detail
    requests, each for an entry that has an ['id'] and carrying that entry
    with the current category alone for its category, followed by at most
    one listing request, the one for offset + 50 of the same category; and
    when [parse] raises, it has yielded no listing request, so the
    traversal of the category goes no further. *)
Theorem parse_requests self data meta category index :
  py_get (JObj meta) "category" JNull = Ok category →
  py_get (JObj meta) "index" JNull = Ok index →
  ∃ details tail e,
    parse self {| resp_data := data; resp_meta := JObj meta |}
    = (details ++ tail, e)
    ∧ Forall (detail_request category) details
    ∧ (tail = []
       ∨ (e = None ∧ ∃ next, tail = [next]
                             ∧ next_page self category index = Ok next))
    ∧ (e ≠ None → tail = []).
Proof.
  intros [= Hcat] [= Hidx].
  assert (Hstop : ∀ e : option exn,
    ∃ details tail e',
      ([], e) = (details ++ tail, e')
      ∧ Forall (detail_request category) details
      ∧ (tail = []
         ∨ (e' = None ∧ ∃ next, tail = [next]
                                ∧ next_page self category index = Ok next))
      ∧ (e' ≠ None → tail = [])).
  { intros e. exists [], [], e. repeat split; try done; by left. }
  assert (Hnext :
    ∃ details tail e',
      yield_next_page self category index = (details ++ tail, e')
      ∧ Forall (detail_request category) details
      ∧ (tail = []
         ∨ (e' = None ∧ ∃ next, tail = [next]
                                ∧ next_page self category index = Ok next))
      ∧ (e' ≠ None → tail = [])).
  { destruct (yield_next_page_cases self category index)
      as [(next & Hn & ->)|(e & ->)]; [|apply Hstop].
    exists [], [next], None. split; [done|]. split; [constructor|].
    split; [|done]. right. split; [done|]. by exists next. }
  unfold Spider.parse. cbn [resp_data resp_meta].
  change (py_get (JObj meta) "category" JNull)
    with (Ok (default JNull (dict_get "category" meta))).
  change (py_get (JObj meta) "index" JNull)
    with (Ok (default JNull (dict_get "index" meta))).
  rewrite !bind_ret, Hcat, Hidx.
  destruct (py_get data "PaperResultSet" (JObj [])) as [a|e];
    [rewrite bind_ret|apply Hstop].
  destruct (py_get a "papers" (JObj [])) as [b|e];
    [rewrite bind_ret|apply Hstop].
  destruct (py_get b "papers" (JArr [])) as [c|e];
    [rewrite bind_ret|apply Hstop].
  destruct (py_iter c) as [papers|e]; [rewrite bind_ret|apply Hstop].
  destruct (approved_dates papers) as [dates|e];
    [rewrite bind_ret|apply Hstop].
  destruct (py_min dates) as [earliest|e]; [rewrite bind_ret|apply Hstop].
  destruct (decide (earliest > date self)); [apply Hnext|].
  destruct (py_max dates) as [latest|e]; [|apply Hstop].
  destruct (decide (latest < date self)); [apply Hstop|].
  destruct (visit_all_requests self category index papers)
    as (details & tail & e & -> & HF & [[-> _]|(-> & next & -> & Hn)]).
  - exists details, [], e. repeat split; try done. by left.
  - exists details, [next], None. repeat split; try done.
    right. split; [done|]. by exists next.
Qed.

(** ** A date that does not parse *)

Lemma approved_dates_app before after :
  approved_dates (before ++ after)
  = ds ← approved_dates before; ds' ← approved_dates after; Ok (ds ++ ds').
Proof.
  induction before as [|p before IH]; simpl.
  - by destruct (approved_dates after).
  - destruct (approved_date_of p) as [s|]; simpl; [|done].
    destruct (decide (s = "")); [done|].
    destruct (strptime_dmy s); [|done].
    rewrite IH. destruct (approved_dates before); simpl; [|done].
    by destruct (approved_dates after).
Qed.

(** One entry whose approved date is not blank and does not parse, after
    entries whose dates are blank or parse, and [parse] raises [ValueError]
    without yielding anything: the entries of the target date on the same
    page are lost, and no further page is asked for. *)
Theorem parse_misdated_page self before p after s category index :
  Forall (λ q, ∃ ds, approved_dates [q] = Ok ds) before →
  approved_date_of p = Ok s → s ≠ "" → strptime_dmy s = None →
  parse self (listing_response (before ++ p :: after) category index)
  = ([], Some ValueError).
Proof.
  intros Hbefore Hs Hne Hnone. rewrite parse_listing.
  assert (Hraise : approved_dates (before ++ p :: after) = Raise ValueError).
  { induction Hbefore as [|q before (ds & Hq) _ IH].
    - cbn [app Spider.approved_dates]. rewrite Hs. simpl.
      by rewrite decide_False, Hnone by done.
    - change ((q :: before) ++ p :: after)
        with ([q] ++ (before ++ p :: after)).
      rewrite approved_dates_app, Hq, IH. done. }
  by rewrite Hraise.
Qed.

End more.

Lemma parse_misdated_page_witness :
  Spider.parse strptime_sample spider_0722
    (listing_response misdated_page "IS" 0)
  = ([], Some ValueError).
Proof.
  apply (parse_misdated_page strptime_sample spider_0722
           [entry "1" "22 Jul 2025"] (entry "2" "July 22") [] "July 22").
  - repeat constructor. by eexists.
  - reflexivity.
  - discriminate.
  - reflexivity.
Defined.

Lemma parse_requests_witness :
  ∃ details tail e,
    Spider.parse strptime_sample spider_0722
      (listing_response straddling_page "IS" 0)
    = (details ++ tail, e)
    ∧ Forall (detail_request (JStr "IS")) details
    ∧ (tail = []
       ∨ (e = None ∧ ∃ next, tail = [next]
            ∧ next_page spider_0722 (JStr "IS") (JNum 0) = Ok next))
    ∧ (e ≠ None → tail = []).
Proof.
  apply (parse_requests strptime_sample spider_0722 _
           [("category", JStr "IS"); ("index", JNum 0)]); reflexivity.
Defined.

(** ** parse_detail *)

(** [parse_detail] emits one record: the entry carried by the request, with
    every field but ['detail'] as it was, and under ['detail'] the
    [PaperJson] part of the detail document, or an empty dictionary when
    the document has none.  Without an entry in the request it raises
    [KeyError] and emits nothing. *)
Theorem parse_detail_record doc meta :
  (∀ kvs, dict_get "paper" meta = Some (JObj kvs) →
     ∃ kvs',
       parse_detail {| resp_data := JObj doc; resp_meta := JObj meta |}
       = ([JObj kvs'], None)
       ∧ dict_get "detail" kvs'
         = Some (default (JObj []) (dict_get "PaperJson" doc))
       ∧ ∀ key, key ≠ "detail" → dict_get key kvs' = dict_get key kvs)
  ∧ (dict_get "paper" meta = None →
     parse_detail {| resp_data := JObj doc; resp_meta := JObj meta |}
     = ([], Some KeyError)).
Proof.
  split.
  - intros kvs Hpaper. eexists. split.
    + unfold parse_detail. simpl. rewrite Hpaper. simpl. done.
    + split; [apply dict_get_set|].
      intros key Hne. by apply dict_get_set_ne.
  - intros Hnone. unfold parse_detail. simpl. by rewrite Hnone.
Qed.

(** ** From the traversal to the merge *)

Lemma emitted_record_paper r : emitted_record r → paper_record r.
Proof.
  intros (category & kvs & doc & id & k & -> & Hid & Hk).
  unfold combined, tagged. split.
  - exists k. unfold record_key. simpl.
    rewrite !dict_get_set_ne by done. by rewrite Hid.
  - eexists _, [JStr category], [(KStr category, JStr category)].
    split; [done|]. split; [|done].
    rewrite dict_get_set_ne by done. apply dict_get_set.
Qed.

(** A store that holds the records the traversal emitted, and nothing
    else, is merged without error: [perform_merge] answers [merge_success]
    when the file can be read and written, and writes one record for each
    identifier, with the categories it was listed under. *)
Theorem emitted_records_merge I date w rs :
  files w !! date = Some (LJson <$> rs) →
  rs ≠ [] →
  Forall emitted_record rs →
  read_fails w date = false →
  write_fails w date = NoFault →
  ∃ ks result,
    perform_merge I date w
    = ("merge_success",
       set_files w (<[date := LJson <$> result]> (files w)))
    ∧ Forall2 (λ p k, record_key p = Ok k) rs ks
    ∧ Forall2 (merged_record rs) (distinct ks) result.
Proof.
  intros Hfile Hne Hrs Hr Hwf.
  assert (Hps : Forall paper_record rs).
  { eapply Forall_impl; [done|]. apply emitted_record_paper. }
  assert (Hkeys : ∃ ks, Forall2 (λ p k, id_key p = Ok k) rs ks).
  { clear -Hps. induction Hps as [|r rs [[k Hk] _] _ (ks & IH)].
    - by exists [].
    - exists (k :: ks). constructor; [|done]. by apply record_key_id_key. }
  destruct Hkeys as (ks0 & Hks0).
  assert (Hload : stored_papers w date = rs).
  { unfold stored_papers. by rewrite (load_written w date rs ks0). }
  destruct (merge_papers_total I rs Hps) as (result & Hm).
  destruct (merge_papers_merged I rs result Hm) as (ks & Hks & Hmerged).
  { eapply Forall_impl; [exact Hps|]. apply paper_record_sequence. }
  exists ks, result. split; [|done].
  rewrite perform_merge_outcome, Hload.
  destruct rs as [|r rs']; [done|].
  rewrite Hm. unfold save_papers_data. by rewrite Hwf.
Qed.

Lemma emitted_records_merge_witness :
  (perform_merge first_seen 739454 (calm emitted_files)).1 = "merge_success".
Proof.
  destruct (emitted_records_merge first_seen 739454 (calm emitted_files)
              [combined "IS"
                 [("id", JStr "1"); ("approved_date", JStr "22 Jul 2025")]
                 [("PaperJson", JObj [("title", JStr "t")])];
               combined "MKT"
                 [("id", JStr "1"); ("approved_date", JStr "22 Jul 2025")]
                 []])
    as (ks & result & -> & _); try done.
  repeat constructor;
    eexists _, _, _, (JStr "1"), (KStr "1"); by repeat split.
Defined.

(** ** A page of one entry *)

(** When the entries of a page come as one dictionary instead of a
    sequence of dictionaries, which is how a listing with a single paper
    is read, the first loop of [parse] goes over the keys of that
    dictionary, and [parse] raises [AttributeError] at the first of them
    without yielding anything. *)
Theorem parse_single_entry_page strptime_dmy self kvs meta :
  kvs ≠ [] →
  Spider.parse strptime_dmy self
    {| resp_data :=
         JObj [("PaperResultSet",
                JObj [("papers", JObj [("papers", JObj kvs)])])];
       resp_meta := JObj meta |}
  = ([], Some AttributeError).
Proof.
  destruct kvs as [|[k v] kvs]; [done|]. intros _.
  unfold Spider.parse. cbn [resp_data resp_meta].
  change (py_get (JObj meta) "category" JNull)
    with (Ok (default JNull (dict_get "category" meta))).
  change (py_get (JObj meta) "index" JNull)
    with (Ok (default JNull (dict_get "index" meta))).
  by rewrite !bind_ret.
Qed.

Lemma parse_single_entry_page_witness :
  Spider.parse strptime_sample spider_0722
    {| resp_data :=
         JObj [("PaperResultSet",
                JObj [("papers",
                       JObj [("papers",
                              JObj [("id", JStr "4");
                                    ("approved_date", JStr "22 Jul 2025")])])])];
       resp_meta := JObj [("category", JStr "IS"); ("index", JNum 0)] |}
  = ([], Some AttributeError).
Proof.
  apply (parse_single_entry_page strptime_sample spider_0722
           [("id", JStr "4"); ("approved_date", JStr "22 Jul 2025")]).
  discriminate.
Defined.

End SpiderMore.
